(** * Outing recommendation runner: feature encoding, alignment and cluster match

    A shallow embedding of [src/ai/prep_preferences.py], [src/ai/prep_sorties.py]
    and [src/ai/recommendation_runner.py].

    Layout: Python scalars and strings; pandas tables and the table operations
    the program calls; the object store in which data frames live (so that
    in-place assignment and [df.copy()] are told apart); the two encoders and
    [ensure_features]; the runner ([predict_user_cluster],
    [predict_sorties_clusters], [main]); then the lemmas and theorems. *)

From Stdlib Require Import ZArith Floats Ascii String List Lia Bool.
From stdpp Require Import base tactics option list sets strings pretty.
Import ListNotations.

Open Scope Z_scope.
Open Scope string_scope.

Set Warnings "-clear-no-such-hyp".

(* ====================================================================== *)
(** ** Python scalars                                                      *)
(* ====================================================================== *)

(** A cell of a table, or a scalar of a decoded JSON document: [None]
    (JSON null), a bool, an int (unbounded), a float (binary64, NaN
    included) or a str. *)
Inductive Cell : Type :=
| VNone
| VBool (b : bool)
| VInt (z : Z)
| VFloat (f : float)
| VStr (s : string).

(** The dtypes a column of this program can have. [DObject] is the only one
    [pd.api.types.is_numeric_dtype] rejects. *)
Inductive Dtype : Type := DBool | DInt | DFloat | DObject.

Definition is_numeric_dtype (d : Dtype) : bool :=
  match d with DObject => false | _ => true end.

(** A column ([pd.Series]): its dtype and its cells, top row first. *)
Record Series : Type := mkSeries { dtype : Dtype; cells : list Cell }.

(** What the program takes from libraries that are not part of the
    repository, as far as their value matters here and is not fixed below:
    - [repr_float]: Python's [str] of a float;
    - [pd_to_numeric]: the column [pd.to_numeric(col, errors="coerce")]
      returns;
    - [dateutil_parse]: [dateutil.parser.parse] of a str, as the pair
      (month, weekday) of the parsed date, [None] when it raises;
    - [datetime64_column]: whether pandas stores the dates parsed from
      these strs, in this order, as one datetime64 column (it does not when
      their UTC offsets differ or one of them is out of its range: the
      column then stays an object column of [datetime]);
    - [int_unicode]: [int(s)] on a str that holds a character outside
      ASCII, which goes through the Unicode tables of the interpreter,
      [None] when it raises;
    - [int_max_str_digits]: [sys.get_int_max_str_digits()], 0 when the
      interpreter sets no limit. *)
Class PyLibs : Type := {
  repr_float : float -> string;
  pd_to_numeric : Series -> Series;
  dateutil_parse : string -> option (Z * Z);
  datetime64_column : list string -> bool;
  int_unicode : string -> option Z;
  int_max_str_digits : nat;
}.

(** [pd.isna(x)] on a scalar. *)
Definition pd_isna (c : Cell) : bool :=
  match c with
  | VNone => true
  | VFloat f => PrimFloat.is_nan f
  | _ => false
  end.

(** [str(x)]. *)
Definition py_str `{PyLibs} (c : Cell) : string :=
  match c with
  | VNone => "None"
  | VBool true => "True"
  | VBool false => "False"
  | VInt z => pretty z
  | VFloat f => repr_float f
  | VStr s => s
  end.

(** [c.lower()] on one character: only A..Z change (the program compares the
    result with ASCII words, and no other character lowers to an ASCII
    letter of those words). *)
Definition lower_ascii (a : ascii) : ascii :=
  let n := nat_of_ascii a in
  if ((65 <=? n) && (n <=? 90))%nat then ascii_of_nat (n + 32) else a.

Fixpoint py_lower (s : string) : string :=
  match s with
  | EmptyString => EmptyString
  | String a s' => String (lower_ascii a) (py_lower s')
  end.

(** [s.split(sep)] for a one-character separator: every occurrence splits,
    empty pieces are kept, and the result is never empty. *)
Fixpoint py_split (sep : ascii) (s : string) : list string :=
  match s with
  | EmptyString => [EmptyString]
  | String a s' =>
      if Ascii.eqb a sep then EmptyString :: py_split sep s'
      else match py_split sep s' with
           | w :: ws => String a w :: ws
           | [] => [String a EmptyString]
           end
  end.

(** *** [int(s)] on a str *)

(** The characters [int] skips around an ASCII literal: tab, line feed,
    vertical tab, form feed, carriage return and space. (The separators
    chr(28) to chr(31), which [str.isspace] accepts, are not skipped.) *)
Definition py_isspace (a : ascii) : bool :=
  let n := nat_of_ascii a in
  (((9 <=? n) && (n <=? 13)) || (n =? 32))%nat.

Fixpoint lstrip (l : list ascii) : list ascii :=
  match l with
  | a :: l' => if py_isspace a then lstrip l' else l
  | [] => []
  end.

Definition py_strip (l : list ascii) : list ascii :=
  rev (lstrip (rev (lstrip l))).

Definition digit_value (a : ascii) : option Z :=
  let n := nat_of_ascii a in
  if ((48 <=? n) && (n <=? 57))%nat then Some (Z.of_nat (n - 48)) else None.

(** Decimal digits, single underscores allowed between two digits.
    [after_digit] says whether the previous character was a digit. *)
Fixpoint int_digits (acc : Z) (after_digit : bool) (l : list ascii) : option Z :=
  match l with
  | [] => if after_digit then Some acc else None
  | a :: l' =>
      match digit_value a with
      | Some d => int_digits (10 * acc + d) true l'
      | None =>
          if Ascii.eqb a "_"%char && after_digit then int_digits acc false l'
          else None
      end
  end.

(** A str of ASCII characters only (a str is held as its UTF-8 bytes, and
    the bytes below 128 are the ASCII characters). *)
Definition is_ascii (s : string) : bool :=
  forallb (λ a, (nat_of_ascii a <? 128)%nat) (list_ascii_of_string s).

Definition count_digits (l : list ascii) : nat :=
  length (filter (λ a, is_Some (digit_value a)) l).

(** A literal of more than 640 digits is refused when the interpreter has a
    limit and the literal has more digits than it. *)
Definition over_limit `{PyLibs} (l : list ascii) : bool :=
  ((640 <? count_digits l) && (0 <? int_max_str_digits)
   && (int_max_str_digits <? count_digits l))%nat.

Definition int_literal `{PyLibs} (l : list ascii) : option Z :=
  match int_digits 0 false l with
  | Some z => if over_limit l then None else Some z
  | None => None
  end.

(** [int(s)]: [None] stands for [ValueError]. On an ASCII str the blanks
    around the literal are skipped, one sign is allowed and the base is
    ten; any other str is read by [int_unicode]. *)
Definition py_int `{PyLibs} (s : string) : option Z :=
  if is_ascii s then
    match py_strip (list_ascii_of_string s) with
    | "-"%char :: l => Z.opp <$> int_literal l
    | "+"%char :: l => int_literal l
    | l => int_literal l
    end
  else int_unicode s.

(** *** Floats *)

(** The float nearest to an int (ties to even); [None] stands for the
    [OverflowError] Python raises when the int is too large for a float. *)
Definition float_of_int (z : Z) : option float :=
  let f := SF2Prim (binary_normalize prec emax z 0 false) in
  if PrimFloat.is_infinity f then None else Some f.

(** [_parse_hour_to_float]: every exception of the [try] block
    ([ValueError] of [int], [OverflowError] of the arithmetic) is caught and
    gives NaN. *)
Definition _parse_hour_to_float `{PyLibs} (h : Cell) : float :=
  if pd_isna h then PrimFloat.nan
  else
    match py_split ":" (py_str h) with
    | [p0; p1] =>
        match py_int p0 with
        | None => PrimFloat.nan
        | Some hh =>
            match py_int p1 with
            | None => PrimFloat.nan
            | Some mm =>
                match float_of_int mm with
                | None => PrimFloat.nan
                | Some fm =>
                    match float_of_int hh with
                    | None => PrimFloat.nan
                    | Some fh => PrimFloat.add fh (PrimFloat.div fm 60%float)
                    end
                end
            end
        end
    | _ => PrimFloat.nan
    end.

(** The words that count as true in a flag column. *)
Definition TRUTHY : list string := ["true"; "1"; "yes"].

(** One cell of [col.astype(str).str.lower().isin(["true", "1", "yes"])]. *)
Definition truthy `{PyLibs} (c : Cell) : bool :=
  bool_decide (py_lower (py_str c) ∈ TRUTHY).

(* ====================================================================== *)
(** ** pandas tables                                                       *)
(* ====================================================================== *)

(** A data frame with the default index 0..n-1: the number of rows and the
    labelled columns, left to right. Two columns may bear one label (pandas
    allows it, and [pd.concat(axis=1)] produces it), so the columns are an
    association list and not a map. *)
Record Table : Type := mkTable { nrows : nat; columns : list (string * Series) }.

(** [df.columns]. *)
Definition names (t : Table) : list string := (columns t).*1.

(** [n in df.columns]. *)
Definition has_col (n : string) (t : Table) : bool := bool_decide (n ∈ names t).

(** The columns that bear the label [n], left to right. *)
Definition cols_named (n : string) (t : Table) : list Series :=
  (filter (λ c, c.1 = n) (columns t)).*2.

(** [df[n]] for a label borne by one column ([None]: [KeyError]). *)
Definition lookup_col (n : string) (t : Table) : option Series :=
  head (cols_named n t).

(** [df[n] = s]: every column labelled [n] takes the new content; when there
    is none, a column is added on the right. *)
Definition set_col (n : string) (s : Series) (t : Table) : Table :=
  if has_col n t
  then mkTable (nrows t) (map (λ c, if decide (c.1 = n) then (n, s) else c) (columns t))
  else mkTable (nrows t) (columns t ++ [(n, s)]).

(** [df[n] = v] for a scalar [v]: the value in every row. *)
Definition full (d : Dtype) (v : Cell) (t : Table) : Series :=
  mkSeries d (replicate (nrows t) v).

(** [df.drop(columns=ns)] once every label of [ns] is known to be there. *)
Definition drop_cols (ns : list string) (t : Table) : Table :=
  mkTable (nrows t) (filter (λ c, c.1 ∉ ns) (columns t)).

(** [pd.concat([df, extra], axis=1)] for frames over the same index. *)
Definition concat_cols (extra : list (string * Series)) (t : Table) : Table :=
  mkTable (nrows t) (columns t ++ extra).

(** [df[ns]] for a list of labels: for each label in turn, every column
    that bears it; [None] ([KeyError]) when a label is borne by none. *)
Fixpoint select_cols (ns : list string) (t : Table) : option (list (string * Series)) :=
  match ns with
  | [] => Some []
  | n :: ns' =>
      match cols_named n t with
      | [] => None
      | ss => app (map (pair n) ss) <$> select_cols ns' t
      end
  end.

(** The cells of a column kept by a boolean mask. *)
Fixpoint mask_cells {A : Type} (mask : list bool) (l : list A) : list A :=
  match mask, l with
  | b :: mask', x :: l' => if b then x :: mask_cells mask' l' else mask_cells mask' l'
  | _, _ => []
  end.

(** [df[mask].reset_index(drop=True)]. *)
Definition filter_rows (mask : list bool) (t : Table) : Table :=
  mkTable (length (mask_cells mask (seq 0 (nrows t))))
          (map (λ c, (c.1, mkSeries (dtype c.2) (mask_cells mask (cells c.2)))) (columns t)).

(** [df.at[i, n] = v]. *)
Definition set_at (i : nat) (n : string) (v : Cell) (t : Table) : Table :=
  mkTable (nrows t)
          (map (λ c, if decide (c.1 = n)
                     then (c.1, mkSeries (dtype c.2) (<[i := v]> (cells c.2)))
                     else c) (columns t)).

(** *** Column operations *)

(** [col.fillna(v)]: a float column takes the int [0] as the float [0.0];
    a column that has to take a str becomes an object column. *)
Definition fillna (v : Cell) (s : Series) : Series :=
  let has_na := existsb pd_isna (cells s) in
  let d := match v with
           | VStr _ => if has_na then DObject else dtype s
           | _ => dtype s
           end in
  let v' := match dtype s, v with
            | DFloat, VInt z => VFloat (SF2Prim (binary_normalize prec emax z 0 false))
            | _, _ => v
            end in
  mkSeries d (map (λ c, if pd_isna c then v' else c) (cells s)).

(** [col.astype(str)]. *)
Definition astype_str `{PyLibs} (s : Series) : Series :=
  mkSeries DObject (map (λ c, VStr (py_str c)) (cells s)).

(** [col.astype(str).str.lower().isin(["true", "1", "yes"])]. *)
Definition isin_truthy `{PyLibs} (s : Series) : list bool :=
  map truthy (cells s).

(** [mask.astype(int)]. *)
Definition bools_as_int (mask : list bool) : Series :=
  mkSeries DInt (map (λ b : bool, VInt (if b then 1 else 0)) mask).

(** Strings in increasing order (code point order, which is byte order on
    UTF-8; [String.leb] compares bytes). *)
Fixpoint insert_sorted (x : string) (l : list string) : list string :=
  match l with
  | [] => [x]
  | y :: l' => if String.leb x y then x :: l else y :: insert_sorted x l'
  end.

Definition sort_strings (l : list string) : list string :=
  foldr insert_sorted [] l.

(** The categories [pd.get_dummies] finds in a column of str: its distinct
    values in increasing order. *)
Definition levels `{PyLibs} (s : Series) : list string :=
  sort_strings (remove_dups (map py_str (cells s))).

(** [pd.get_dummies(col, prefix=p)] for a column of str: one bool column
    [p_<level>] per level, true in the rows that hold the level. (pandas
    before 2.0 gives the same columns as uint8 0/1.) *)
Definition get_dummies `{PyLibs} (s : Series) (p : string) : list (string * Series) :=
  map (λ lv, (p +:+ "_" +:+ lv,
              mkSeries DBool (map (λ c, VBool (bool_decide (py_str c = lv))) (cells s))))
      (levels s).

(** [col.apply(f)] for an [f] that returns floats: a float column (an empty
    column keeps its dtype). *)
Definition apply_float (f : Cell -> float) (s : Series) : Series :=
  mkSeries (match cells s with [] => dtype s | _ => DFloat end)
           (map (λ c, VFloat (f c)) (cells s)).

(* ====================================================================== *)
(** ** The object store                                                    *)
(* ====================================================================== *)

(** A Python variable holds a reference to a data frame object. The store
    gives the frame of every reference; references are handed out in
    increasing order. *)
Definition ref : Type := nat.

Record Heap : Type := mkHeap { next_ref : nat; frame_at : ref -> Table }.

(** How a call ends: a value, an exception (a subclass of [Exception], with
    its message), or [SystemExit] with the exit status. *)
Inductive Res (A : Type) : Type :=
| Ok (a : A)
| Raise (e : string)
| Exit (code : Z).
Arguments Ok {A} a.
Arguments Raise {A} e.
Arguments Exit {A} code.

(** Computations over a state [S] that may raise. *)
Definition St (S A : Type) : Type := S -> Res A * S.

#[global] Instance St_ret {S} : MRet (St S) := λ A a s, (Ok a, s).
#[global] Instance St_bind {S} : MBind (St S) := λ A B f m s,
  match m s with
  | (Ok a, s') => f a s'
  | (Raise e, s') => (Raise e, s')
  | (Exit c, s') => (Exit c, s')
  end.

Definition raise {S A} (e : string) : St S A := λ s, (Raise e, s).

(** [for x in l: body], threading the local variable the body rebinds. *)
Fixpoint for_each {S A V} (l : list A) (body : A -> V -> St S V) (v : V) : St S V :=
  match l with
  | [] => mret v
  | x :: l' => v' ← body x v; for_each l' body v'
  end.

(** Computations over the object store. *)
Definition M (A : Type) : Type := St Heap A.

Definition upd (f : ref -> Table) (r : ref) (t : Table) : ref -> Table :=
  λ q, if Nat.eqb q r then t else f q.

(** The frame behind a reference. *)
Definition deref (r : ref) : M Table := λ h, (Ok (frame_at h r), h).

(** A new object. *)
Definition alloc (t : Table) : M ref := λ h,
  (Ok (next_ref h), mkHeap (S (next_ref h)) (upd (frame_at h) (next_ref h) t)).

(** An object changed in place. *)
Definition mutate (r : ref) (f : Table -> Table) : M () := λ h,
  (Ok (), mkHeap (next_ref h) (upd (frame_at h) r (f (frame_at h r)))).

(** *** The data frame methods the program calls *)

(** [df.copy()]: a new object with the same content. *)
Definition df_copy (df : ref) : M ref := t ← deref df; alloc t.

(** [df.columns]. *)
Definition df_columns (df : ref) : M (list string) := t ← deref df; mret (names t).

(** [df[n]]; [KeyError] when no column bears the label. *)
Definition df_getitem (df : ref) (n : string) : M Series :=
  t ← deref df;
  match lookup_col n t with
  | Some s => mret s
  | None => raise ("KeyError: " +:+ n)
  end.

(** [df[n] = s], in place. *)
Definition df_setitem (df : ref) (n : string) (s : Series) : M () :=
  mutate df (set_col n s).

(** [df[n] = v] for a scalar, in place. *)
Definition df_setitem_scalar (df : ref) (n : string) (d : Dtype) (v : Cell) : M () :=
  mutate df (λ t, set_col n (full d v t) t).

(** [df.at[i, n] = v], in place. *)
Definition df_set_at (df : ref) (i : nat) (n : string) (v : Cell) : M () :=
  mutate df (set_at i n v).

(** [df.drop(columns=ns)]: a new frame; [KeyError] when a label is missing. *)
Definition df_drop (df : ref) (ns : list string) : M ref :=
  t ← deref df;
  if forallb (λ n, has_col n t) ns then alloc (drop_cols ns t)
  else raise "KeyError: not found in axis".

(** [pd.concat([df, extra], axis=1)]: a new frame. *)
Definition pd_concat (df : ref) (extra : list (string * Series)) : M ref :=
  t ← deref df; alloc (concat_cols extra t).

(** [df[mask].reset_index(drop=True)]: a new frame. *)
Definition df_mask (df : ref) (mask : list bool) : M ref :=
  t ← deref df; alloc (filter_rows mask t).

(** [df[ns]] for a list of labels: a new frame; [KeyError] when a label is
    missing. *)
Definition df_getitem_list (df : ref) (ns : list string) : M ref :=
  t ← deref df;
  match select_cols ns t with
  | Some cs => alloc (mkTable (nrows t) cs)
  | None => raise "KeyError: not in index"
  end.

(** [pd.api.types.is_numeric_dtype(df[n])]. When several columns bear the
    label, [df[n]] is a data frame and the answer is [False]. *)
Definition df_is_numeric (df : ref) (n : string) : M bool :=
  t ← deref df;
  mret (match cols_named n t with
        | [s] => is_numeric_dtype (dtype s)
        | _ => false
        end).

(* ====================================================================== *)
(** ** recommendation_runner.ensure_features                               *)
(* ====================================================================== *)

Definition ensure_features (df : ref) (required_features : list string) : M ref :=
  for_each required_features (λ feature _,
      cols ← df_columns df;
      if bool_decide (feature ∉ cols)
      then df_setitem_scalar df feature DInt (VInt 0)
      else mret ()) ();;
  df_getitem_list df required_features.

(* ====================================================================== *)
(** ** prep_preferences                                                    *)
(* ====================================================================== *)

Definition PREF_ONE_HOT_COLS : list string :=
  ["level"; "cyclingType"; "cyclingFrequency"; "cyclingDistance"; "hikeType";
   "hikeDuration"; "hikePreference"; "campingType"; "campingDuration"].

Definition PREF_BOOL_COLS : list string := ["cyclingGroupInterest"; "campingPractice"].

Definition PREF_DAYS : list string :=
  ["MONDAY"; "TUESDAY"; "WEDNESDAY"; "THURSDAY"; "FRIDAY"; "SATURDAY"; "SUNDAY"].

(** The three statements both encoders run for a categorical field:
    [df[col] = df[col].fillna(fill).astype(str)];
    [dummies = pd.get_dummies(df[col], prefix=col)];
    [df = pd.concat([df.drop(columns=[col]), dummies], axis=1)],
    under [if col in df.columns]. *)
Definition one_hot `{PyLibs} (fill : string) (col : string) (df : ref) : M ref :=
  cols ← df_columns df;
  if bool_decide (col ∈ cols) then
    s ← df_getitem df col;
    df_setitem df col (astype_str (fillna (VStr fill) s));;
    s' ← df_getitem df col;
    let dummies := get_dummies s' col in
    dropped ← df_drop df [col];
    pd_concat dropped dummies
  else mret df.

(** [df[col] = df[col].astype(str).str.lower().isin([...]).astype(int)]
    under [if col in df.columns]. *)
Definition flag_to_int `{PyLibs} (col : string) (df : ref) : M ref :=
  cols ← df_columns df;
  if bool_decide (col ∈ cols) then
    s ← df_getitem df col;
    df_setitem df col (bools_as_int (isin_truthy s));;
    mret df
  else mret df.

(** The final loop of both encoders:
    [for col in df.columns: if is_numeric_dtype(df[col]): df[col] = df[col].fillna(0)]. *)
Definition fill_numeric (df : ref) : M ref :=
  cols ← df_columns df;
  for_each cols (λ col _,
      numeric ← df_is_numeric df col;
      if (numeric : bool) then
        s ← df_getitem df col;
        df_setitem df col (fillna (VInt 0) s)
      else mret ()) ();;
  mret df.

Definition _encode_days `{PyLibs} (val : Cell) : list string :=
  if pd_isna val then [] else py_split "|" (py_str val).

(** [enumerate]: the rows of a column with their index labels 0..n-1. *)
Definition items {A} (l : list A) : list (nat * A) := zip (seq 0 (length l)) l.

Definition day_col (j : string) : string := "day_" +:+ j.

Definition encode_available_days `{PyLibs} (df : ref) : M ref :=
  cols ← df_columns df;
  if bool_decide ("availableDays" ∈ cols) then
    for_each PREF_DAYS (λ j _, df_setitem_scalar df (day_col j) DInt (VInt 0)) ();;
    s ← df_getitem df "availableDays";
    let all_days := map _encode_days (cells s) in
    for_each (items all_days) (λ (row : nat * list string) _,
        let (idx, days) := row in
        for_each PREF_DAYS (λ j _,
            if bool_decide (j ∈ days) then df_set_at df idx (day_col j) (VInt 1)
            else mret ()) ()) ();;
    df_drop df ["availableDays"]
  else mret df.

(** [df[out] = df[col].apply(_parse_hour_to_float)]; [df = df.drop(columns=[col])],
    under [if col in df.columns]. *)
Definition encode_hour `{PyLibs} (col out : string) (df : ref) : M ref :=
  cols ← df_columns df;
  if bool_decide (col ∈ cols) then
    s ← df_getitem df col;
    df_setitem df out (apply_float _parse_hour_to_float s);;
    df_drop df [col]
  else mret df.

(** [df[col] = pd.to_numeric(df[col], errors="coerce")]. *)
Definition coerce_numeric `{PyLibs} (col : string) (df : ref) : M ref :=
  cols ← df_columns df;
  if bool_decide (col ∈ cols) then
    s ← df_getitem df col;
    df_setitem df col (pd_to_numeric s);;
    mret df
  else mret df.

Definition keep_onboarded `{PyLibs} (df : ref) : M ref :=
  cols ← df_columns df;
  if bool_decide ("onboardingComplete" ∈ cols) then
    s ← df_getitem df "onboardingComplete";
    df_mask df (isin_truthy s)
  else mret df.

Definition prepare_preferences_dataframe `{PyLibs} (df : ref) : M ref :=
  df ← df_copy df;
  df ← keep_onboarded df;
  df ← for_each PREF_ONE_HOT_COLS (one_hot "UNKNOWN") df;
  df ← for_each PREF_BOOL_COLS flag_to_int df;
  df ← encode_available_days df;
  df ← encode_hour "start" "start_hour" df;
  df ← encode_hour "end" "end_hour" df;
  df ← for_each ["latitude"; "longitude"; "averageSpeed"] coerce_numeric df;
  fill_numeric df.

(* ====================================================================== *)
(** ** prep_sorties                                                        *)
(* ====================================================================== *)

Definition SORTIES_REMOVE_TEXT_COLS : list string :=
  ["titre"; "description"; "photo"; "createurId"; "itineraire_description"].

Definition SORTIES_BOOL_COLS : list string := ["option_camping"; "camping"].

Definition SORTIES_NUMERIC_COLS : list string :=
  ["capacite"; "distance"; "duree_estimee";
   "depart_lat"; "depart_lon"; "arrivee_lat"; "arrivee_lon"].

(** [_parse_datetime_safe], as the (month, weekday) of the date. *)
Definition _parse_datetime_safe `{PyLibs} (dt : Cell) : option (Z * Z) :=
  if pd_isna dt then None else dateutil_parse (py_str dt).

(** The strs of a date column that the parser reads, top row first. *)
Definition parsed_texts `{PyLibs} (cs : list Cell) : list string :=
  map py_str (filter (λ c, is_Some (_parse_datetime_safe c)) cs).

(** [dt_parsed.apply(lambda d: part(d) if d is not None else 0)], for a
    date column of dtype [d0]. [Series.apply] on a column without rows
    returns a column of the same dtype, so with no row the result keeps
    [d0]. When no date parsed, [dt_parsed] is an object column of [None]
    and every row gives the int 0; when all did, every row gives an int.
    When only some did and pandas stores [dt_parsed] as a datetime64 column
    ([datetime64]), the failed rows hold [NaT], which is not [None], and
    [NaT.month] and [NaT.weekday()] are NaN: the result is then a float
    column. When [dt_parsed] stays an object column the failed rows hold
    [None] and give the int 0. *)
Definition date_part (part : Z * Z -> Z) (d0 : Dtype) (datetime64 : bool)
    (parsed : list (option (Z * Z))) : Series :=
  match parsed with
  | [] => mkSeries d0 []
  | _ =>
      if datetime64
         && existsb (λ d : option (Z * Z), bool_decide (is_Some d)) parsed
         && existsb (λ d : option (Z * Z), negb (bool_decide (is_Some d))) parsed
      then
        mkSeries DFloat
          (map (λ d : option (Z * Z),
                  match d with
                  | Some x => VFloat (SF2Prim (binary_normalize prec emax (part x) 0 false))
                  | None => VFloat PrimFloat.nan
                  end) parsed)
      else mkSeries DInt (map (λ d, VInt (from_option part 0 d)) parsed)
  end.

Definition drop_if_present (col : string) (df : ref) : M ref :=
  cols ← df_columns df;
  if bool_decide (col ∈ cols) then df_drop df [col] else mret df.

(** [df[col] = pd.to_numeric(df[col], errors="coerce").fillna(0)]. *)
Definition coerce_numeric_fill `{PyLibs} (col : string) (df : ref) : M ref :=
  cols ← df_columns df;
  if bool_decide (col ∈ cols) then
    s ← df_getitem df col;
    df_setitem df col (fillna (VInt 0) (pd_to_numeric s));;
    mret df
  else mret df.

Definition encode_date `{PyLibs} (df : ref) : M ref :=
  cols ← df_columns df;
  if bool_decide ("date" ∈ cols) then
    s ← df_getitem df "date";
    let dt_parsed := map _parse_datetime_safe (cells s) in
    let datetime64 := datetime64_column (parsed_texts (cells s)) in
    df_setitem df "mois" (date_part fst (dtype s) datetime64 dt_parsed);;
    df_setitem df "jour_semaine" (date_part snd (dtype s) datetime64 dt_parsed);;
    df_drop df ["date"]
  else mret df.

Definition prepare_sorties_dataframe `{PyLibs} (df : ref) : M ref :=
  df ← df_copy df;
  df ← for_each SORTIES_REMOVE_TEXT_COLS drop_if_present df;
  df ← one_hot "INCONNUE" "difficulte" df;
  df ← one_hot "UNKNOWN" "type" df;
  df ← for_each SORTIES_BOOL_COLS flag_to_int df;
  df ← for_each SORTIES_NUMERIC_COLS coerce_numeric_fill df;
  df ← encode_date df;
  fill_numeric df.

(* ====================================================================== *)
(** ** The encoders as functions on tables                                 *)
(* ====================================================================== *)

(** What each block above does to the content of the frame it works on.
    The lemmas of the second half show that running the block on the store
    yields exactly this table, whatever the store. *)

Definition keep_onboarded_table `{PyLibs} (t : Table) : Table :=
  match lookup_col "onboardingComplete" t with
  | Some s => filter_rows (isin_truthy s) t
  | None => t
  end.

Definition one_hot_table `{PyLibs} (fill col : string) (t : Table) : Table :=
  match lookup_col col t with
  | Some s =>
      let s1 := astype_str (fillna (VStr fill) s) in
      concat_cols (get_dummies s1 col) (drop_cols [col] (set_col col s1 t))
  | None => t
  end.

Definition flag_to_int_table `{PyLibs} (col : string) (t : Table) : Table :=
  match lookup_col col t with
  | Some s => set_col col (bools_as_int (isin_truthy s)) t
  | None => t
  end.

Definition zero_days (t : Table) : Table :=
  foldl (λ t j, set_col (day_col j) (full DInt (VInt 0) t) t) t PREF_DAYS.

Definition mark_days (row : nat * list string) (t : Table) : Table :=
  foldl (λ t j, if bool_decide (j ∈ row.2) then set_at row.1 (day_col j) (VInt 1) t else t)
        t PREF_DAYS.

Definition encode_available_days_table `{PyLibs} (t : Table) : Table :=
  match lookup_col "availableDays" t with
  | Some s =>
      drop_cols ["availableDays"]
        (foldl (λ t row, mark_days row t) (zero_days t)
               (items (map _encode_days (cells s))))
  | None => t
  end.

Definition encode_hour_table `{PyLibs} (col out : string) (t : Table) : Table :=
  match lookup_col col t with
  | Some s => drop_cols [col] (set_col out (apply_float _parse_hour_to_float s) t)
  | None => t
  end.

Definition coerce_numeric_table `{PyLibs} (col : string) (t : Table) : Table :=
  match lookup_col col t with
  | Some s => set_col col (pd_to_numeric s) t
  | None => t
  end.

Definition fill_numeric_step (t : Table) (col : string) : Table :=
  match cols_named col t with
  | [s] => if is_numeric_dtype (dtype s) then set_col col (fillna (VInt 0) s) t else t
  | _ => t
  end.

Definition fill_numeric_table (t : Table) : Table :=
  foldl fill_numeric_step t (names t).

Definition prepare_preferences_table `{PyLibs} (t : Table) : Table :=
  let t := keep_onboarded_table t in
  let t := foldl (λ t col, one_hot_table "UNKNOWN" col t) t PREF_ONE_HOT_COLS in
  let t := foldl (λ t col, flag_to_int_table col t) t PREF_BOOL_COLS in
  let t := encode_available_days_table t in
  let t := encode_hour_table "start" "start_hour" t in
  let t := encode_hour_table "end" "end_hour" t in
  let t := foldl (λ t col, coerce_numeric_table col t) t
                 ["latitude"; "longitude"; "averageSpeed"] in
  fill_numeric_table t.

Definition drop_if_present_table (col : string) (t : Table) : Table :=
  if has_col col t then drop_cols [col] t else t.

Definition coerce_numeric_fill_table `{PyLibs} (col : string) (t : Table) : Table :=
  match lookup_col col t with
  | Some s => set_col col (fillna (VInt 0) (pd_to_numeric s)) t
  | None => t
  end.

Definition encode_date_table `{PyLibs} (t : Table) : Table :=
  match lookup_col "date" t with
  | Some s =>
      let dt_parsed := map _parse_datetime_safe (cells s) in
      let datetime64 := datetime64_column (parsed_texts (cells s)) in
      drop_cols ["date"]
        (set_col "jour_semaine" (date_part snd (dtype s) datetime64 dt_parsed)
           (set_col "mois" (date_part fst (dtype s) datetime64 dt_parsed) t))
  | None => t
  end.

Definition prepare_sorties_table `{PyLibs} (t : Table) : Table :=
  let t := foldl (λ t col, drop_if_present_table col t) t SORTIES_REMOVE_TEXT_COLS in
  let t := one_hot_table "INCONNUE" "difficulte" t in
  let t := one_hot_table "UNKNOWN" "type" t in
  let t := foldl (λ t col, flag_to_int_table col t) t SORTIES_BOOL_COLS in
  let t := foldl (λ t col, coerce_numeric_fill_table col t) t SORTIES_NUMERIC_COLS in
  let t := encode_date_table t in
  fill_numeric_table t.

(** [ensure_features] on tables: the caller's table after the loop, and the
    table returned. *)
Definition add_missing (required_features : list string) (t : Table) : Table :=
  foldl (λ t feature,
           if bool_decide (feature ∉ names t)
           then set_col feature (full DInt (VInt 0) t) t else t)
        t required_features.

Definition aligned (required_features : list string) (t : Table) : option Table :=
  mkTable (nrows t) <$> select_cols required_features (add_missing required_features t).

(* ====================================================================== *)
(** ** recommendation_runner                                               *)
(* ====================================================================== *)

(** A decoded JSON document. *)
#[warnings="-register-all"]
Inductive Json : Type :=
| JScalar (c : Cell)
| JArr (items : list Json)
| JObj (fields : list (string * Json)).

(** The document [main] prints: the user's cluster, every outing identifier
    with its cluster, and the matched identifiers. *)
Record MatchResult : Type := mkMatchResult {
  userCluster : Z;
  sortiesWithClusters : list (Cell * Z);
  matchedSortieIds : list Cell;
}.

(** The fitted artifacts. A scaler and a clustering model are used through
    [transform] and [predict] alone; either may raise ([inl], with the
    message). *)
Definition Matrix : Type := list (list float).

Record Scaler : Type := mkScaler { transform : Table -> string + Matrix }.
Record KMeans : Type := mkKMeans { predict : Matrix -> string + list Z }.

Record Models : Type := mkModels {
  preferences_scaler : Scaler;
  preferences_kmeans : KMeans;
  preferences_features : list string;
  sorties_scaler : Scaler;
  sorties_kmeans : KMeans;
  sorties_features : list string;
}.

(** Library calls of the runner whose value is not fixed here:
    [json.loads] ([inl]: the message of the [JSONDecodeError]), [json.dumps]
    of the result, the [pd.DataFrame] constructor ([inl]: it raised), and
    the text [traceback.print_exc] writes for an exception. *)
Class Runtime : Type := {
  json_loads : string -> string + Json;
  json_dumps : MatchResult -> string;
  pd_DataFrame : Json -> string + Table;
  traceback_text : string -> string;
}.

(** The stages of the pipeline, on the user's side and on the outings'. *)
Inductive Side : Type := User | Outings.
Inductive Stage : Type := Encode | Align | Scale | Predict.

(** The state of the process: the object store, the pipeline stages invoked
    so far, and what was written to the two output streams, line by line. *)
Record World : Type := mkWorld {
  heap : Heap;
  calls : list (Side * Stage);
  stdout : list string;
  stderr : list string;
}.

Definition P (A : Type) : Type := St World A.

(** A computation on the object store, run by the process. *)
Definition lift {A} (m : M A) : P A := λ w,
  let (r, h) := m (heap w) in (r, mkWorld h (calls w) (stdout w) (stderr w)).

(** A pipeline stage is entered. *)
Definition enter (side : Side) (stage : Stage) : P () := λ w,
  (Ok (), mkWorld (heap w) (calls w ++ [(side, stage)]) (stdout w) (stderr w)).

(** [print(line)] and [print(line, file=sys.stderr)]. *)
Definition print_out (line : string) : P () := λ w,
  (Ok (), mkWorld (heap w) (calls w) (stdout w ++ [line]) (stderr w)).

Definition print_err (line : string) : P () := λ w,
  (Ok (), mkWorld (heap w) (calls w) (stdout w) (stderr w ++ [line])).

(** [sys.exit(code)]. *)
Definition sys_exit {A} (code : Z) : P A := λ w, (Exit code, w).

(** [try: body except Exception as e: handler(e)]. [SystemExit] is not an
    [Exception] and passes through. *)
Definition try_except {A} (body : P A) (handler : string -> P A) : P A := λ w,
  match body w with
  | (Raise e, w') => handler e w'
  | other => other
  end.

(** A library call that returns or raises. *)
Definition of_sum {S A} (x : string + A) : St S A :=
  match x with inl e => raise e | inr a => mret a end.

(** Python's truth value of a decoded document. *)
Definition py_bool (j : Json) : bool :=
  match j with
  | JScalar VNone => false
  | JScalar (VBool b) => b
  | JScalar (VInt z) => negb (Z.eqb z 0)
  | JScalar (VFloat f) => negb (PrimFloat.eqb f 0%float)
  | JScalar (VStr s) => negb (String.eqb s "")
  | JArr l => match l with [] => false | _ => true end
  | JObj l => match l with [] => false | _ => true end
  end.

(** [key in data]: a key of an object, an item of an array, a substring of
    a str; [TypeError] on any other scalar. *)
Definition py_in {S} (key : string) (data : Json) : St S bool :=
  match data with
  | JObj fields => mret (bool_decide (key ∈ fields.*1))
  | JArr l => mret (existsb (λ x, match x with
                                  | JScalar (VStr s) => String.eqb s key
                                  | _ => false
                                  end) l)
  | JScalar (VStr s) => mret (bool_decide (is_Some (String.index 0 key s)))
  | JScalar _ => raise "TypeError: argument is not iterable"
  end.

(** [data[key]] for a str key. *)
Definition py_getitem {S} (data : Json) (key : string) : St S Json :=
  match data with
  | JObj fields =>
      match list_find (λ f, f.1 = key) fields with
      | Some (_, f) => mret f.2
      | None => raise ("KeyError: " +:+ key)
      end
  | _ => raise "TypeError: indices must be integers"
  end.

(** [load_models]: [disk] is what [joblib.load] finds, the six artifacts or
    the exception of the first load that fails. *)
Definition load_models (disk : string + Models) : P Models :=
  try_except (of_sum disk)
    (λ e, print_err ("Erreur lors du chargement des modèles: " +:+ e);;
          sys_exit 1).

(** [pd.DataFrame(data)]: a new frame object. *)
Definition new_frame `{Runtime} (data : Json) : P ref :=
  t ← of_sum (pd_DataFrame data); lift (alloc t).

Definition predict_user_cluster `{PyLibs} `{Runtime}
    (user_prefs : Json) (models : Models) : P Z :=
  try_except
    (df ← new_frame (JArr [user_prefs]);
     enter User Encode;;
     df_processed ← lift (prepare_preferences_dataframe df);
     enter User Align;;
     df_features ← lift (ensure_features df_processed (preferences_features models));
     enter User Scale;;
     features ← lift (deref df_features);
     df_scaled ← of_sum (transform (preferences_scaler models) features);
     enter User Predict;;
     clusters ← of_sum (predict (preferences_kmeans models) df_scaled);
     match clusters with
     | cluster :: _ => mret cluster
     | [] => raise "IndexError: index 0 is out of bounds"
     end)
    (λ e, print_err ("Erreur lors de la prédiction du cluster utilisateur: " +:+ e);;
          raise e).

(** [list(range(n))]. *)
Definition py_range (n : nat) : list Cell := map (λ i, VInt (Z.of_nat i)) (seq 0 n).

Definition predict_sorties_clusters `{PyLibs} `{Runtime}
    (sorties : Json) (models : Models) : P (list (Cell * Z)) :=
  try_except
    (if negb (py_bool sorties) then mret []
     else
       df ← new_frame sorties;
       cols ← lift (df_columns df);
       sortie_ids ← (if bool_decide ("id" ∈ cols)
                     then s ← lift (df_getitem df "id"); mret (cells s)
                     else t ← lift (deref df); mret (py_range (nrows t)));
       enter Outings Encode;;
       df_processed ← lift (prepare_sorties_dataframe df);
       enter Outings Align;;
       df_features ← lift (ensure_features df_processed (sorties_features models));
       enter Outings Scale;;
       features ← lift (deref df_features);
       df_scaled ← of_sum (transform (sorties_scaler models) features);
       enter Outings Predict;;
       clusters ← of_sum (predict (sorties_kmeans models) df_scaled);
       for_each (items sortie_ids) (λ (row : nat * Cell) result,
           let (i, sortie_id) := row in
           match clusters !! i with
           | Some cluster => mret (result ++ [(sortie_id, cluster)])%list
           | None => raise "IndexError: index is out of bounds"
           end) [])
    (λ e, print_err ("Erreur lors de la prédiction des clusters de sorties: " +:+ e);;
          raise e).

(** The list comprehension of [main]. *)
Definition matched_sortie_ids (user_cluster : Z) (sorties_with_clusters : list (Cell * Z))
    : list Cell :=
  (filter (λ item, item.2 = user_cluster) sorties_with_clusters).*1.

Definition main `{PyLibs} `{Runtime} (disk : string + Models) (stdin : string) : P () :=
  try_except
    (models ← load_models disk;
     let input_data := stdin in
     (if String.eqb input_data ""
      then print_err "Erreur: aucune donnée reçue sur stdin";; sys_exit 1
      else mret ());;
     data ← match json_loads input_data with
            | inr data => mret data
            | inl e => print_err ("Erreur: JSON invalide - " +:+ e);; sys_exit 1
            end;
     has_prefs ← py_in "userPreferences" data;
     (if negb has_prefs
      then print_err "Erreur: 'userPreferences' manquant dans les données";; sys_exit 1
      else mret ());;
     has_sorties ← py_in "sorties" data;
     (if negb has_sorties
      then print_err "Erreur: 'sorties' manquant dans les données";; sys_exit 1
      else mret ());;
     user_prefs ← py_getitem data "userPreferences";
     user_cluster ← predict_user_cluster user_prefs models;
     sorties ← py_getitem data "sorties";
     sorties_with_clusters ← predict_sorties_clusters sorties models;
     let result := mkMatchResult user_cluster sorties_with_clusters
                     (matched_sortie_ids user_cluster sorties_with_clusters) in
     print_out (json_dumps result);;
     sys_exit 0)
    (λ e, print_err ("Erreur non gérée: " +:+ e);;
          print_err (traceback_text e);;
          sys_exit 1).

(** A fresh process: an empty store, nothing invoked, nothing written. *)
Definition start : World :=
  mkWorld (mkHeap 0 (λ _, mkTable 0 [])) [] [] [].

(** The exit status of the process. [main] always leaves through
    [sys.exit]; an exception that escaped would end the interpreter with
    status 1. *)
Definition exit_status {A} (r : Res A) : Z :=
  match r with Exit code => code | Ok _ => 0 | Raise _ => 1 end.

(** One run of the program. *)
Definition run `{PyLibs} `{Runtime} (disk : string + Models) (stdin : string) : Res () * World :=
  main disk stdin start.

(* ====================================================================== *)
(** ** Vocabulary of the proofs                                            *)
(* ====================================================================== *)

(** [m] changes the object [r] in place by [g] and nothing else: it
    returns, allocates nothing and leaves every other object as it was. *)
Definition inplace (r : ref) (m : M ()) (g : Table -> Table) : Prop :=
  ∀ h, ∃ h', m h = (Ok (), h') ∧ next_ref h' = next_ref h ∧
             frame_at h' r = g (frame_at h r) ∧
             ∀ q, q ≠ r → frame_at h' q = frame_at h q.

(** [m], started on a frame [r] that was allocated at or after [n0],
    returns a frame allocated at or after [n0] whose content is [f] of the
    content of [r], and leaves every object older than [n0] as it was. *)
Definition sim (n0 : nat) (m : ref -> M ref) (f : Table -> Table) : Prop :=
  ∀ h r, (n0 ≤ r < next_ref h)%nat →
    ∃ r' h', m r h = (Ok r', h') ∧ (n0 ≤ r' < next_ref h')%nat ∧
             frame_at h' r' = f (frame_at h r) ∧
             ∀ q, (q < n0)%nat → frame_at h' q = frame_at h q.

(** The columns of a table whose label satisfies [p]. *)
Definition pick (p : string -> bool) (t : Table) : list (string * Series) :=
  filter (λ c, p c.1 = true) (columns t).

(** A column is well formed when it has one cell per row. *)
Definition wf (t : Table) : Prop :=
  Forall (λ c, length (cells c.2) = nrows t) (columns t).

(** One round of the loop of [ensure_features]. *)
Definition add_one (feature : string) (t : Table) : Table :=
  if bool_decide (feature ∉ names t) then set_col feature (full DInt (VInt 0) t) t else t.

(** What [df[ns]] returns once every label is there. *)
Definition blocks (ns : list string) (t : Table) : list (string * Series) :=
  concat (map (λ n, map (pair n) (cols_named n t)) ns).

(** A column after [df[mask]]. *)
Definition mask_col (mask : list bool) (c : string * Series) : string * Series :=
  (c.1, mkSeries (dtype c.2) (mask_cells mask (cells c.2))).

(** What the final loop does to one column: a column with a numeric dtype
    that is alone under its label has its missing cells filled. *)
Definition sweep_col (t : Table) (c : string * Series) : string * Series :=
  if bool_decide (length (cols_named c.1 t) = 1%nat) && is_numeric_dtype (dtype c.2)
  then (c.1, fillna (VInt 0) c.2) else c.

(** The rows the completion filter keeps, for one column. *)
Definition kept `{PyLibs} (t : Table) (s : Series) : Series :=
  match lookup_col "onboardingComplete" t with
  | Some flag => mkSeries (dtype s) (mask_cells (isin_truthy flag) (cells s))
  | None => s
  end.

Definition kept_col `{PyLibs} (t : Table) (c : string * Series) : string * Series :=
  (c.1, kept t c.2).

(** [n] is a bucket label of the categorical field [col]. *)
Definition bucket_of (col n : string) : bool := String.prefix (col +:+ "_") n.

(** The preference table before the final loop. *)
Definition preferences_unfilled `{PyLibs} (t : Table) : Table :=
  let t := keep_onboarded_table t in
  let t := foldl (λ t col, one_hot_table "UNKNOWN" col t) t PREF_ONE_HOT_COLS in
  let t := foldl (λ t col, flag_to_int_table col t) t PREF_BOOL_COLS in
  let t := encode_available_days_table t in
  let t := encode_hour_table "start" "start_hour" t in
  let t := encode_hour_table "end" "end_hour" t in
  foldl (λ t col, coerce_numeric_table col t) t ["latitude"; "longitude"; "averageSpeed"].

(** The outing table before the final loop. *)
Definition sorties_unfilled `{PyLibs} (t : Table) : Table :=
  let t := foldl (λ t col, drop_if_present_table col t) t SORTIES_REMOVE_TEXT_COLS in
  let t := one_hot_table "INCONNUE" "difficulte" t in
  let t := one_hot_table "UNKNOWN" "type" t in
  let t := foldl (λ t col, flag_to_int_table col t) t SORTIES_BOOL_COLS in
  let t := foldl (λ t col, coerce_numeric_fill_table col t) t SORTIES_NUMERIC_COLS in
  encode_date_table t.

(** The labels the preference encoder reads or writes. *)
Definition PREF_SCHEMA : list string :=
  (PREF_ONE_HOT_COLS ++ PREF_BOOL_COLS ++
   ["availableDays"; "start"; "start_hour"; "end"; "end_hour";
    "latitude"; "longitude"; "averageSpeed"] ++ map day_col PREF_DAYS)%list.

Definition pref_schema_label (n : string) : bool :=
  bool_decide (n ∈ PREF_SCHEMA) || existsb (λ col, bucket_of col n) PREF_ONE_HOT_COLS.

(** The labels the outing encoder reads or writes. *)
Definition SORTIES_SCHEMA : list string :=
  (SORTIES_REMOVE_TEXT_COLS ++ ["difficulte"; "type"] ++ SORTIES_BOOL_COLS ++
   SORTIES_NUMERIC_COLS ++ ["date"; "mois"; "jour_semaine"])%list.


(** What a predicate on labels must avoid to see nothing of the schema. *)
Definition avoids_prefs (p : string -> bool) : Prop :=
  (∀ col, col ∈ PREF_ONE_HOT_COLS →
     p col = false ∧ ∀ lv, p (col +:+ "_" +:+ lv) = false) ∧
  (∀ n, n ∈ PREF_SCHEMA → p n = false).


(** What the final loop leaves of a column that is alone under its label. *)
Definition filled (s : Series) : Series :=
  if is_numeric_dtype (dtype s) then fillna (VInt 0) s else s.

(** The preference table after the completion filter, the categorical
    fields and the flags. *)
Definition preferences_flagged `{PyLibs} (t : Table) : Table :=
  let t := keep_onboarded_table t in
  let t := foldl (λ t col, one_hot_table "UNKNOWN" col t) t PREF_ONE_HOT_COLS in
  foldl (λ t col, flag_to_int_table col t) t PREF_BOOL_COLS.

(** A label that is neither a categorical field nor one of its buckets. *)
Definition onehot_free (cols : list string) (n : string) : bool :=
  negb (bool_decide (n ∈ cols)) && negb (existsb (λ col, bucket_of col n) cols).

(** One cell of an hour column once the final loop has run. *)
Definition hour_cell `{PyLibs} (v : Cell) : Cell :=
  let x := _parse_hour_to_float v in
  VFloat (if PrimFloat.is_nan x then 0%float else x).

(** [df.at[i, n] = v] on the columns labelled [n]. *)
Definition with_cell (i : nat) (v : Cell) (s : Series) : Series :=
  mkSeries (dtype s) (<[i := v]> (cells s)).

(** The cells of the column of day [j] as the row loop leaves them: the
    rows are visited from [off] on, [ds] holds their day sets. *)
Fixpoint mark_from (j : string) (off : nat) (ds : list (list string)) (cs : list Cell)
    : list Cell :=
  match ds with
  | [] => cs
  | d :: ds' =>
      mark_from j (S off) ds' (if bool_decide (j ∈ d) then <[off := VInt 1]> cs else cs)
  end.

(** One cell of a day column. *)
Definition day_cell (j : string) (days : list string) : Cell :=
  VInt (if bool_decide (j ∈ days) then 1 else 0).

(** Two categorical fields whose buckets cannot be confused, with each
    other or with the fields. *)
Definition apart (c c' : string) : bool :=
  negb (bucket_of c c') && negb (bucket_of c' c) &&
  negb (String.prefix (c +:+ "_") (c' +:+ "_")) &&
  negb (String.prefix (c' +:+ "_") (c +:+ "_")).

Definition all_apart (cols : list string) : bool :=
  forallb (λ c, negb (bucket_of c c) &&
                forallb (λ c', String.eqb c c' || apart c c') cols) cols.

(** The labels the preference encoder touches after the categorical fields. *)
Definition PREF_LATER : list string :=
  (PREF_BOOL_COLS ++
   ["availableDays"; "start"; "start_hour"; "end"; "end_hour";
    "latitude"; "longitude"; "averageSpeed"] ++ map day_col PREF_DAYS)%list.

(** The labels the outing encoder touches outside the categorical fields. *)
Definition SORTIES_OTHER : list string :=
  (SORTIES_REMOVE_TEXT_COLS ++ SORTIES_BOOL_COLS ++ SORTIES_NUMERIC_COLS ++
   ["date"; "mois"; "jour_semaine"])%list.

(** The word a cell counts as in the one-hot expansion: missing cells count
    as the fallback word. *)
Definition bucket_value `{PyLibs} (fill : string) (c : Cell) : string :=
  if pd_isna c then fill else py_str c.

(** Column [c] is set in row [i]. *)
Definition hot_at (i : nat) (c : string * Series) : bool :=
  match cells c.2 !! i with
  | Some (VBool true) => true
  | _ => false
  end.

(** The one-hot expansion of field [col], whose cells were [s], in the table
    [out]: there is one bucket column per word of [s], and in every row the
    bucket columns that are set are the single column of the row's word. *)
Definition one_hot_encoded `{PyLibs} (fill col : string) (s : Series) (out : Table) : Prop :=
  (∀ lv, col +:+ "_" +:+ lv ∈ names out ↔ ∃ c, c ∈ cells s ∧ bucket_value fill c = lv) ∧
  (∀ i c, cells s !! i = Some c →
     ∃ b, filter (λ x, hot_at i x = true) (pick (bucket_of col) out)
          = [(col +:+ "_" +:+ bucket_value fill c, b)]).

(** The value of a key of a decoded object. *)
Definition get_field (key : string) (fields : list (string * Json)) : option Json :=
  (λ found : nat * (string * Json), found.2.2) <$> list_find (λ f, f.1 = key) fields.

(** A computation of the user's side: it writes nothing to standard output
    and enters stages of the user's side only. *)
Definition user_only {A} (m : P A) : Prop :=
  ∀ w r w', m w = (r, w') →
    stdout w' = stdout w ∧
    ∃ l, calls w' = (calls w ++ l)%list ∧ Forall (λ c : Side * Stage, c.1 = User) l.

(** The identifiers of the outings, read from the table before it is
    encoded: the cells of the column [id], or the row numbers. *)
Definition outing_ids (t : Table) : list Cell :=
  match lookup_col "id" t with
  | Some s => cells s
  | None => py_range (nrows t)
  end.

(** The stages of the outings' side, in the order they are entered. *)
Definition OUTING_STAGES : list (Side * Stage) :=
  [(Outings, Encode); (Outings, Align); (Outings, Scale); (Outings, Predict)].

(** The library functions on the samples below, whose cells are ASCII
    strs, ints and missing values: no float other than NaN is printed, the
    columns given to [pd.to_numeric] are int columns already, no str is
    given to the date parser, and the interpreter has its default limit on
    the digits of an int. *)
Definition sample_libs : PyLibs :=
  {| repr_float := λ _, "nan"; pd_to_numeric := λ s, s; dateutil_parse := λ _, None;
     datetime64_column := λ _, true; int_unicode := λ _, None;
     int_max_str_digits := 4300 |}.

(** A store whose only object, at reference 0, is the table [t]. *)
Definition store_of (t : Table) : Heap := mkHeap 1 (λ _, t).

(** One user, with a level and a field that no schema lists. *)
Definition sample_preferences : Table :=
  mkTable 1 [("level", mkSeries DObject [VStr "beginner"]);
             ("nickname", mkSeries DObject [VStr "zoe"])].

(** Three users with their days and hours; the third has not completed the
    onboarding. *)
Definition sample_schedules : Table :=
  mkTable 3 [("onboardingComplete", mkSeries DBool [VBool true; VBool true; VBool false]);
             ("level", mkSeries DObject [VStr "expert"; VNone; VStr "expert"]);
             ("availableDays", mkSeries DObject [VStr "MONDAY|FRIDAY"; VNone; VStr "SUNDAY"]);
             ("start", mkSeries DObject [VStr "08:30"; VStr "bad"; VStr "10:00"]);
             ("end", mkSeries DObject [VNone; VStr "18:45"; VStr "11:00"]);
             ("age", mkSeries DFloat [VFloat 31%float; VFloat PrimFloat.nan; VFloat 40%float])].

(** One outing whose record has a field named as a bucket of its type. *)
Definition sample_outing : Table :=
  mkTable 1 [("type", mkSeries DObject [VStr "HIKE"]);
             ("type_HIKE", mkSeries DInt [VInt 1])].

(** Two outings with their identifiers. *)
Definition sample_outings : Table :=
  mkTable 2 [("id", mkSeries DObject [VStr "s1"; VStr "s2"]);
             ("difficulte", mkSeries DObject [VNone; VStr "FACILE"]);
             ("type", mkSeries DObject [VStr "HIKE"; VStr "UNKNOWN"]);
             ("distance", mkSeries DInt [VInt 12; VInt 30]);
             ("guide", mkSeries DObject [VStr "lea"; VNone])].


(** The scalar of a field of a sample record, and its dtype. *)
Definition sample_cell (j : Json) : Cell :=
  match j with JScalar c => c | _ => VNone end.

Definition sample_dtype (c : Cell) : Dtype :=
  match c with VBool _ => DBool | VInt _ => DInt | VFloat _ => DFloat | _ => DObject end.

(** The [pd.DataFrame] constructor on the samples, which are lists of
    records that have the keys of the first: one row per record and one
    column per key. *)
Definition sample_frame (data : Json) : string + Table :=
  match data with
  | JArr (JObj fs :: rest) =>
      inr (mkTable (S (length rest))
             (map (λ f : string * Json,
                     (f.1, mkSeries (sample_dtype (sample_cell f.2))
                             (map (λ r, match r with
                                        | JObj gs => match get_field f.1 gs with
                                                     | Some v => sample_cell v
                                                     | None => VNone
                                                     end
                                        | _ => VNone
                                        end) (JObj fs :: rest)))) fs))
  | _ => inl "DataFrame constructor not properly called!"
  end.

(** A request with one user and two outings, and a request without outings. *)
Definition sample_request : Json :=
  JObj [("userPreferences", JObj [("level", JScalar (VStr "beginner"))]);
        ("sorties", JArr [JObj [("id", JScalar (VStr "s1")); ("distance", JScalar (VInt 12))];
                          JObj [("id", JScalar (VStr "s2")); ("distance", JScalar (VInt 30))]])].

Definition sample_request_no_outing : Json :=
  JObj [("userPreferences", JObj [("level", JScalar (VStr "beginner"))]);
        ("sorties", JArr [])].

(** The runtime of the samples: the two input texts stand for the two
    requests above, any other text is not JSON; the text printed for a
    result gives the user's cluster and the number of matches. *)
Definition sample_runtime : Runtime :=
  {| json_loads := λ s,
       if String.eqb s "request" then inr sample_request
       else if String.eqb s "request without outing" then inr sample_request_no_outing
       else inl "Expecting value: line 1 column 1 (char 0)";
     json_dumps := λ r, pretty (userCluster r) +:+ " " +:+
                         pretty (length (matchedSortieIds r));
     pd_DataFrame := sample_frame;
     traceback_text := λ e, "Traceback (most recent call last): " +:+ e |}.

(** Fitted artifacts for the samples: the scalers give one empty row per
    row of the table, the user model answers cluster 1 and the outing model
    numbers the rows from 0. *)
Definition sample_models : Models :=
  {| preferences_scaler := mkScaler (λ t, inr (replicate (nrows t) []));
     preferences_kmeans := mkKMeans (λ m, inr (map (λ _, 1) m));
     preferences_features := ["level_beginner"; "level_expert"];
     sorties_scaler := mkScaler (λ t, inr (replicate (nrows t) []));
     sorties_kmeans := mkKMeans (λ m, inr (map Z.of_nat (seq 0 (length m))));
     sorties_features := ["distance"; "duree_estimee"] |}.

(** A computation that prints nothing and does not leave the program. *)
Definition mute {A} (m : P A) : Prop :=
  ∀ w r w', m w = (r, w') →
    stdout w' = stdout w ∧ stderr w' = stderr w ∧ ∀ code, r ≠ Exit code.

(** A step of [main] before the result is printed: it writes nothing to
    standard output; when it returns it has written nothing at all, and
    when it leaves the program it does so with status 1, after a line on
    standard error. *)
Definition calm {A} (m : P A) : Prop :=
  ∀ w r w', m w = (r, w') →
    stdout w' = stdout w ∧
    match r with
    | Ok _ => stderr w' = stderr w
    | Raise _ => True
    | Exit code => code = 1 ∧ stderr w' ≠ []
    end.


(** The stages of the user's side, in the order they are entered. *)
Definition USER_STAGES : list (Side * Stage) :=
  [(User, Encode); (User, Align); (User, Scale); (User, Predict)].

(** Fitted artifacts whose preference scaler refuses its input. *)
Definition sample_models_unfit : Models :=
  {| preferences_scaler := mkScaler (λ _, inl "X has 2 features, but the scaler expects 3");
     preferences_kmeans := preferences_kmeans sample_models;
     preferences_features := preferences_features sample_models;
     sorties_scaler := sorties_scaler sample_models;
     sorties_kmeans := sorties_kmeans sample_models;
     sorties_features := sorties_features sample_models |}.


(** An array that holds the two words, given to the runtime of the samples. *)
Definition sample_runtime_array : Runtime :=
  {| json_loads := λ _, inr (JArr [JScalar (VStr "userPreferences"); JScalar (VStr "sorties")]);
     json_dumps := @json_dumps sample_runtime;
     pd_DataFrame := sample_frame;
     traceback_text := @traceback_text sample_runtime |}.

(** Four outings with their camping option, and their distance as text. *)
Definition sample_options : Table :=
  mkTable 4 [("option_camping", mkSeries DObject [VBool true; VStr "Yes"; VInt 0; VNone]);
             ("distance", mkSeries DInt [VInt 12; VInt 30; VInt 7; VInt 45])].

(** The cell [c] holds the number [z], as an int or as a float. *)
Definition number_cell (z : Z) (c : Cell) : Prop :=
  c = VInt z ∨ c = VFloat (SF2Prim (binary_normalize prec emax z 0 false)).

(** A date parser that knows one date, a Friday of May. *)
Definition sample_libs_dates : PyLibs :=
  {| repr_float := λ _, "nan"; pd_to_numeric := λ s, s;
     dateutil_parse := λ s, if String.eqb s "2024-05-17" then Some (5, 4) else None;
     datetime64_column := λ _, true; int_unicode := λ _, None;
     int_max_str_digits := 4300 |}.

(** Three outings: one with a date, one with a text that is no date, one
    without. *)
Definition sample_dates : Table :=
  mkTable 3 [("date", mkSeries DObject [VStr "2024-05-17"; VStr "soon"; VNone])].

(** An ASCII character that can stand in an int literal or around it: a
    digit, a blank, a sign or an underscore. *)
Definition int_char (a : ascii) : bool :=
  bool_decide (is_Some (digit_value a)) || py_isspace a
  || Ascii.eqb a "_" || Ascii.eqb a "+" || Ascii.eqb a "-".

(** A str of one to 640 ASCII digits. *)
Definition is_decimal (s : string) : bool :=
  let l := list_ascii_of_string s in
  (0 <? length l)%nat && (length l <=? 640)%nat
  && forallb (λ a, bool_decide (is_Some (digit_value a))) l.

(** The number a str of digits writes in base ten. *)
Definition decimal (s : string) : Z :=
  foldl (λ acc a, 10 * acc + default 0 (digit_value a)) 0 (list_ascii_of_string s).

(** A [pd.to_numeric] for columns whose cells are floats, missing values
    and words that write no number: a numeric column is returned as it is,
    and in any other column the floats stay and every other cell becomes
    NaN. *)
Definition sample_libs_numeric : PyLibs :=
  {| repr_float := λ _, "nan";
     pd_to_numeric := λ s,
       if is_numeric_dtype (dtype s) then s
       else mkSeries DFloat
              (map (λ c, match c with
                         | VFloat f => VFloat f
                         | _ => VFloat PrimFloat.nan
                         end) (cells s));
     dateutil_parse := λ _, None;
     datetime64_column := λ _, true; int_unicode := λ _, None;
     int_max_str_digits := 4300 |}.

(** Three users and their latitude; the second has not completed the
    onboarding, and the latitude of the third is a word. *)
Definition sample_places : Table :=
  mkTable 3 [("onboardingComplete", mkSeries DObject [VStr "yes"; VStr "no"; VInt 1]);
             ("latitude", mkSeries DObject [VFloat 48.5; VFloat 43.25; VStr "north"])].

(* ====================================================================== *)
(** * Lemmas                                                               *)
(* ====================================================================== *)

(** ** The state monad *)

Lemma bind_ok {S A B} (m : St S A) (k : A -> St S B) s a s' :
  m s = (Ok a, s') → (m ≫= k) s = k a s'.
Proof. unfold mbind, St_bind. by intros ->. Qed.

Lemma bind_raise {S A B} (m : St S A) (k : A -> St S B) s e s' :
  m s = (Raise e, s') → (m ≫= k) s = (Raise e, s').
Proof. unfold mbind, St_bind. by intros ->. Qed.

Lemma bind_exit {S A B} (m : St S A) (k : A -> St S B) s c s' :
  m s = (Exit c, s') → (m ≫= k) s = (Exit c, s').
Proof. unfold mbind, St_bind. by intros ->. Qed.

Lemma upd_eq f r t : upd f r t r = t.
Proof. unfold upd. by rewrite Nat.eqb_refl. Qed.

Lemma upd_ne f r t q : q ≠ r → upd f r t q = f q.
Proof. unfold upd. intros Hq. by destruct (Nat.eqb_spec q r). Qed.

(** ** Columns and labels *)

Lemma cols_named_nil n t : n ∉ names t → cols_named n t = [].
Proof.
  unfold cols_named, names. destruct t as [k cs]; simpl.
  induction cs as [|[m s] cs IH]; simpl; [done|].
  rewrite not_elem_of_cons. intros [Hne Hnot].
  rewrite filter_cons. simpl. destruct (decide (m = n)); [congruence|]. auto.
Qed.

Lemma cols_named_cons n t : n ∈ names t → ∃ s ss, cols_named n t = s :: ss.
Proof.
  unfold cols_named, names. destruct t as [k cs]; simpl.
  induction cs as [|[m s] cs IH]; simpl.
  - intros Hin. by apply elem_of_nil in Hin.
  - rewrite elem_of_cons, filter_cons. simpl. intros Hin.
    destruct (decide (m = n)) as [->|Hne]; simpl; [eauto|].
    destruct Hin as [->|Hin]; [done|]. auto.
Qed.

Lemma lookup_col_Some n t : n ∈ names t → ∃ s, lookup_col n t = Some s.
Proof.
  intros Hin. destruct (cols_named_cons n t Hin) as (s & ss & Heq).
  exists s. unfold lookup_col. by rewrite Heq.
Qed.

Lemma lookup_col_None n t : n ∉ names t → lookup_col n t = None.
Proof. intros Hn. unfold lookup_col. by rewrite cols_named_nil. Qed.

Lemma lookup_col_elem n t s : lookup_col n t = Some s → n ∈ names t.
Proof.
  intros Hl. destruct (decide (n ∈ names t)) as [|Hn]; [done|].
  by rewrite lookup_col_None in Hl.
Qed.

(** ** In-place computations *)

Lemma inplace_ret r : inplace r (mret ()) id.
Proof. intros h. exists h. done. Qed.

Lemma inplace_mutate r g : inplace r (mutate r g) g.
Proof.
  intros h. eexists. split; [reflexivity|]. simpl.
  split; [done|]. split; [apply upd_eq|]. intros q Hq. by apply upd_ne.
Qed.

Lemma inplace_ext r m g g' : (∀ t, g t = g' t) → inplace r m g → inplace r m g'.
Proof.
  intros Hg Hm h. destruct (Hm h) as (h' & ? & ? & ? & ?).
  exists h'. rewrite <- Hg. done.
Qed.

Lemma inplace_seq r m1 m2 g1 g2 :
  inplace r m1 g1 → inplace r m2 g2 → inplace r (m1 ;; m2) (g2 ∘ g1).
Proof.
  intros H1 H2 h.
  destruct (H1 h) as (h1 & E1 & N1 & F1 & O1).
  destruct (H2 h1) as (h2 & E2 & N2 & F2 & O2).
  exists h2. rewrite (bind_ok _ _ _ _ _ E1). split; [done|].
  split; [congruence|]. split; [simpl; congruence|].
  intros q Hq. rewrite O2, O1; done.
Qed.

Lemma inplace_for_each {A} r (l : list A) (body : A -> () -> M ()) g :
  (∀ x, inplace r (body x ()) (g x)) →
  inplace r (for_each l body ()) (λ t, foldl (λ t x, g x t) t l).
Proof.
  intros Hb. induction l as [|x l IH]; simpl.
  - apply inplace_ret.
  - intros h. destruct (Hb x h) as (h1 & E1 & N1 & F1 & O1).
    destruct (IH h1) as (h2 & E2 & N2 & F2 & O2).
    exists h2. rewrite (bind_ok _ _ _ _ _ E1). split; [done|].
    split; [congruence|]. split; [simpl; congruence|].
    intros q Hq. rewrite O2, O1; done.
Qed.

(** ** ensure_features *)


Lemma ensure_loop r F :
  inplace r
    (for_each F (λ feature _,
         cols ← df_columns r;
         if bool_decide (feature ∉ cols)
         then df_setitem_scalar r feature DInt (VInt 0)
         else mret ()) ())
    (add_missing F).
Proof.
  eapply inplace_ext; [|apply (inplace_for_each r F _ add_one)].
  - done.
  - intros x h. unfold df_columns, deref, add_one.
    unfold mbind, St_bind, mret, St_ret. simpl.
    destruct (bool_decide (x ∉ names (frame_at h r))).
    + apply (inplace_mutate r (λ t, set_col x (full DInt (VInt 0) t) t)).
    + apply inplace_ret.
Qed.

(** The columns labelled [n] in a list of columns. *)
Lemma cols_named_app n k cs1 cs2 :
  cols_named n (mkTable k (cs1 ++ cs2)) =
  (cols_named n (mkTable k cs1) ++ cols_named n (mkTable k cs2))%list.
Proof. unfold cols_named. simpl. by rewrite filter_app, fmap_app. Qed.

Lemma cols_named_columns n t k : cols_named n (mkTable k (columns t)) = cols_named n t.
Proof. done. Qed.

Lemma names_set_col_absent n s t :
  n ∉ names t → columns (set_col n s t) = (columns t ++ [(n, s)])%list.
Proof.
  intros Hn. unfold set_col, has_col. by rewrite bool_decide_eq_false_2.
Qed.

Lemma nrows_set_col n s t : nrows (set_col n s t) = nrows t.
Proof. unfold set_col. by destruct (has_col n t). Qed.

Lemma add_missing_cons f F t :
  add_missing (f :: F) t =
  add_missing F (if bool_decide (f ∉ names t) then set_col f (full DInt (VInt 0) t) t else t).
Proof. done. Qed.

Lemma add_missing_spec F t :
  nrows (add_missing F t) = nrows t ∧
  ∃ extra, columns (add_missing F t) = (columns t ++ extra)%list ∧
           NoDup extra.*1 ∧
           Forall (λ c, c.2 = full DInt (VInt 0) t ∧ c.1 ∈ F ∧ c.1 ∉ names t) extra.
Proof.
  revert t. induction F as [|f F IH]; intros t.
  - split; [done|]. exists []. simpl. rewrite app_nil_r. split; [done|].
    split; [constructor|constructor].
  - rewrite add_missing_cons. case_bool_decide as Hf.
    + set (t1 := set_col f (full DInt (VInt 0) t) t).
      destruct (IH t1) as (Hrows & extra & Hcols & Hnd & Hall).
      assert (Hr1 : nrows t1 = nrows t) by apply nrows_set_col.
      assert (Hc1 : columns t1 = (columns t ++ [(f, full DInt (VInt 0) t)])%list)
        by (by apply names_set_col_absent).
      split; [congruence|].
      exists ((f, full DInt (VInt 0) t) :: extra).
      rewrite Hcols, Hc1, <- app_assoc. split; [done|].
      assert (Hn1 : names t1 = (names t ++ [f])%list).
      { unfold names. by rewrite Hc1, fmap_app. }
      split.
      * simpl. constructor; [|done].
        intros Hin. apply list_elem_of_fmap in Hin as (c & -> & Hc).
        rewrite Forall_forall in Hall. destruct (Hall c Hc) as (_ & _ & Hnot).
        apply Hnot. rewrite Hn1. set_solver.
      * constructor.
        { simpl. split; [done|]. split; [set_solver|done]. }
        eapply Forall_impl; [exact Hall|]. simpl. intros c (Hz & Hin & Hnot).
        split; [|split].
        -- rewrite Hz. unfold full. by rewrite Hr1.
        -- set_solver.
        -- rewrite Hn1 in Hnot. set_solver.
    + destruct (IH t) as (Hrows & extra & Hcols & Hnd & Hall).
      split; [done|]. exists extra. split; [done|]. split; [done|].
      eapply Forall_impl; [exact Hall|]. simpl. intros c (Hz & Hin & Hnot).
      split; [done|]. split; [set_solver|done].
Qed.

Lemma add_missing_has F t n : n ∈ F → n ∈ names (add_missing F t).
Proof.
  revert t. induction F as [|f F IH]; intros t Hin; [by apply elem_of_nil in Hin|].
  rewrite add_missing_cons.
  destruct (decide (n ∈ F)) as [HF|HF]; [by apply IH|].
  apply elem_of_cons in Hin as [->|]; [|done].
  destruct (add_missing_spec F
              (if bool_decide (f ∉ names t) then set_col f (full DInt (VInt 0) t) t else t))
    as (_ & extra & Hcols & _).
  unfold names at 1. rewrite Hcols, fmap_app. apply elem_of_app. left.
  case_bool_decide as Hf.
  - fold (names (set_col f (full DInt (VInt 0) t) t)).
    unfold names. rewrite names_set_col_absent by done. rewrite fmap_app. set_solver.
  - done.
Qed.

Lemma add_missing_id F t : (∀ n, n ∈ F → n ∈ names t) → add_missing F t = t.
Proof.
  revert t. induction F as [|f F IH]; intros t Hall; [done|].
  rewrite add_missing_cons. rewrite bool_decide_eq_false_2.
  - apply IH. intros n Hn. apply Hall. set_solver.
  - intros Hnot. apply Hnot, Hall. set_solver.
Qed.


Lemma select_cols_spec F t :
  (∀ n, n ∈ F → n ∈ names t) → select_cols F t = Some (blocks F t).
Proof.
  induction F as [|f F IH]; intros Hall; [done|].
  simpl. destruct (cols_named_cons f t) as (s & ss & Heq); [apply Hall; set_solver|].
  rewrite Heq. rewrite IH by (intros n Hn; apply Hall; set_solver).
  simpl. unfold blocks. simpl. by rewrite Heq.
Qed.

Lemma aligned_spec F t :
  aligned F t = Some (mkTable (nrows t) (blocks F (add_missing F t))).
Proof.
  unfold aligned. rewrite select_cols_spec by (intros n Hn; by apply add_missing_has).
  done.
Qed.

Lemma cols_named_absent n k cs :
  n ∉ cs.*1 → cols_named n (mkTable k cs) = [].
Proof. intros Hn. by apply cols_named_nil. Qed.

Lemma cols_named_unique n s k cs :
  NoDup cs.*1 → (n, s) ∈ cs → cols_named n (mkTable k cs) = [s].
Proof.
  unfold cols_named. simpl. induction cs as [|[m u] cs IH]; simpl; intros Hnd Hin.
  - by apply elem_of_nil in Hin.
  - apply NoDup_cons in Hnd as [Hm Hnd]. rewrite filter_cons. simpl.
    apply elem_of_cons in Hin as [Heq|Hin].
    + injection Heq as <- <-. rewrite decide_True by done. simpl. f_equal.
      by apply (cols_named_absent n k cs).
    + destruct (decide (m = n)) as [->|Hne]; [|by apply IH].
      exfalso. apply Hm. apply list_elem_of_fmap. by exists (n, s).
Qed.

Lemma cols_named_add_missing_old F t n :
  n ∈ names t → cols_named n (add_missing F t) = cols_named n t.
Proof.
  intros Hin. destruct (add_missing_spec F t) as (Hr & extra & Hc & Hnd & Hall).
  rewrite <- (cols_named_columns n (add_missing F t) (nrows t)), Hc, cols_named_app.
  rewrite (cols_named_absent n _ extra), app_nil_r; [done|].
  intros Hn. apply list_elem_of_fmap in Hn as (c & -> & Hc').
  rewrite Forall_forall in Hall. by destruct (Hall c Hc') as (_ & _ & Hnot).
Qed.

Lemma cols_named_add_missing_new F t n :
  n ∈ F → n ∉ names t → cols_named n (add_missing F t) = [full DInt (VInt 0) t].
Proof.
  intros HF Hn. destruct (add_missing_spec F t) as (Hr & extra & Hc & Hnd & Hall).
  pose proof (add_missing_has F t n HF) as Hhas.
  rewrite <- (cols_named_columns n (add_missing F t) (nrows t)), Hc, cols_named_app.
  rewrite (cols_named_nil n (mkTable _ (columns t))) by done. simpl.
  unfold names in Hhas. rewrite Hc, fmap_app in Hhas.
  apply elem_of_app in Hhas as [Hold|Hnew]; [done|].
  apply list_elem_of_fmap in Hnew as ([m s] & Hm & Hin). simpl in Hm. subst m.
  rewrite Forall_forall in Hall. destruct (Hall _ Hin) as (Hz & _). simpl in Hz. subst s.
  by apply cols_named_unique.
Qed.

Lemma cols_named_blocks n k F t :
  cols_named n (mkTable k (blocks F t)) =
  concat (map (λ m, if decide (m = n) then cols_named n t else []) F).
Proof.
  unfold blocks. induction F as [|f F IH]; [reflexivity|].
  simpl. rewrite cols_named_app, IH. f_equal.
  unfold cols_named at 1. simpl.
  destruct (decide (f = n)) as [->|Hne]; generalize (cols_named n t) as ss; intros ss;
    [|generalize (cols_named f t) as ss'; clear ss; intros ss].
  - induction ss as [|s ss IHs]; [done|]. simpl. rewrite filter_cons. simpl.
    rewrite decide_True by done. simpl. by f_equal.
  - induction ss as [|s ss IHs]; [done|]. simpl. rewrite filter_cons. simpl.
    by rewrite decide_False by done.
Qed.

Lemma names_blocks F t :
  (∀ n, n ∈ F → ∃ s, cols_named n t = [s]) → (blocks F t).*1 = F.
Proof.
  unfold blocks. induction F as [|f F IH]; intros Hall; [done|].
  simpl. rewrite fmap_app. destruct (Hall f) as [s Hs]; [set_solver|].
  rewrite Hs. simpl. f_equal. apply IH. intros n Hn. apply Hall. set_solver.
Qed.

Lemma blocks_has F t n : n ∈ F → n ∈ names t → n ∈ (blocks F t).*1.
Proof.
  unfold blocks. induction F as [|f F IH]; intros HF Hn; [by apply elem_of_nil in HF|].
  simpl. rewrite fmap_app. apply elem_of_app.
  destruct (decide (f = n)) as [->|Hne].
  - left. destruct (cols_named_cons n t Hn) as (s & ss & ->). simpl. set_solver.
  - right. apply IH; [set_solver|done].
Qed.

Lemma lookup_col_blocks n k F t :
  n ∈ F → lookup_col n (mkTable k (blocks F t)) = lookup_col n t.
Proof.
  unfold lookup_col. rewrite cols_named_blocks.
  induction F as [|f F IH]; intros HF; [by apply elem_of_nil in HF|].
  simpl. destruct (decide (f = n)) as [->|Hne].
  - destruct (cols_named n t) as [|s ss] eqn:Hs; simpl; [|done].
    clear IH HF. induction F as [|g F IH]; [done|]. simpl.
    by destruct (decide (g = n)).
  - simpl. apply IH. set_solver.
Qed.

Lemma cols_named_blocks_NoDup n k F t :
  NoDup F → n ∈ F → cols_named n (mkTable k (blocks F t)) = cols_named n t.
Proof.
  rewrite cols_named_blocks. induction F as [|f F IH]; intros Hnd HF; [by apply elem_of_nil in HF|].
  apply NoDup_cons in Hnd as [Hf Hnd]. simpl.
  destruct (decide (f = n)) as [->|Hne].
  - assert (Hrest : concat (map (λ m, if decide (m = n) then cols_named n t else []) F) = []).
    { clear IH HF Hnd. induction F as [|g F IH]; [done|]. simpl.
      rewrite decide_False by set_solver. simpl. apply IH. set_solver. }
    by rewrite Hrest, app_nil_r.
  - simpl. apply IH; [done|set_solver].
Qed.

Lemma blocks_ext F t1 t2 :
  (∀ n, n ∈ F → cols_named n t1 = cols_named n t2) → blocks F t1 = blocks F t2.
Proof.
  unfold blocks. induction F as [|f F IH]; intros Hall; [done|].
  simpl. rewrite (Hall f) by set_solver. f_equal. apply IH. intros n Hn. apply Hall. set_solver.
Qed.

(** Running [ensure_features]: the loop changes the caller's frame in
    place, and the selection is a new frame. *)
Lemma ensure_features_run F h r :
  ∃ h', ensure_features r F h = (Ok (next_ref h), h') ∧
        next_ref h' = S (next_ref h) ∧
        frame_at h' (next_ref h) =
          mkTable (nrows (frame_at h r)) (blocks F (add_missing F (frame_at h r))) ∧
        (r ≠ next_ref h → frame_at h' r = add_missing F (frame_at h r)) ∧
        ∀ q, q ≠ r → q ≠ next_ref h → frame_at h' q = frame_at h q.
Proof.
  unfold ensure_features.
  destruct (ensure_loop r F h) as (h1 & E1 & N1 & F1 & O1).
  rewrite (bind_ok _ _ _ _ _ E1).
  unfold df_getitem_list, deref, mbind, St_bind, alloc. simpl.
  rewrite F1, select_cols_spec by (intros n Hn; by apply add_missing_has).
  rewrite N1. eexists. split; [reflexivity|]. simpl. split; [done|]. split; [|split].
  - rewrite upd_eq. f_equal. apply (add_missing_spec F (frame_at h r)).
  - intros Hr. rewrite upd_ne by done. done.
  - intros q Hq Hq'. rewrite upd_ne by done. by apply O1.
Qed.

Lemma cols_named_single_add_missing F t n :
  n ∈ F → (length (cols_named n t) ≤ 1)%nat →
  ∃ s, cols_named n (add_missing F t) = [s].
Proof.
  intros HF Hlen. destruct (decide (n ∈ names t)) as [Hin|Hn].
  - rewrite cols_named_add_missing_old by done.
    destruct (cols_named_cons n t Hin) as (s & ss & Heq). rewrite Heq in *.
    destruct ss; [eauto|simpl in Hlen; lia].
  - rewrite cols_named_add_missing_new by done. eauto.
Qed.

(** ** Assignment to a column *)

Lemma names_set_col n s t :
  names (set_col n s t) = if has_col n t then names t else (names t ++ [n])%list.
Proof.
  unfold set_col, names. destruct (has_col n t); simpl.
  - induction (columns t) as [|[m u] cs IH]; [done|]. simpl.
    destruct (decide (m = n)) as [->|]; simpl; by f_equal.
  - by rewrite fmap_app.
Qed.

Lemma has_col_true n t : has_col n t = true ↔ n ∈ names t.
Proof. unfold has_col. apply bool_decide_eq_true. Qed.

Lemma has_col_false n t : has_col n t = false ↔ n ∉ names t.
Proof. unfold has_col. apply bool_decide_eq_false. Qed.

Lemma elem_names_set_col m n s t : m ∈ names t → m ∈ names (set_col n s t).
Proof.
  rewrite names_set_col. destruct (has_col n t); [done|]. set_solver.
Qed.

Lemma elem_names_set_col_self n s t : n ∈ names (set_col n s t).
Proof.
  rewrite names_set_col. destruct (has_col n t) eqn:E.
  - by apply has_col_true.
  - set_solver.
Qed.

Lemma cols_named_set_col_eq n s t :
  cols_named n (set_col n s t) =
  if has_col n t then map (λ _, s) (cols_named n t) else [s].
Proof.
  unfold set_col. destruct (has_col n t) eqn:E.
  - unfold cols_named. simpl. induction (columns t) as [|[m u] cs IH]; [done|].
    simpl. rewrite !filter_cons. simpl.
    destruct (decide (m = n)) as [->|Hne]; simpl.
    + rewrite decide_True by done. simpl. by f_equal.
    + by rewrite decide_False by done.
  - destruct t as [k cs]. simpl. rewrite cols_named_app.
    rewrite (cols_named_nil n (mkTable k cs)) by (by apply has_col_false).
    unfold cols_named. simpl. rewrite filter_cons. simpl. rewrite decide_True by done. done.
Qed.

Lemma cols_named_set_col_ne m n s t :
  m ≠ n → cols_named m (set_col n s t) = cols_named m t.
Proof.
  intros Hne. unfold set_col. destruct (has_col n t) eqn:E.
  - unfold cols_named. simpl. induction (columns t) as [|[p u] cs IH]; [done|].
    simpl. rewrite !filter_cons. simpl.
    destruct (decide (p = n)) as [->|Hpn]; simpl.
    + rewrite !decide_False by congruence. done.
    + destruct (decide (p = m)); simpl; [f_equal|]; apply IH.
  - destruct t as [k cs]. simpl. rewrite cols_named_app.
    unfold cols_named at 2. simpl. rewrite filter_cons. simpl.
    rewrite decide_False by congruence. simpl. by rewrite app_nil_r.
Qed.

Lemma lookup_col_set_col_eq n s t : lookup_col n (set_col n s t) = Some s.
Proof.
  unfold lookup_col. rewrite cols_named_set_col_eq. destruct (has_col n t) eqn:E; [|done].
  apply has_col_true in E. by destruct (cols_named_cons n t E) as (u & ss & ->).
Qed.

Lemma lookup_col_set_col_ne m n s t : m ≠ n → lookup_col m (set_col n s t) = lookup_col m t.
Proof. intros Hne. unfold lookup_col. by rewrite cols_named_set_col_ne. Qed.

Lemma names_set_at i n v t : names (set_at i n v t) = names t.
Proof.
  unfold set_at, names. simpl. induction (columns t) as [|[m u] cs IH]; [done|].
  simpl. destruct (decide (m = n)); simpl; by f_equal.
Qed.

(** ** Running a block on the store *)

Lemma sim_ext n0 m f f' : (∀ t, f t = f' t) → sim n0 m f → sim n0 m f'.
Proof.
  intros Hf Hm h r Hr. destruct (Hm h r Hr) as (r' & h' & ? & ? & ? & ?).
  exists r', h'. rewrite <- Hf. done.
Qed.

Lemma sim_ret n0 : sim n0 mret id.
Proof. intros h r Hr. exists r, h. done. Qed.

Lemma sim_bind n0 m1 m2 f1 f2 :
  sim n0 m1 f1 → sim n0 m2 f2 → sim n0 (λ df, m1 df ≫= m2) (f2 ∘ f1).
Proof.
  intros H1 H2 h r Hr.
  destruct (H1 h r Hr) as (r1 & h1 & E1 & Hr1 & F1 & O1).
  destruct (H2 h1 r1 Hr1) as (r2 & h2 & E2 & Hr2 & F2 & O2).
  exists r2, h2. rewrite (bind_ok _ _ _ _ _ E1). split; [done|]. split; [done|].
  split; [simpl; congruence|]. intros q Hq. rewrite O2, O1; done.
Qed.

Lemma sim_for_each {A} n0 (l : list A) (body : A -> ref -> M ref) f :
  (∀ x, sim n0 (body x) (f x)) →
  sim n0 (for_each l body) (λ t, foldl (λ t x, f x t) t l).
Proof.
  intros Hb. induction l as [|x l IH]; simpl.
  - apply sim_ret.
  - apply (sim_bind n0 (body x) (for_each l body) (f x) _ (Hb x) IH).
Qed.

(** A block guarded by [if col in df.columns] that reads [df[col]]. *)
Lemma sim_guard n0 col (body : ref -> M ref) (f : Series -> Table -> Table) :
  (∀ h r s, (n0 ≤ r < next_ref h)%nat → lookup_col col (frame_at h r) = Some s →
     ∃ r' h', body r h = (Ok r', h') ∧ (n0 ≤ r' < next_ref h')%nat ∧
              frame_at h' r' = f s (frame_at h r) ∧
              ∀ q, (q < n0)%nat → frame_at h' q = frame_at h q) →
  sim n0 (λ df, cols ← df_columns df; if bool_decide (col ∈ cols) then body df else mret df)
         (λ t, match lookup_col col t with Some s => f s t | None => t end).
Proof.
  intros Hb h r Hr. unfold df_columns, deref, mbind, St_bind, mret, St_ret. simpl.
  case_bool_decide as Hin.
  - destruct (lookup_col_Some _ _ Hin) as [s Hs]. rewrite Hs. by apply Hb.
  - rewrite lookup_col_None by done. exists r, h. done.
Qed.

(** Reading [df[col]] when the column is there. *)
Lemma df_getitem_ok df col h s :
  lookup_col col (frame_at h df) = Some s → df_getitem df col h = (Ok s, h).
Proof.
  intros Hs. unfold df_getitem, deref, mbind, St_bind. simpl. by rewrite Hs.
Qed.

Lemma df_drop_ok df col h :
  col ∈ names (frame_at h df) →
  df_drop df [col] h =
  (Ok (next_ref h),
   mkHeap (S (next_ref h)) (upd (frame_at h) (next_ref h) (drop_cols [col] (frame_at h df)))).
Proof.
  intros Hin. unfold df_drop, deref, mbind, St_bind, alloc. simpl.
  apply has_col_true in Hin. by rewrite Hin.
Qed.

Ltac frame_ne := intros; repeat (rewrite upd_ne by lia); done.

Lemma sim_flag_to_int `{PyLibs} n0 col :
  sim n0 (flag_to_int col) (flag_to_int_table col).
Proof.
  apply sim_guard. intros h r s Hr Hs.
  rewrite (bind_ok _ _ _ _ _ (df_getitem_ok _ _ _ _ Hs)).
  unfold df_setitem, mutate, mbind, St_bind, mret, St_ret. simpl.
  eexists _, _. split; [reflexivity|]. simpl. split; [done|].
  split; [apply upd_eq|]. frame_ne.
Qed.

Lemma sim_coerce_numeric `{PyLibs} n0 col :
  sim n0 (coerce_numeric col) (coerce_numeric_table col).
Proof.
  apply sim_guard. intros h r s Hr Hs.
  rewrite (bind_ok _ _ _ _ _ (df_getitem_ok _ _ _ _ Hs)).
  unfold df_setitem, mutate, mbind, St_bind, mret, St_ret. simpl.
  eexists _, _. split; [reflexivity|]. simpl. split; [done|].
  split; [apply upd_eq|]. frame_ne.
Qed.

Lemma sim_coerce_numeric_fill `{PyLibs} n0 col :
  sim n0 (coerce_numeric_fill col) (coerce_numeric_fill_table col).
Proof.
  apply sim_guard. intros h r s Hr Hs.
  rewrite (bind_ok _ _ _ _ _ (df_getitem_ok _ _ _ _ Hs)).
  unfold df_setitem, mutate, mbind, St_bind, mret, St_ret. simpl.
  eexists _, _. split; [reflexivity|]. simpl. split; [done|].
  split; [apply upd_eq|]. frame_ne.
Qed.

Lemma sim_keep_onboarded `{PyLibs} n0 :
  sim n0 keep_onboarded keep_onboarded_table.
Proof.
  apply sim_guard. intros h r s Hr Hs.
  rewrite (bind_ok _ _ _ _ _ (df_getitem_ok _ _ _ _ Hs)).
  unfold df_mask, deref, alloc, mbind, St_bind. simpl.
  eexists _, _. split; [reflexivity|]. simpl. split; [lia|].
  split; [apply upd_eq|]. frame_ne.
Qed.

Lemma sim_drop_if_present n0 col :
  sim n0 (drop_if_present col) (drop_if_present_table col).
Proof.
  intros h r Hr. unfold drop_if_present, drop_if_present_table.
  unfold df_columns, deref, mbind, St_bind, mret, St_ret. simpl.
  unfold has_col. case_bool_decide as Hin.
  - rewrite df_drop_ok by done. eexists _, _. split; [reflexivity|]. simpl.
    split; [lia|]. split; [apply upd_eq|]. frame_ne.
  - exists r, h. done.
Qed.

Lemma sim_encode_hour `{PyLibs} n0 col out :
  sim n0 (encode_hour col out) (encode_hour_table col out).
Proof.
  apply sim_guard. intros h r s Hr Hs.
  rewrite (bind_ok _ _ _ _ _ (df_getitem_ok _ _ _ _ Hs)).
  unfold df_setitem, mutate. unfold mbind at 1, St_bind at 1. simpl.
  rewrite df_drop_ok; simpl.
  - rewrite upd_eq. eexists _, _. split; [reflexivity|]. simpl. split; [lia|].
    split; [apply upd_eq|]. frame_ne.
  - rewrite upd_eq. apply elem_names_set_col. by eapply lookup_col_elem.
Qed.

Lemma sim_one_hot `{PyLibs} n0 fill col :
  sim n0 (one_hot fill col) (one_hot_table fill col).
Proof.
  apply sim_guard. intros h r s Hr Hs.
  rewrite (bind_ok _ _ _ _ _ (df_getitem_ok _ _ _ _ Hs)).
  unfold df_setitem, mutate. unfold mbind at 1, St_bind at 1. simpl.
  set (s1 := astype_str (fillna (VStr fill) s)).
  set (h1 := mkHeap _ _).
  assert (E1 : df_getitem r col h1 = (Ok s1, h1)).
  { apply df_getitem_ok. simpl. rewrite upd_eq. apply lookup_col_set_col_eq. }
  rewrite (bind_ok _ _ _ _ _ E1).
  rewrite (bind_ok _ _ _ _ _ (df_drop_ok r col h1
             ltac:(simpl; rewrite upd_eq; apply elem_names_set_col_self))).
  unfold pd_concat, deref, alloc, mbind, St_bind. simpl.
  rewrite !upd_eq. eexists _, _. split; [reflexivity|]. simpl. split; [lia|].
  split; [apply upd_eq|]. frame_ne.
Qed.

Lemma sim_encode_date `{PyLibs} n0 :
  sim n0 encode_date encode_date_table.
Proof.
  apply sim_guard. intros h r s Hr Hs.
  rewrite (bind_ok _ _ _ _ _ (df_getitem_ok _ _ _ _ Hs)).
  unfold df_setitem, mutate. unfold mbind at 1, St_bind at 1. simpl.
  unfold mbind at 1, St_bind at 1. simpl.
  rewrite df_drop_ok; simpl.
  - rewrite !upd_eq. eexists _, _. split; [reflexivity|]. simpl. split; [lia|].
    split; [apply upd_eq|]. frame_ne.
  - rewrite !upd_eq. do 2 apply elem_names_set_col. by eapply lookup_col_elem.
Qed.

Lemma inplace_fill_numeric_body df col :
  inplace df
    (numeric ← df_is_numeric df col;
     if (numeric : bool) then
       s ← df_getitem df col;
       df_setitem df col (fillna (VInt 0) s)
     else mret ())
    (λ t, fill_numeric_step t col).
Proof.
  intros h. unfold df_is_numeric, deref, fill_numeric_step.
  unfold mbind at 1, St_bind at 1. simpl.
  destruct (cols_named col (frame_at h df)) as [|s [|s' ss]] eqn:Hc;
    try (exists h; done).
  destruct (is_numeric_dtype (dtype s)); [|exists h; done].
  rewrite (bind_ok _ _ _ _ _ (df_getitem_ok df col h s
             ltac:(unfold lookup_col; by rewrite Hc))).
  apply (inplace_mutate df (set_col col (fillna (VInt 0) s))).
Qed.

Lemma sim_fill_numeric n0 : sim n0 fill_numeric fill_numeric_table.
Proof.
  intros h r Hr. unfold fill_numeric_table.
  destruct (inplace_for_each r (names (frame_at h r))
              (λ col _, numeric ← df_is_numeric r col;
                        if (numeric : bool) then
                          s ← df_getitem r col;
                          df_setitem r col (fillna (VInt 0) s)
                        else mret ())
              (λ col t, fill_numeric_step t col)
              (inplace_fill_numeric_body r) h) as (h' & E & N & F & O).
  exists r, h'. split.
  { unfold fill_numeric. erewrite bind_ok; [|reflexivity].
    by rewrite (bind_ok _ _ _ _ _ E). }
  split; [lia|]. split; [done|]. intros q Hq. apply O. lia.
Qed.

(** ** The day columns *)

Lemma lookup_col_zero_days n t :
  (∀ j, j ∈ PREF_DAYS → n ≠ day_col j) →
  lookup_col n (zero_days t) = lookup_col n t.
Proof.
  intros Hn. unfold zero_days. revert t.
  induction PREF_DAYS as [|j l IH]; intros t; [done|]. simpl.
  rewrite IH by (intros; apply Hn; set_solver).
  apply lookup_col_set_col_ne. apply Hn. set_solver.
Qed.

Lemma names_mark_days row t : names (mark_days row t) = names t.
Proof.
  unfold mark_days. revert t. induction PREF_DAYS as [|j l IH]; intros t; [done|].
  simpl. rewrite IH. case_bool_decide; [apply names_set_at|done].
Qed.

Lemma names_mark_rows rows t :
  names (foldl (λ t row, mark_days row t) t rows) = names t.
Proof.
  revert t. induction rows as [|row rows IH]; intros t; [done|].
  simpl. rewrite IH. apply names_mark_days.
Qed.

Lemma inplace_mark_days df (row : nat * list string) :
  inplace df
    (let (idx, days) := row in
     for_each PREF_DAYS (λ j _,
         if bool_decide (j ∈ days) then df_set_at df idx (day_col j) (VInt 1)
         else mret ()) ())
    (mark_days row).
Proof.
  destruct row as [idx days].
  apply (inplace_for_each df PREF_DAYS
           (λ j _, if bool_decide (j ∈ days) then df_set_at df idx (day_col j) (VInt 1)
                   else mret ())
           (λ j t, if bool_decide (j ∈ days) then set_at idx (day_col j) (VInt 1) t else t)).
  intros j. destruct (bool_decide (j ∈ days)).
  - apply (inplace_mutate df (set_at idx (day_col j) (VInt 1))).
  - apply inplace_ret.
Qed.

Lemma inplace_zero_days df :
  inplace df
    (for_each PREF_DAYS (λ j _, df_setitem_scalar df (day_col j) DInt (VInt 0)) ())
    zero_days.
Proof.
  apply (inplace_for_each df PREF_DAYS
           (λ j _, df_setitem_scalar df (day_col j) DInt (VInt 0))
           (λ j t, set_col (day_col j) (full DInt (VInt 0) t) t)).
  intros j. apply (inplace_mutate df (λ t, set_col (day_col j) (full DInt (VInt 0) t) t)).
Qed.

Lemma inplace_mark_rows df (rows : list (nat * list string)) :
  inplace df
    (for_each rows (λ (row : nat * list string) _,
         let (idx, days) := row in
         for_each PREF_DAYS (λ j _,
             if bool_decide (j ∈ days) then df_set_at df idx (day_col j) (VInt 1)
             else mret ()) ()) ())
    (λ t, foldl (λ t row, mark_days row t) t rows).
Proof.
  apply (inplace_for_each df rows
           (λ (row : nat * list string) _,
              let (idx, days) := row in
              for_each PREF_DAYS (λ j _,
                  if bool_decide (j ∈ days) then df_set_at df idx (day_col j) (VInt 1)
                  else mret ()) ())
           (λ row t, mark_days row t)).
  intros row. apply inplace_mark_days.
Qed.

Lemma lookup_col_available_zero_days t :
  lookup_col "availableDays" (zero_days t) = lookup_col "availableDays" t.
Proof.
  apply lookup_col_zero_days. intros j Hj. unfold PREF_DAYS in Hj.
  repeat (apply elem_of_cons in Hj as [->|Hj]; [discriminate|]).
  by apply elem_of_nil in Hj.
Qed.

Lemma sim_encode_available_days `{PyLibs} n0 :
  sim n0 encode_available_days encode_available_days_table.
Proof.
  apply sim_guard. intros h r s Hr Hs.
  destruct (inplace_zero_days r h) as (h1 & E1 & N1 & F1 & O1).
  assert (Hs1 : lookup_col "availableDays" (frame_at h1 r) = Some s).
  { by rewrite F1, lookup_col_available_zero_days. }
  destruct (inplace_mark_rows r (items (map _encode_days (cells s))) h1)
    as (h2 & E2 & N2 & F2 & O2).
  assert (Hin : "availableDays" ∈ names (frame_at h2 r)).
  { rewrite F2, names_mark_rows. by eapply lookup_col_elem. }
  exists (next_ref h2), (mkHeap (S (next_ref h2))
            (upd (frame_at h2) (next_ref h2) (drop_cols ["availableDays"] (frame_at h2 r)))).
  split; cbv beta.
  { rewrite (bind_ok _ _ _ _ _ E1).
    rewrite (bind_ok _ _ _ _ _ (df_getitem_ok _ _ _ _ Hs1)).
    cbv zeta. rewrite (bind_ok _ _ _ _ _ E2).
    by apply df_drop_ok. }
  simpl. split; [lia|]. split; [by rewrite upd_eq, F2, F1|].
  intros q Hq. rewrite upd_ne by lia. rewrite O2, O1 by lia. done.
Qed.

(** ** The encoders on the store *)

Lemma df_copy_run df h :
  df_copy df h =
  (Ok (next_ref h), mkHeap (S (next_ref h)) (upd (frame_at h) (next_ref h) (frame_at h df))).
Proof. done. Qed.

Lemma sim_copied (m : ref -> M ref) (f : Table -> Table) h df :
  (∀ n0, sim n0 m f) →
  ∃ r' h', (df_copy df ≫= m) h = (Ok r', h') ∧
           (next_ref h ≤ r' < next_ref h')%nat ∧
           frame_at h' r' = f (frame_at h df) ∧
           ∀ q, (q < next_ref h)%nat → frame_at h' q = frame_at h q.
Proof.
  intros Hm. rewrite (bind_ok _ _ _ _ _ (df_copy_run df h)).
  destruct (Hm (next_ref h) (mkHeap (S (next_ref h))
              (upd (frame_at h) (next_ref h) (frame_at h df))) (next_ref h))
    as (r' & h' & E & Hr & F & O); [simpl; lia|].
  exists r', h'. split; [done|]. split; [simpl in Hr; lia|].
  split; [by rewrite F; simpl; rewrite upd_eq|].
  intros q Hq. rewrite O by done. simpl. by rewrite upd_ne by lia.
Qed.

Lemma sim_preferences_body `{PyLibs} (n0 : nat) :
  sim n0
    (λ df,
       df ← keep_onboarded df;
       df ← for_each PREF_ONE_HOT_COLS (one_hot "UNKNOWN") df;
       df ← for_each PREF_BOOL_COLS flag_to_int df;
       df ← encode_available_days df;
       df ← encode_hour "start" "start_hour" df;
       df ← encode_hour "end" "end_hour" df;
       df ← for_each ["latitude"; "longitude"; "averageSpeed"] coerce_numeric df;
       fill_numeric df)
    prepare_preferences_table.
Proof.
  pose proof (sim_bind n0 _ _ _ _
                (sim_for_each n0 ["latitude"; "longitude"; "averageSpeed"] _ _
                   (sim_coerce_numeric n0))
                (sim_fill_numeric n0)) as S7.
  pose proof (sim_bind n0 _ _ _ _ (sim_encode_hour n0 "end" "end_hour") S7) as S6.
  pose proof (sim_bind n0 _ _ _ _ (sim_encode_hour n0 "start" "start_hour") S6) as S5.
  pose proof (sim_bind n0 _ _ _ _ (sim_encode_available_days n0) S5) as S4.
  pose proof (sim_bind n0 _ _ _ _
                (sim_for_each n0 PREF_BOOL_COLS _ _ (sim_flag_to_int n0)) S4) as S3.
  pose proof (sim_bind n0 _ _ _ _
                (sim_for_each n0 PREF_ONE_HOT_COLS _ _ (sim_one_hot n0 "UNKNOWN")) S3) as S2.
  pose proof (sim_bind n0 _ _ _ _ (sim_keep_onboarded n0) S2) as S1.
  eapply sim_ext; [|exact S1].
  intros t. lazy beta zeta delta [prepare_preferences_table compose]. reflexivity.
Qed.

Lemma prepare_preferences_run `{PyLibs} h df :
  ∃ r' h', prepare_preferences_dataframe df h = (Ok r', h') ∧
           (next_ref h ≤ r' < next_ref h')%nat ∧
           frame_at h' r' = prepare_preferences_table (frame_at h df) ∧
           ∀ q, (q < next_ref h)%nat → frame_at h' q = frame_at h q.
Proof.
  unfold prepare_preferences_dataframe.
  apply (sim_copied _ prepare_preferences_table h df). intros n0.
  apply sim_preferences_body.
Qed.

Lemma sim_sorties_body `{PyLibs} (n0 : nat) :
  sim n0
    (λ df,
       df ← for_each SORTIES_REMOVE_TEXT_COLS drop_if_present df;
       df ← one_hot "INCONNUE" "difficulte" df;
       df ← one_hot "UNKNOWN" "type" df;
       df ← for_each SORTIES_BOOL_COLS flag_to_int df;
       df ← for_each SORTIES_NUMERIC_COLS coerce_numeric_fill df;
       df ← encode_date df;
       fill_numeric df)
    prepare_sorties_table.
Proof.
  pose proof (sim_bind n0 _ _ _ _ (sim_encode_date n0) (sim_fill_numeric n0)) as S6.
  pose proof (sim_bind n0 _ _ _ _
                (sim_for_each n0 SORTIES_NUMERIC_COLS _ _ (sim_coerce_numeric_fill n0))
                S6) as S5.
  pose proof (sim_bind n0 _ _ _ _
                (sim_for_each n0 SORTIES_BOOL_COLS _ _ (sim_flag_to_int n0)) S5) as S4.
  pose proof (sim_bind n0 _ _ _ _ (sim_one_hot n0 "UNKNOWN" "type") S4) as S3.
  pose proof (sim_bind n0 _ _ _ _ (sim_one_hot n0 "INCONNUE" "difficulte") S3) as S2.
  pose proof (sim_bind n0 _ _ _ _
                (sim_for_each n0 SORTIES_REMOVE_TEXT_COLS _ _ (sim_drop_if_present n0))
                S2) as S1.
  eapply sim_ext; [|exact S1].
  intros t. lazy beta zeta delta [prepare_sorties_table compose]. reflexivity.
Qed.

Lemma prepare_sorties_run `{PyLibs} h df :
  ∃ r' h', prepare_sorties_dataframe df h = (Ok r', h') ∧
           (next_ref h ≤ r' < next_ref h')%nat ∧
           frame_at h' r' = prepare_sorties_table (frame_at h df) ∧
           ∀ q, (q < next_ref h)%nat → frame_at h' q = frame_at h q.
Proof.
  unfold prepare_sorties_dataframe.
  apply (sim_copied _ prepare_sorties_table h df). intros n0.
  apply sim_sorties_body.
Qed.

(** ** Columns picked by their label *)

Lemma cols_named_pick n t : cols_named n t = (pick (String.eqb n) t).*2.
Proof.
  unfold cols_named, pick. f_equal. apply list_filter_iff. intros [m s]. simpl.
  rewrite String.eqb_eq. split; congruence.
Qed.

Lemma pick_set_col p n s t :
  p n = false → pick p (set_col n s t) = pick p t.
Proof.
  intros Hp. unfold pick, set_col. destruct (has_col n t); simpl.
  - induction (columns t) as [|[m u] cs IH]; [done|]. simpl.
    rewrite !filter_cons. simpl. destruct (decide (m = n)) as [->|Hne]; simpl.
    + rewrite !decide_False by congruence. apply IH.
    + destruct (decide (p m = true)); [f_equal|]; apply IH.
  - rewrite filter_app, filter_cons. simpl. rewrite decide_False by congruence.
    rewrite filter_nil. apply app_nil_r.
Qed.

Lemma pick_set_at p i n v t :
  p n = false → pick p (set_at i n v t) = pick p t.
Proof.
  intros Hp. unfold pick, set_at. simpl.
  induction (columns t) as [|[m u] cs IH]; [done|]. simpl.
  rewrite !filter_cons. simpl. destruct (decide (m = n)) as [->|Hne]; simpl.
  - rewrite !decide_False by congruence. apply IH.
  - destruct (decide (p m = true)); [f_equal|]; apply IH.
Qed.

Lemma pick_drop_cols p ns t :
  (∀ n, n ∈ ns → p n = false) → pick p (drop_cols ns t) = pick p t.
Proof.
  intros Hp. unfold pick, drop_cols. simpl.
  induction (columns t) as [|[m u] cs IH]; [done|].
  rewrite !filter_cons. simpl. destruct (decide (m ∈ ns)) as [Hin|Hn].
  - rewrite decide_False by (intros Hnot; by apply Hnot).
    rewrite (decide_False (P := p m = true)) by (rewrite Hp by done; congruence).
    apply IH.
  - rewrite decide_True by done. rewrite filter_cons. simpl.
    destruct (decide (p m = true)); [f_equal|]; apply IH.
Qed.

Lemma pick_concat_cols p extra t :
  pick p (concat_cols extra t) = (pick p t ++ filter (λ c, p c.1 = true) extra)%list.
Proof. unfold pick, concat_cols. simpl. apply filter_app. Qed.

Lemma pick_filter_rows p mask t :
  pick p (filter_rows mask t) = map (mask_col mask) (pick p t).
Proof.
  unfold pick, filter_rows. simpl.
  induction (columns t) as [|[m u] cs IH]; [done|]. simpl.
  rewrite !filter_cons. simpl. destruct (decide (p m = true)); simpl; [f_equal|]; apply IH.
Qed.

Lemma names_drop_cols ns t : names (drop_cols ns t) = filter (λ n, n ∉ ns) (names t).
Proof.
  unfold names, drop_cols. simpl.
  induction (columns t) as [|[m u] cs IH]; [done|]. simpl.
  rewrite !filter_cons. simpl. destruct (decide (m ∉ ns)); simpl; [f_equal|]; apply IH.
Qed.

Lemma names_filter_rows mask t : names (filter_rows mask t) = names t.
Proof.
  unfold names, filter_rows. simpl.
  induction (columns t) as [|[m u] cs IH]; [done|]. simpl. f_equal. apply IH.
Qed.

Lemma names_pick p t : (pick p t).*1 = filter (λ n, p n = true) (names t).
Proof.
  unfold pick, names. induction (columns t) as [|[m u] cs IH]; [done|]. simpl.
  rewrite !filter_cons. simpl. destruct (decide (p m = true)); simpl; [f_equal|]; apply IH.
Qed.

Lemma pick_nil p t : (∀ n, n ∈ names t → p n = false) → pick p t = [].
Proof.
  intros Hp. apply fmap_nil_inv with (f := fst). rewrite names_pick.
  induction (names t) as [|n l IH]; [done|]. rewrite filter_cons.
  rewrite decide_False by (rewrite Hp by set_solver; congruence).
  apply IH. intros m Hm. apply Hp. set_solver.
Qed.

(** ** The final loop *)

Lemma cols_named_elem n t s m u :
  cols_named n t = [s] → (m, u) ∈ columns t → m = n → u = s.
Proof.
  unfold cols_named. intros Heq Hin ->.
  assert (Hf : (n, u) ∈ filter (λ c : string * Series, c.1 = n) (columns t)).
  { apply list_elem_of_filter. done. }
  destruct (filter _ (columns t)) as [|c [|c' l]]; simpl in Heq; try done.
  injection Heq as <-. apply list_elem_of_singleton in Hf. by subst c.
Qed.

Lemma dtype_fillna_int z s : dtype (fillna (VInt z) s) = dtype s.
Proof. done. Qed.

(** After [fillna(0)] no cell is missing. *)
Lemma fillna_zero_no_na s c :
  c ∈ cells (fillna (VInt 0) s) → pd_isna c = false.
Proof.
  unfold fillna. simpl. intros Hin. apply list_elem_of_fmap in Hin as (c0 & -> & _).
  destruct (pd_isna c0) eqn:E; [|done].
  destruct (dtype s); done.
Qed.

Lemma fillna_no_na v s :
  Forall (λ c, pd_isna c = false) (cells s) → cells (fillna v s) = cells s.
Proof.
  unfold fillna. simpl. intros Hall. induction Hall as [|c l Hc _ IH]; [done|].
  simpl. rewrite Hc. f_equal. apply IH.
Qed.

Lemma fillna_zero_idem s : fillna (VInt 0) (fillna (VInt 0) s) = fillna (VInt 0) s.
Proof.
  destruct (fillna (VInt 0) s) as [d cs] eqn:E.
  assert (Hd : d = dtype s) by (by rewrite <- (dtype_fillna_int 0 s), E).
  assert (Hna : Forall (λ c, pd_isna c = false) cs).
  { apply Forall_forall. intros c Hc. apply (fillna_zero_no_na s). by rewrite E. }
  pose proof (fillna_no_na (VInt 0) (mkSeries d cs) Hna) as Hc. simpl in Hc.
  unfold fillna in *. simpl in *. by rewrite Hc.
Qed.

Lemma cols_named_map_length (g : string * Series -> string * Series) n k cs :
  (∀ c, (g c).1 = c.1) →
  length (cols_named n (mkTable k (map g cs))) = length (cols_named n (mkTable k cs)).
Proof.
  intros Hg. unfold cols_named. simpl. rewrite !length_fmap.
  induction cs as [|c cs IH]; [done|]. simpl. rewrite !filter_cons. simpl.
  rewrite Hg. destruct (decide (c.1 = n)); simpl; by rewrite IH.
Qed.

Lemma fill_numeric_step_spec t n :
  nrows (fill_numeric_step t n) = nrows t ∧
  columns (fill_numeric_step t n) =
    map (λ c, if decide (c.1 = n) then sweep_col t c else c) (columns t).
Proof.
  unfold fill_numeric_step.
  destruct (cols_named n t) as [|s [|s' ss]] eqn:Hc.
  - split; [done|]. rewrite <- (map_id (columns t)) at 1. apply map_ext.
    intros c. destruct (decide (c.1 = n)) as [Heq|]; [|done].
    unfold sweep_col. by rewrite Heq, Hc.
  - destruct (is_numeric_dtype (dtype s)) eqn:Hnum.
    + split; [apply nrows_set_col|].
      assert (Hhas : has_col n t = true).
      { apply has_col_true. destruct (decide (n ∈ names t)) as [|Hn]; [done|].
        by rewrite cols_named_nil in Hc. }
      unfold set_col. rewrite Hhas. simpl. apply map_ext_in. intros [m u] Hin.
      simpl. destruct (decide (m = n)) as [->|]; [|done].
      apply list_elem_of_In in Hin.
      rewrite (cols_named_elem n t s n u Hc Hin eq_refl).
      unfold sweep_col. simpl. by rewrite Hc, Hnum.
    + split; [done|]. rewrite <- (map_id (columns t)) at 1. apply map_ext_in.
      intros [m u] Hin. destruct (decide ((m, u).1 = n)) as [Heq|]; [|done].
      simpl in Heq. subst m. apply list_elem_of_In in Hin.
      rewrite (cols_named_elem n t s n u Hc Hin eq_refl).
      unfold sweep_col. simpl. by rewrite Hnum, andb_false_r.
  - split; [done|]. rewrite <- (map_id (columns t)) at 1. apply map_ext.
    intros c. destruct (decide (c.1 = n)) as [Heq|]; [|done].
    unfold sweep_col. by rewrite Heq, Hc.
Qed.

Lemma sweep_col_label t c : (sweep_col t c).1 = c.1.
Proof. unfold sweep_col. by destruct (_ && _). Qed.


Lemma sweep_col_same_count t t' c :
  (∀ n, length (cols_named n t') = length (cols_named n t)) →
  sweep_col t' c = sweep_col t c.
Proof. intros Hlen. unfold sweep_col. by rewrite Hlen. Qed.

Lemma sweep_col_idem t c : sweep_col t (sweep_col t c) = sweep_col t c.
Proof.
  unfold sweep_col at 2 3.
  destruct (bool_decide _ && _) eqn:E; [|unfold sweep_col; by rewrite E].
  unfold sweep_col. simpl. rewrite E. by rewrite fillna_zero_idem.
Qed.

Lemma fill_numeric_fold_spec l t :
  nrows (foldl fill_numeric_step t l) = nrows t ∧
  columns (foldl fill_numeric_step t l) =
    map (λ c, if bool_decide (c.1 ∈ l) then sweep_col t c else c) (columns t).
Proof.
  revert t. induction l as [|n l IH]; intros t.
  - split; [done|]. simpl. by rewrite map_id.
  - simpl. destruct (IH (fill_numeric_step t n)) as [Hr Hc].
    destruct (fill_numeric_step_spec t n) as [Hr1 Hc1].
    split; [congruence|]. rewrite Hc, Hc1, map_map. apply map_ext. intros c.
    assert (Hcount : ∀ m, length (cols_named m (fill_numeric_step t n))
                          = length (cols_named m t)).
    { intros m. destruct (fill_numeric_step t n) as [k cs] eqn:Et. simpl in *. subst cs.
      rewrite cols_named_map_length; [done|].
      intros c'. destruct (decide _); [apply sweep_col_label|done]. }
    destruct (decide (c.1 = n)) as [Heq|Hne].
    + rewrite sweep_col_label. rewrite (bool_decide_eq_true_2 (c.1 ∈ n :: l)) by set_solver.
      case_bool_decide; [|done].
      rewrite (sweep_col_same_count t _ _ Hcount). apply sweep_col_idem.
    + case_bool_decide as Hl.
      * rewrite (bool_decide_eq_true_2 (c.1 ∈ n :: l)) by set_solver.
        apply (sweep_col_same_count t _ _ Hcount).
      * rewrite bool_decide_eq_false_2; [done|]. set_solver.
Qed.

Lemma fill_numeric_table_spec t :
  nrows (fill_numeric_table t) = nrows t ∧
  columns (fill_numeric_table t) = map (sweep_col t) (columns t).
Proof.
  unfold fill_numeric_table. destruct (fill_numeric_fold_spec (names t) t) as [Hr Hc].
  split; [done|]. rewrite Hc. apply map_ext_in. intros c Hin.
  rewrite bool_decide_eq_true_2; [done|].
  unfold names. apply list_elem_of_fmap. exists c. split; [done|].
  by apply list_elem_of_In.
Qed.

Lemma pick_fill_numeric p t :
  pick p (fill_numeric_table t) = map (sweep_col t) (pick p t).
Proof.
  unfold pick. rewrite (proj2 (fill_numeric_table_spec t)).
  induction (columns t) as [|c cs IH]; [done|]. simpl.
  rewrite !filter_cons, sweep_col_label.
  destruct (decide (p c.1 = true)); simpl; [f_equal|]; apply IH.
Qed.

Lemma names_fill_numeric t : names (fill_numeric_table t) = names t.
Proof.
  unfold names. rewrite (proj2 (fill_numeric_table_spec t)).
  induction (columns t) as [|c cs IH]; [done|]. simpl.
  rewrite sweep_col_label. f_equal. apply IH.
Qed.

(** ** Labels *)

Lemma prefix_app a b : String.prefix a (a +:+ b) = true.
Proof.
  induction a as [|x a IH]; simpl; [by destruct b|].
  destruct (ascii_dec x x); [done|congruence].
Qed.

Lemma prefix_false_ne a b n : String.prefix a n = false → n ≠ a +:+ b.
Proof. intros Hp ->. by rewrite prefix_app in Hp. Qed.

Lemma prefix_split a b x :
  String.prefix a (b +:+ x) = true →
  String.prefix a b = true ∨ String.prefix b a = true.
Proof.
  revert b. induction a as [|c a IH]; intros b; simpl.
  - intros _. left. by destruct b.
  - destruct b as [|d b]; simpl; [by right|].
    destruct (ascii_dec c d) as [->|Hne]; [|done].
    destruct (ascii_dec d d); [|congruence]. apply IH.
Qed.

Lemma prefix_disjoint a b x :
  String.prefix a b = false → String.prefix b a = false →
  String.prefix a (b +:+ x) = false.
Proof.
  intros Hab Hba. destruct (String.prefix a (b +:+ x)) eqn:E; [|done].
  apply prefix_split in E as [E|E]; congruence.
Qed.

Lemma append_assoc (a b c : string) : (a +:+ b) +:+ c = a +:+ (b +:+ c).
Proof.
  induction a as [|x a IH]; [done|].
  change (String x ((a +:+ b) +:+ c) = String x (a +:+ (b +:+ c))). by f_equal.
Qed.

(** The label of a bucket column. *)
Lemma bucket_label col lv : col +:+ "_" +:+ lv = (col +:+ "_") +:+ lv.
Proof. symmetry. apply append_assoc. Qed.

Lemma eqb_false_ne n m : String.eqb n m = false ↔ n ≠ m.
Proof. apply String.eqb_neq. Qed.

(** ** The blocks, column by column *)

Lemma pick_foldl {A} p (f : A -> Table -> Table) l t :
  (∀ x t, x ∈ l → pick p (f x t) = pick p t) →
  pick p (foldl (λ t x, f x t) t l) = pick p t.
Proof.
  revert t. induction l as [|x l IH]; intros t Hf; [done|]. simpl.
  rewrite IH by (intros; apply Hf; set_solver). apply Hf. set_solver.
Qed.

Lemma pick_keep_onboarded `{PyLibs} p t :
  pick p (keep_onboarded_table t) = map (kept_col t) (pick p t).
Proof.
  unfold keep_onboarded_table, kept_col, kept.
  destruct (lookup_col "onboardingComplete" t) as [flag|].
  - apply pick_filter_rows.
  - rewrite <- (map_id (pick p t)) at 1. apply map_ext. by intros [n s].
Qed.

Lemma filter_get_dummies_none `{PyLibs} p s col :
  (∀ lv, p (col +:+ "_" +:+ lv) = false) →
  filter (λ c, p c.1 = true) (get_dummies s col) = [].
Proof.
  intros Hp. unfold get_dummies. induction (levels s) as [|lv l IH]; [done|].
  simpl. rewrite filter_cons. simpl. rewrite Hp.
  rewrite decide_False by congruence. apply IH.
Qed.

Lemma filter_get_dummies_all `{PyLibs} p s col :
  (∀ lv, p (col +:+ "_" +:+ lv) = true) →
  filter (λ c, p c.1 = true) (get_dummies s col) = get_dummies s col.
Proof.
  intros Hp. unfold get_dummies. induction (levels s) as [|lv l IH]; [done|].
  simpl. rewrite filter_cons. simpl. rewrite Hp.
  rewrite decide_True by done. f_equal. apply IH.
Qed.

Lemma pick_one_hot_other `{PyLibs} p fill col t :
  p col = false → (∀ lv, p (col +:+ "_" +:+ lv) = false) →
  pick p (one_hot_table fill col t) = pick p t.
Proof.
  intros Hc Hb. unfold one_hot_table. destruct (lookup_col col t) as [s|]; [|done].
  rewrite pick_concat_cols, filter_get_dummies_none, app_nil_r by done.
  rewrite pick_drop_cols by (intros n Hn; apply list_elem_of_singleton in Hn; by subst).
  by apply pick_set_col.
Qed.

Lemma pick_one_hot_same `{PyLibs} p fill col t s :
  p col = false → (∀ lv, p (col +:+ "_" +:+ lv) = true) →
  lookup_col col t = Some s →
  pick p (one_hot_table fill col t) =
  (pick p t ++ get_dummies (astype_str (fillna (VStr fill) s)) col)%list.
Proof.
  intros Hc Hb Hs. unfold one_hot_table. rewrite Hs.
  rewrite pick_concat_cols, filter_get_dummies_all by done. f_equal.
  rewrite pick_drop_cols by (intros n Hn; apply list_elem_of_singleton in Hn; by subst).
  by apply pick_set_col.
Qed.

Lemma pick_flag_to_int `{PyLibs} p col t :
  p col = false → pick p (flag_to_int_table col t) = pick p t.
Proof.
  intros Hc. unfold flag_to_int_table. destruct (lookup_col col t); [|done].
  by apply pick_set_col.
Qed.

Lemma pick_coerce_numeric `{PyLibs} p col t :
  p col = false → pick p (coerce_numeric_table col t) = pick p t.
Proof.
  intros Hc. unfold coerce_numeric_table. destruct (lookup_col col t); [|done].
  by apply pick_set_col.
Qed.

Lemma pick_coerce_numeric_fill `{PyLibs} p col t :
  p col = false → pick p (coerce_numeric_fill_table col t) = pick p t.
Proof.
  intros Hc. unfold coerce_numeric_fill_table. destruct (lookup_col col t); [|done].
  by apply pick_set_col.
Qed.

Lemma pick_drop_if_present p col t :
  p col = false → pick p (drop_if_present_table col t) = pick p t.
Proof.
  intros Hc. unfold drop_if_present_table. destruct (has_col col t); [|done].
  apply pick_drop_cols. intros n Hn. apply list_elem_of_singleton in Hn. by subst.
Qed.

Lemma pick_encode_hour `{PyLibs} p col out t :
  p col = false → p out = false → pick p (encode_hour_table col out t) = pick p t.
Proof.
  intros Hc Ho. unfold encode_hour_table. destruct (lookup_col col t); [|done].
  rewrite pick_drop_cols by (intros n Hn; apply list_elem_of_singleton in Hn; by subst).
  by apply pick_set_col.
Qed.

Lemma pick_encode_date `{PyLibs} p t :
  p "date" = false → p "mois" = false → p "jour_semaine" = false →
  pick p (encode_date_table t) = pick p t.
Proof.
  intros Hd Hm Hj. unfold encode_date_table. destruct (lookup_col "date" t); [|done].
  rewrite pick_drop_cols by (intros n Hn; apply list_elem_of_singleton in Hn; by subst).
  rewrite !pick_set_col by done. done.
Qed.

Lemma pick_zero_days p t :
  (∀ j, j ∈ PREF_DAYS → p (day_col j) = false) → pick p (zero_days t) = pick p t.
Proof.
  intros Hp. unfold zero_days.
  apply (pick_foldl p (λ j t, set_col (day_col j) (full DInt (VInt 0) t) t)).
  intros j t' Hj. apply pick_set_col. by apply Hp.
Qed.

Lemma pick_mark_days p row t :
  (∀ j, j ∈ PREF_DAYS → p (day_col j) = false) → pick p (mark_days row t) = pick p t.
Proof.
  intros Hp. unfold mark_days.
  apply (pick_foldl p (λ j t, if bool_decide (j ∈ row.2)
                              then set_at row.1 (day_col j) (VInt 1) t else t)).
  intros j t' Hj. case_bool_decide; [|done]. apply pick_set_at. by apply Hp.
Qed.

Lemma pick_encode_available_days `{PyLibs} p t :
  (∀ j, j ∈ PREF_DAYS → p (day_col j) = false) → p "availableDays" = false →
  pick p (encode_available_days_table t) = pick p t.
Proof.
  intros Hp Ha. unfold encode_available_days_table.
  destruct (lookup_col "availableDays" t) as [s|]; [|done].
  rewrite pick_drop_cols by (intros n Hn; apply list_elem_of_singleton in Hn; by subst).
  rewrite (pick_foldl p (λ row t, mark_days row t))
    by (intros; by apply pick_mark_days).
  by apply pick_zero_days.
Qed.

(** ** The encoders, stage by stage *)

Lemma prepare_preferences_unfilled `{PyLibs} t :
  prepare_preferences_table t = fill_numeric_table (preferences_unfilled t).
Proof. unfold prepare_preferences_table, preferences_unfilled. cbv zeta. reflexivity. Qed.

Lemma prepare_sorties_unfilled `{PyLibs} t :
  prepare_sorties_table t = fill_numeric_table (sorties_unfilled t).
Proof. unfold prepare_sorties_table, sorties_unfilled. cbv zeta. reflexivity. Qed.

Lemma pick_one_hot_loop `{PyLibs} p fill l t :
  (∀ col, col ∈ l → p col = false ∧ ∀ lv, p (col +:+ "_" +:+ lv) = false) →
  pick p (foldl (λ t col, one_hot_table fill col t) t l) = pick p t.
Proof.
  intros Hp. apply (pick_foldl p (one_hot_table fill)).
  intros col t' Hcol. destruct (Hp col Hcol). by apply pick_one_hot_other.
Qed.

Ltac in_list := unfold PREF_SCHEMA, SORTIES_SCHEMA, PREF_ONE_HOT_COLS, PREF_BOOL_COLS,
  PREF_DAYS, SORTIES_REMOVE_TEXT_COLS, SORTIES_BOOL_COLS, SORTIES_NUMERIC_COLS;
  simpl; repeat first [ apply list_elem_of_here | apply list_elem_of_further ].

Lemma pick_preferences_unfilled `{PyLibs} p t :
  avoids_prefs p → pick p (preferences_unfilled t) = map (kept_col t) (pick p t).
Proof.
  intros [Hhot Hs]. unfold preferences_unfilled.
  rewrite (pick_foldl p coerce_numeric_table).
  2:{ intros col t' Hcol. apply pick_coerce_numeric, Hs.
      repeat (apply elem_of_cons in Hcol as [->|Hcol]; [in_list|]).
      by apply elem_of_nil in Hcol. }
  rewrite !pick_encode_hour by (apply Hs; in_list).
  rewrite pick_encode_available_days.
  2:{ intros j Hj. apply Hs. unfold PREF_DAYS in Hj.
      repeat (apply elem_of_cons in Hj as [->|Hj]; [in_list|]).
      by apply elem_of_nil in Hj. }
  2:{ apply Hs. in_list. }
  rewrite (pick_foldl p flag_to_int_table).
  2:{ intros col t' Hcol. apply pick_flag_to_int, Hs. unfold PREF_BOOL_COLS in Hcol.
      repeat (apply elem_of_cons in Hcol as [->|Hcol]; [in_list|]).
      by apply elem_of_nil in Hcol. }
  rewrite pick_one_hot_loop by done.
  apply pick_keep_onboarded.
Qed.


(** ** Fields outside the schema *)

Lemma pick_eqb_cols_named n t :
  pick (String.eqb n) t = map (pair n) (cols_named n t).
Proof.
  unfold pick, cols_named. induction (columns t) as [|[m u] cs IH]; [done|].
  rewrite !filter_cons. simpl. destruct (String.eqb_spec n m) as [->|Hne].
  - rewrite !decide_True by done. simpl. f_equal. apply IH.
  - rewrite !decide_False by congruence. apply IH.
Qed.

Lemma cols_named_NoDup n t s :
  NoDup (names t) → lookup_col n t = Some s → cols_named n t = [s].
Proof.
  unfold lookup_col, cols_named, names. intros Hnd Hs.
  induction (columns t) as [|[m u] cs IH]; [done|].
  simpl in Hnd. apply NoDup_cons in Hnd as [Hm Hnd].
  rewrite filter_cons in *. simpl in *. destruct (decide (m = n)) as [->|Hne].
  - simpl in *. injection Hs as ->. f_equal.
    apply (cols_named_nil n (mkTable 0 cs)). exact Hm.
  - by apply IH.
Qed.

Lemma avoids_prefs_eqb n : pref_schema_label n = false → avoids_prefs (String.eqb n).
Proof.
  unfold pref_schema_label. intros Hn. apply orb_false_elim in Hn as [Hs Hb].
  apply bool_decide_eq_false in Hs.
  assert (Hb' : ∀ col, col ∈ PREF_ONE_HOT_COLS → bucket_of col n = false).
  { intros col Hcol. apply not_true_is_false. intros Htrue.
    assert (existsb (λ col, bucket_of col n) PREF_ONE_HOT_COLS = true); [|congruence].
    apply existsb_exists. exists col. split; [by apply list_elem_of_In|done]. }
  split.
  - intros col Hcol. split.
    + apply String.eqb_neq. intros ->. apply Hs. unfold PREF_SCHEMA. set_solver.
    + intros lv. apply String.eqb_neq. rewrite bucket_label.
      apply prefix_false_ne. by apply Hb'.
  - intros m Hm. apply String.eqb_neq. by intros ->.
Qed.


Lemma sweep_col_alone t n s :
  length (cols_named n t) = 1%nat → sweep_col t (n, s) = (n, filled s).
Proof.
  intros Hlen. unfold sweep_col, filled. simpl. rewrite Hlen.
  rewrite bool_decide_eq_true_2 by done. simpl. by destruct (is_numeric_dtype _).
Qed.

Lemma cols_named_filled t n s :
  cols_named n t = [s] → cols_named n (fill_numeric_table t) = [filled s].
Proof.
  intros Hc. rewrite cols_named_pick, pick_fill_numeric, pick_eqb_cols_named, Hc.
  simpl. rewrite sweep_col_alone; [done|]. by rewrite Hc.
Qed.

Lemma preferences_other_field `{PyLibs} t n s :
  NoDup (names t) → lookup_col n t = Some s → pref_schema_label n = false →
  cols_named n (prepare_preferences_table t) = [filled (kept t s)].
Proof.
  intros Hnd Hs Hn. rewrite prepare_preferences_unfilled.
  apply cols_named_filled.
  rewrite cols_named_pick, pick_preferences_unfilled by (by apply avoids_prefs_eqb).
  rewrite pick_eqb_cols_named, (cols_named_NoDup n t s) by done. done.
Qed.



(** ** The preference encoder up to the flags *)

Lemma preferences_unfilled_flagged `{PyLibs} t :
  preferences_unfilled t =
  foldl (λ t col, coerce_numeric_table col t)
    (encode_hour_table "end" "end_hour"
       (encode_hour_table "start" "start_hour"
          (encode_available_days_table (preferences_flagged t))))
    ["latitude"; "longitude"; "averageSpeed"].
Proof. unfold preferences_unfilled, preferences_flagged. cbv zeta. reflexivity. Qed.

Lemma onehot_free_eqb cols n col :
  onehot_free cols n = true → col ∈ cols →
  String.eqb n col = false ∧ ∀ lv, String.eqb n (col +:+ "_" +:+ lv) = false.
Proof.
  unfold onehot_free. intros Hf Hcol. apply andb_prop in Hf as [Hn Hb].
  apply negb_true_iff in Hn, Hb. apply bool_decide_eq_false in Hn.
  split.
  - apply String.eqb_neq. by intros ->.
  - intros lv. apply String.eqb_neq. rewrite bucket_label. apply prefix_false_ne.
    apply not_true_is_false. intros Htrue.
    assert (existsb (λ col, bucket_of col n) cols = true); [|congruence].
    apply existsb_exists. exists col. split; [by apply list_elem_of_In|done].
Qed.

Lemma pick_preferences_flagged `{PyLibs} p t :
  (∀ col, col ∈ PREF_ONE_HOT_COLS →
     p col = false ∧ ∀ lv, p (col +:+ "_" +:+ lv) = false) →
  (∀ col, col ∈ PREF_BOOL_COLS → p col = false) →
  pick p (preferences_flagged t) = map (kept_col t) (pick p t).
Proof.
  intros Hhot Hflag. unfold preferences_flagged.
  rewrite (pick_foldl p flag_to_int_table)
    by (intros col t' Hcol; by apply pick_flag_to_int, Hflag).
  rewrite pick_one_hot_loop by done.
  apply pick_keep_onboarded.
Qed.

Lemma pick_eqb_flagged `{PyLibs} n t :
  onehot_free PREF_ONE_HOT_COLS n = true → n ∉ PREF_BOOL_COLS →
  pick (String.eqb n) (preferences_flagged t) = map (kept_col t) (pick (String.eqb n) t).
Proof.
  intros Hfree Hflag. apply pick_preferences_flagged.
  - intros col Hcol. by apply onehot_free_eqb with (cols := PREF_ONE_HOT_COLS).
  - intros col Hcol. apply String.eqb_neq. by intros ->.
Qed.

Lemma cols_named_flagged `{PyLibs} n t :
  onehot_free PREF_ONE_HOT_COLS n = true → n ∉ PREF_BOOL_COLS →
  cols_named n (preferences_flagged t) = map (kept t) (cols_named n t).
Proof.
  intros Hfree Hflag.
  rewrite cols_named_pick, pick_eqb_flagged, pick_eqb_cols_named by done.
  induction (cols_named n t) as [|s l IH]; [done|]. simpl. f_equal. apply IH.
Qed.

Lemma cols_named_drop_cols n ns t :
  n ∉ ns → cols_named n (drop_cols ns t) = cols_named n t.
Proof.
  intros Hn. rewrite !cols_named_pick, pick_drop_cols; [done|].
  intros m Hm. apply String.eqb_neq. by intros ->.
Qed.

Lemma cols_named_ne (p : Table -> Table) n t :
  pick (String.eqb n) (p t) = pick (String.eqb n) t → cols_named n (p t) = cols_named n t.
Proof. intros Hp. by rewrite !cols_named_pick, Hp. Qed.

Lemma cols_named_set_col_one n s t :
  (length (cols_named n t) ≤ 1)%nat → cols_named n (set_col n s t) = [s].
Proof.
  intros Hlen. rewrite cols_named_set_col_eq. destruct (has_col n t) eqn:E; [|done].
  apply has_col_true in E. destruct (cols_named_cons n t E) as (u & ss & Heq).
  rewrite Heq in *. destruct ss; [done|simpl in Hlen; lia].
Qed.

Lemma lookup_col_cols_named n t s : cols_named n t = [s] → lookup_col n t = Some s.
Proof. unfold lookup_col. by intros ->. Qed.

Lemma NoDup_cols_named_le n t : NoDup (names t) → (length (cols_named n t) ≤ 1)%nat.
Proof.
  intros Hnd. destruct (lookup_col n t) as [s|] eqn:E.
  - by rewrite (cols_named_NoDup n t s).
  - unfold lookup_col in E. destruct (cols_named n t); [simpl; lia|done].
Qed.

(** ** The hour columns *)

(** [df[out] = df[col].apply(_parse_hour_to_float)] and the drop of [col],
    seen from the label [out]. *)
Lemma cols_named_encode_hour `{PyLibs} col out t s :
  col ≠ out → lookup_col col t = Some s → (length (cols_named out t) ≤ 1)%nat →
  cols_named out (encode_hour_table col out t) = [apply_float _parse_hour_to_float s].
Proof.
  intros Hne Hs Hlen. unfold encode_hour_table. rewrite Hs.
  rewrite cols_named_drop_cols by set_solver. by apply cols_named_set_col_one.
Qed.

Lemma cells_filled_hours `{PyLibs} s :
  cells (filled (apply_float _parse_hour_to_float s)) = map hour_cell (cells s).
Proof.
  unfold filled, apply_float, fillna, hour_cell. simpl.
  destruct (cells s) as [|c l] eqn:E.
  - by destruct (is_numeric_dtype (dtype s)).
  - simpl. f_equal; [by destruct (PrimFloat.is_nan (_parse_hour_to_float c))|].
    rewrite map_map. apply map_ext. intros c'. simpl.
    by destruct (PrimFloat.is_nan (_parse_hour_to_float c')).
Qed.

(** Goals [x ∉ l] for a label and a list given in full. *)
Ltac not_in_list :=
  let Hin := fresh "Hin" in
  intros Hin;
  repeat (apply elem_of_cons in Hin as [Hin|Hin]; [discriminate Hin|]);
  by apply elem_of_nil in Hin.

(** Goals [∀ x, x ∈ l → P x] over a list given in full. *)
Ltac each_of l :=
  let x := fresh "x" in let Hx := fresh "Hx" in
  intros x Hx; unfold l in Hx;
  repeat (apply elem_of_cons in Hx as [->|Hx]; [try reflexivity|]);
  try (by apply elem_of_nil in Hx).

Lemma eqb_days_false n :
  forallb (λ j, negb (String.eqb n (day_col j))) PREF_DAYS = true →
  ∀ j, j ∈ PREF_DAYS → String.eqb n (day_col j) = false.
Proof.
  intros Hall j Hj. rewrite forallb_forall in Hall.
  apply negb_true_iff, Hall. by apply list_elem_of_In.
Qed.

Lemma cols_named_after_days `{PyLibs} n t :
  onehot_free PREF_ONE_HOT_COLS n = true → n ∉ PREF_BOOL_COLS →
  forallb (λ j, negb (String.eqb n (day_col j))) PREF_DAYS = true →
  n ≠ "availableDays" →
  cols_named n (encode_available_days_table (preferences_flagged t))
  = map (kept t) (cols_named n t).
Proof.
  intros Hfree Hflag Hdays Ha.
  rewrite <- cols_named_flagged by done.
  apply (cols_named_ne encode_available_days_table).
  apply pick_encode_available_days; [by apply eqb_days_false|].
  by apply String.eqb_neq.
Qed.

Lemma length_map_le {A B} (f : A -> B) l k :
  (length l ≤ k)%nat → (length (map f l) ≤ k)%nat.
Proof. by rewrite length_map. Qed.

Lemma preferences_start_hour `{PyLibs} t s :
  NoDup (names t) → lookup_col "start" t = Some s →
  cols_named "start_hour" (prepare_preferences_table t)
  = [filled (apply_float _parse_hour_to_float (kept t s))].
Proof.
  intros Hnd Hs. rewrite prepare_preferences_unfilled. apply cols_named_filled.
  rewrite preferences_unfilled_flagged.
  set (T4 := encode_available_days_table (preferences_flagged t)).
  assert (H4 : cols_named "start" T4 = [kept t s]).
  { unfold T4. rewrite cols_named_after_days; try done.
    - by rewrite (cols_named_NoDup "start" t s).
    - unfold PREF_BOOL_COLS. not_in_list. }
  assert (H4' : (length (cols_named "start_hour" T4) ≤ 1)%nat).
  { unfold T4. rewrite cols_named_after_days; try done.
    - apply length_map_le. by apply NoDup_cols_named_le.
    - unfold PREF_BOOL_COLS. not_in_list. }
  rewrite (cols_named_ne (λ t, foldl (λ t col, coerce_numeric_table col t) t
                                 ["latitude"; "longitude"; "averageSpeed"])).
  2:{ apply (pick_foldl _ coerce_numeric_table). intros col t' Hcol.
      apply pick_coerce_numeric. revert col Hcol.
      intros x Hx. repeat (apply elem_of_cons in Hx as [->|Hx]; [reflexivity|]).
      by apply elem_of_nil in Hx. }
  rewrite (cols_named_ne (encode_hour_table "end" "end_hour"))
    by (by apply pick_encode_hour).
  apply cols_named_encode_hour; [done| |done].
  by apply lookup_col_cols_named.
Qed.

Lemma preferences_end_hour `{PyLibs} t s :
  NoDup (names t) → lookup_col "end" t = Some s →
  cols_named "end_hour" (prepare_preferences_table t)
  = [filled (apply_float _parse_hour_to_float (kept t s))].
Proof.
  intros Hnd Hs. rewrite prepare_preferences_unfilled. apply cols_named_filled.
  rewrite preferences_unfilled_flagged.
  set (T4 := encode_available_days_table (preferences_flagged t)).
  set (T5 := encode_hour_table "start" "start_hour" T4).
  assert (H5 : cols_named "end" T5 = [kept t s]).
  { unfold T5. rewrite (cols_named_ne (encode_hour_table "start" "start_hour"))
      by (by apply pick_encode_hour).
    unfold T4. rewrite cols_named_after_days; try done.
    - by rewrite (cols_named_NoDup "end" t s).
    - unfold PREF_BOOL_COLS. not_in_list. }
  assert (H5' : (length (cols_named "end_hour" T5) ≤ 1)%nat).
  { unfold T5. rewrite (cols_named_ne (encode_hour_table "start" "start_hour"))
      by (by apply pick_encode_hour).
    unfold T4. rewrite cols_named_after_days; try done.
    - apply length_map_le. by apply NoDup_cols_named_le.
    - unfold PREF_BOOL_COLS. not_in_list. }
  rewrite (cols_named_ne (λ t, foldl (λ t col, coerce_numeric_table col t) t
                                 ["latitude"; "longitude"; "averageSpeed"])).
  2:{ apply (pick_foldl _ coerce_numeric_table). intros col t' Hcol.
      apply pick_coerce_numeric. revert col Hcol.
      intros x Hx. repeat (apply elem_of_cons in Hx as [->|Hx]; [reflexivity|]).
      by apply elem_of_nil in Hx. }
  apply cols_named_encode_hour; [done| |done].
  by apply lookup_col_cols_named.
Qed.

(** ** The day columns *)

Lemma day_col_inj j j' : day_col j = day_col j' → j = j'.
Proof. unfold day_col. apply (inj (String.append "day_")). Qed.

Lemma nrows_zero_days_fold l t :
  nrows (foldl (λ t j, set_col (day_col j) (full DInt (VInt 0) t) t) t l) = nrows t.
Proof.
  revert t. induction l as [|j l IH]; intros t; [done|]. simpl.
  by rewrite IH, nrows_set_col.
Qed.

Lemma cols_named_zero_days_fold j l t :
  (length (cols_named (day_col j) t) ≤ 1)%nat →
  cols_named (day_col j)
    (foldl (λ t j, set_col (day_col j) (full DInt (VInt 0) t) t) t l)
  = if bool_decide (j ∈ l) then [full DInt (VInt 0) t] else cols_named (day_col j) t.
Proof.
  revert t. induction l as [|j' l IH]; intros t Hlen.
  - by rewrite bool_decide_eq_false_2 by set_solver.
  - simpl. destruct (decide (j' = j)) as [->|Hne].
    + rewrite IH by (rewrite cols_named_set_col_one by done; simpl; lia).
      rewrite (bool_decide_eq_true_2 (j ∈ j :: l)) by set_solver.
      rewrite cols_named_set_col_one by done.
      unfold full. rewrite nrows_set_col. by destruct (bool_decide (j ∈ l)).
    + assert (Hd : day_col j ≠ day_col j') by (intros E; by apply day_col_inj in E).
      rewrite IH by (by rewrite cols_named_set_col_ne).
      rewrite cols_named_set_col_ne by done. unfold full. rewrite nrows_set_col.
      destruct (bool_decide (j ∈ l)) eqn:E.
      * rewrite bool_decide_eq_true_2; [done|]. apply bool_decide_eq_true in E. set_solver.
      * rewrite bool_decide_eq_false_2; [done|]. apply bool_decide_eq_false in E. set_solver.
Qed.

Lemma cols_named_zero_days j t :
  j ∈ PREF_DAYS → (length (cols_named (day_col j) t) ≤ 1)%nat →
  cols_named (day_col j) (zero_days t) = [full DInt (VInt 0) t].
Proof.
  intros Hj Hlen. unfold zero_days. rewrite cols_named_zero_days_fold by done.
  by rewrite bool_decide_eq_true_2.
Qed.

Lemma cols_named_set_at_eq i n v t :
  cols_named n (set_at i n v t) = map (with_cell i v) (cols_named n t).
Proof.
  unfold cols_named, set_at. simpl. induction (columns t) as [|[m u] cs IH]; [done|].
  simpl. rewrite !filter_cons. simpl. destruct (decide (m = n)) as [->|Hne]; simpl.
  - rewrite decide_True by done. simpl. f_equal. apply IH.
  - rewrite decide_False by done. apply IH.
Qed.

Lemma cols_named_set_at_ne i n m v t :
  m ≠ n → cols_named m (set_at i n v t) = cols_named m t.
Proof.
  intros Hne. rewrite !cols_named_pick, pick_set_at; [done|].
  apply String.eqb_neq. congruence.
Qed.

Lemma cols_named_mark_fold j (row : nat * list string) l t :
  NoDup l →
  cols_named (day_col j)
    (foldl (λ t j', if bool_decide (j' ∈ row.2)
                    then set_at row.1 (day_col j') (VInt 1) t else t) t l)
  = if bool_decide (j ∈ l) && bool_decide (j ∈ row.2)
    then map (with_cell row.1 (VInt 1)) (cols_named (day_col j) t)
    else cols_named (day_col j) t.
Proof.
  revert t. induction l as [|j' l IH]; intros t Hnd; [done|].
  apply NoDup_cons in Hnd as [Hj' Hnd]. simpl. rewrite IH by done.
  destruct (decide (j' = j)) as [->|Hne].
  - rewrite (bool_decide_eq_false_2 (j ∈ l)) by done.
    rewrite (bool_decide_eq_true_2 (j ∈ j :: l)) by set_solver. simpl.
    destruct (bool_decide (j ∈ row.2)); [|done]. apply cols_named_set_at_eq.
  - assert (Hd : day_col j ≠ day_col j') by (intros E; by apply day_col_inj in E).
    assert (Hsame : bool_decide (j ∈ j' :: l) = bool_decide (j ∈ l)).
    { apply bool_decide_ext. set_solver. }
    rewrite Hsame.
    destruct (bool_decide (j' ∈ row.2)); [|done].
    by rewrite cols_named_set_at_ne by done.
Qed.

Lemma NoDup_PREF_DAYS : NoDup PREF_DAYS.
Proof. unfold PREF_DAYS. apply NoDup_ListNoDup. repeat constructor; simpl; intuition discriminate. Qed.

Lemma cols_named_mark_days j row t :
  j ∈ PREF_DAYS →
  cols_named (day_col j) (mark_days row t)
  = if bool_decide (j ∈ row.2)
    then map (with_cell row.1 (VInt 1)) (cols_named (day_col j) t)
    else cols_named (day_col j) t.
Proof.
  intros Hj. unfold mark_days. rewrite cols_named_mark_fold by apply NoDup_PREF_DAYS.
  by rewrite (bool_decide_eq_true_2 (j ∈ PREF_DAYS)).
Qed.

Lemma cols_named_mark_rows j ds off t d cs :
  j ∈ PREF_DAYS → cols_named (day_col j) t = [mkSeries d cs] →
  cols_named (day_col j)
    (foldl (λ t row, mark_days row t) t (zip (seq off (length ds)) ds))
  = [mkSeries d (mark_from j off ds cs)].
Proof.
  intros Hj. revert off t cs. induction ds as [|x ds IH]; intros off t cs Hc; [done|].
  simpl. apply IH. rewrite cols_named_mark_days by done. simpl. rewrite Hc.
  by destruct (bool_decide (j ∈ x)).
Qed.

Lemma mark_from_zeros j ds pre :
  mark_from j (length pre) ds (pre ++ replicate (length ds) (VInt 0))
  = (pre ++ map (day_cell j) ds)%list.
Proof.
  revert pre. induction ds as [|d ds IH]; intros pre; [done|]. simpl.
  assert (Hstep : (if bool_decide (j ∈ d)
                   then <[length pre := VInt 1]>
                          (pre ++ VInt 0 :: replicate (length ds) (VInt 0))%list
                   else (pre ++ VInt 0 :: replicate (length ds) (VInt 0))%list)
                  = ((pre ++ [day_cell j d]) ++ replicate (length ds) (VInt 0))%list).
  { unfold day_cell. rewrite <- app_assoc. simpl. destruct (bool_decide (j ∈ d)); [|done].
    rewrite insert_app_r_alt by lia. by rewrite Nat.sub_diag. }
  rewrite Hstep.
  replace (S (length pre)) with (length (pre ++ [day_cell j d]))
    by (rewrite length_app; simpl; lia).
  rewrite IH. by rewrite <- app_assoc.
Qed.

Lemma cols_named_days_block `{PyLibs} j t a :
  j ∈ PREF_DAYS → lookup_col "availableDays" t = Some a →
  (length (cols_named (day_col j) t) ≤ 1)%nat →
  length (cells a) = nrows t →
  cols_named (day_col j) (encode_available_days_table t)
  = [mkSeries DInt (map (λ v, day_cell j (_encode_days v)) (cells a))].
Proof.
  intros Hj Ha Hlen Hrows. unfold encode_available_days_table. rewrite Ha.
  rewrite cols_named_drop_cols.
  2:{ intros Hin. apply list_elem_of_singleton in Hin. revert Hin.
      unfold PREF_DAYS in Hj.
      repeat (apply elem_of_cons in Hj as [->|Hj]; [discriminate|]).
      by apply elem_of_nil in Hj. }
  unfold items.
  rewrite (cols_named_mark_rows j _ 0 _ DInt (replicate (nrows t) (VInt 0))) by
    (by try apply cols_named_zero_days).
  f_equal. f_equal. rewrite <- Hrows.
  rewrite <- (length_map _encode_days (cells a)).
  pose proof (mark_from_zeros j (map _encode_days (cells a)) []) as Hm.
  simpl in Hm. rewrite Hm. by rewrite map_map.
Qed.

Lemma mask_cells_length {A B} (mask : list bool) (l1 : list A) (l2 : list B) :
  length l1 = length l2 → length (mask_cells mask l1) = length (mask_cells mask l2).
Proof.
  revert l1 l2. induction mask as [|b mask IH]; intros [|x l1] [|y l2] Hlen;
    simpl in *; try done.
  destruct b; simpl; [f_equal|]; apply IH; lia.
Qed.

Lemma nrows_one_hot `{PyLibs} fill col t : nrows (one_hot_table fill col t) = nrows t.
Proof.
  unfold one_hot_table. destruct (lookup_col col t); [|done]. simpl. apply nrows_set_col.
Qed.

Lemma nrows_flag_to_int `{PyLibs} col t : nrows (flag_to_int_table col t) = nrows t.
Proof.
  unfold flag_to_int_table. destruct (lookup_col col t); [|done]. apply nrows_set_col.
Qed.

Lemma nrows_foldl {A} (f : A -> Table -> Table) l t :
  (∀ x t, nrows (f x t) = nrows t) → nrows (foldl (λ t x, f x t) t l) = nrows t.
Proof.
  intros Hf. revert t. induction l as [|x l IH]; intros t; [done|]. simpl.
  by rewrite IH, Hf.
Qed.

Lemma nrows_preferences_flagged `{PyLibs} t :
  nrows (preferences_flagged t) = nrows (keep_onboarded_table t).
Proof.
  unfold preferences_flagged.
  rewrite (nrows_foldl flag_to_int_table) by apply nrows_flag_to_int.
  by rewrite (nrows_foldl (one_hot_table "UNKNOWN")) by apply nrows_one_hot.
Qed.

Lemma length_kept `{PyLibs} t s :
  length (cells s) = nrows t → length (cells (kept t s)) = nrows (keep_onboarded_table t).
Proof.
  intros Hlen. unfold kept, keep_onboarded_table.
  destruct (lookup_col "onboardingComplete" t) as [flag|]; [|done]. simpl.
  apply mask_cells_length. by rewrite length_seq.
Qed.

Lemma filled_ints (l : list Z) : filled (mkSeries DInt (map VInt l)) = mkSeries DInt (map VInt l).
Proof.
  unfold filled, fillna. simpl. f_equal. rewrite map_map. by apply map_ext.
Qed.

Lemma day_cells_ints `{PyLibs} j (l : list Cell) :
  map (λ v, day_cell j (_encode_days v)) l
  = map VInt (map (λ v, (if bool_decide (j ∈ _encode_days v) then 1 else 0)) l).
Proof. by rewrite map_map. Qed.

Lemma day_label_free j :
  j ∈ PREF_DAYS →
  onehot_free PREF_ONE_HOT_COLS (day_col j) = true ∧ (day_col j ∉ PREF_BOOL_COLS) ∧
  day_col j ≠ "availableDays" ∧
  String.eqb (day_col j) "start" = false ∧ String.eqb (day_col j) "start_hour" = false ∧
  String.eqb (day_col j) "end" = false ∧ String.eqb (day_col j) "end_hour" = false ∧
  (∀ col, col ∈ ["latitude"; "longitude"; "averageSpeed"] →
     String.eqb (day_col j) col = false).
Proof.
  intros Hj. unfold PREF_DAYS in Hj.
  repeat (apply elem_of_cons in Hj as [->|Hj];
          [repeat split; try reflexivity; try discriminate;
           try (unfold PREF_BOOL_COLS; intros Hin;
                repeat (apply elem_of_cons in Hin as [Hin|Hin]; [discriminate|]);
                by apply elem_of_nil in Hin);
           try (intros col Hcol;
                repeat (apply elem_of_cons in Hcol as [->|Hcol]; [reflexivity|]);
                by apply elem_of_nil in Hcol)|]).
  by apply elem_of_nil in Hj.
Qed.

Lemma cols_named_days_unfilled `{PyLibs} j t :
  j ∈ PREF_DAYS →
  cols_named (day_col j) (preferences_unfilled t)
  = cols_named (day_col j) (encode_available_days_table (preferences_flagged t)).
Proof.
  intros Hj. destruct (day_label_free j Hj) as (_ & _ & _ & Hs & Hsh & He & Heh & Hnum).
  rewrite preferences_unfilled_flagged.
  rewrite (cols_named_ne (λ t, foldl (λ t col, coerce_numeric_table col t) t
                                 ["latitude"; "longitude"; "averageSpeed"])).
  2:{ apply (pick_foldl _ coerce_numeric_table). intros col t' Hcol.
      by apply pick_coerce_numeric, Hnum. }
  rewrite (cols_named_ne (encode_hour_table "end" "end_hour"))
    by (by apply pick_encode_hour).
  by rewrite (cols_named_ne (encode_hour_table "start" "start_hour"))
    by (by apply pick_encode_hour).
Qed.

Lemma preferences_day_column `{PyLibs} j t s :
  j ∈ PREF_DAYS → NoDup (names t) →
  lookup_col "availableDays" t = Some s → length (cells s) = nrows t →
  cols_named (day_col j) (prepare_preferences_table t)
  = [mkSeries DInt (map (λ v, day_cell j (_encode_days v)) (cells (kept t s)))].
Proof.
  intros Hj Hnd Hs Hlen. destruct (day_label_free j Hj) as (Hfree & Hflag & Hav & _).
  rewrite prepare_preferences_unfilled.
  rewrite (cols_named_filled _ _
             (mkSeries DInt (map (λ v, day_cell j (_encode_days v)) (cells (kept t s))))).
  { rewrite day_cells_ints. by rewrite filled_ints. }
  rewrite cols_named_days_unfilled by done.
  apply cols_named_days_block; [done| | |].
  - apply lookup_col_cols_named. rewrite cols_named_flagged.
    + by rewrite (cols_named_NoDup _ t s).
    + reflexivity.
    + unfold PREF_BOOL_COLS. not_in_list.
  - rewrite cols_named_flagged by done. apply length_map_le.
    by apply NoDup_cols_named_le.
  - rewrite nrows_preferences_flagged. by apply length_kept.
Qed.

Lemma encode_available_days_absent `{PyLibs} t :
  lookup_col "availableDays" t = None → encode_available_days_table t = t.
Proof. intros Hn. unfold encode_available_days_table. by rewrite Hn. Qed.

Lemma preferences_no_day_column `{PyLibs} j t :
  j ∈ PREF_DAYS → "availableDays" ∉ names t → day_col j ∉ names t →
  day_col j ∉ names (prepare_preferences_table t).
Proof.
  intros Hj Hav Hday. destruct (day_label_free j Hj) as (Hfree & Hflag & _).
  assert (Hnone : lookup_col "availableDays" (preferences_flagged t) = None).
  { unfold lookup_col. rewrite cols_named_flagged.
    - by rewrite (cols_named_nil _ t).
    - vm_compute. reflexivity.
    - unfold PREF_BOOL_COLS. not_in_list. }
  assert (Hc : cols_named (day_col j) (prepare_preferences_table t) = []).
  { rewrite prepare_preferences_unfilled, cols_named_pick, pick_fill_numeric.
    rewrite pick_eqb_cols_named, cols_named_days_unfilled by done.
    rewrite encode_available_days_absent by done.
    rewrite cols_named_flagged by done.
    by rewrite (cols_named_nil _ t). }
  intros Hin. destruct (cols_named_cons _ _ Hin) as (s & ss & Heq).
  by rewrite Hc in Heq.
Qed.

(** ** The bucket columns of a categorical field *)

Lemma bucket_of_own col lv : bucket_of col (col +:+ "_" +:+ lv) = true.
Proof. unfold bucket_of. rewrite bucket_label. apply prefix_app. Qed.

Lemma bucket_of_apart col c lv :
  String.prefix (col +:+ "_") (c +:+ "_") = false →
  String.prefix (c +:+ "_") (col +:+ "_") = false →
  bucket_of col (c +:+ "_" +:+ lv) = false.
Proof. intros H1 H2. unfold bucket_of. rewrite bucket_label. by apply prefix_disjoint. Qed.

Lemma eqb_bucket_false col c lv :
  bucket_of c col = false → String.eqb col (c +:+ "_" +:+ lv) = false.
Proof.
  intros Hb. apply String.eqb_neq. rewrite bucket_label. by apply prefix_false_ne.
Qed.

Lemma all_apart_spec cols c c' :
  all_apart cols = true → c ∈ cols → c' ∈ cols → c ≠ c' →
  bucket_of c c' = false ∧ (∀ lv, bucket_of c (c' +:+ "_" +:+ lv) = false) ∧
  (∀ lv, String.eqb c (c' +:+ "_" +:+ lv) = false).
Proof.
  unfold all_apart. intros Hall Hc Hc' Hne. rewrite forallb_forall in Hall.
  apply list_elem_of_In in Hc, Hc'. specialize (Hall c Hc).
  apply andb_prop in Hall as [_ Hall]. rewrite forallb_forall in Hall.
  specialize (Hall c' Hc'). apply orb_prop in Hall as [Heq|Hap].
  - apply String.eqb_eq in Heq. done.
  - unfold apart in Hap. repeat (apply andb_prop in Hap as [Hap ?]).
    repeat match goal with H : negb _ = true |- _ => apply negb_true_iff in H end.
    split; [done|]. split; intros lv.
    + by apply bucket_of_apart.
    + by apply eqb_bucket_false.
Qed.

Lemma all_apart_self cols c : all_apart cols = true → c ∈ cols → bucket_of c c = false.
Proof.
  unfold all_apart. intros Hall Hc. rewrite forallb_forall in Hall.
  apply list_elem_of_In in Hc. specialize (Hall c Hc).
  apply andb_prop in Hall as [Hs _]. by apply negb_true_iff in Hs.
Qed.

Lemma lookup_col_pick (f : Table -> Table) n t :
  pick (String.eqb n) (f t) = pick (String.eqb n) t → lookup_col n (f t) = lookup_col n t.
Proof. intros Hp. unfold lookup_col. by rewrite (cols_named_ne f). Qed.

Lemma one_hot_loop_bucket `{PyLibs} fill col l t s :
  NoDup l → col ∈ l → bucket_of col col = false →
  (∀ c, c ∈ l → c ≠ col →
     bucket_of col c = false ∧ (∀ lv, bucket_of col (c +:+ "_" +:+ lv) = false) ∧
     (∀ lv, String.eqb col (c +:+ "_" +:+ lv) = false)) →
  lookup_col col t = Some s →
  pick (bucket_of col) (foldl (λ t c, one_hot_table fill c t) t l)
  = (pick (bucket_of col) t ++ get_dummies (astype_str (fillna (VStr fill) s)) col)%list.
Proof.
  intros Hnd Hin Hself Hoth. revert t. induction l as [|c l IH]; intros t Hs.
  - by apply elem_of_nil in Hin.
  - apply NoDup_cons in Hnd as [Hc Hnd]. simpl.
    destruct (decide (c = col)) as [->|Hne].
    + rewrite pick_one_hot_loop.
      * apply pick_one_hot_same; [done| |done]. intros lv. apply bucket_of_own.
      * intros c' Hc'. destruct (Hoth c') as (? & ? & ?); [set_solver|set_solver|done].
    + destruct (Hoth c) as (Hb & Hbl & He); [set_solver|done|].
      assert (Hcol : col ∈ l) by set_solver.
      rewrite IH; [| done | done | intros; apply Hoth; set_solver |].
      * by rewrite pick_one_hot_other.
      * rewrite (lookup_col_pick (one_hot_table fill c)); [done|].
        apply pick_one_hot_other; [|done]. apply String.eqb_neq. congruence.
Qed.

(** The final loop leaves a column without missing cells as it is. *)
Lemma sweep_col_no_na t c :
  Forall (λ x, pd_isna x = false) (cells c.2) → sweep_col t c = c.
Proof.
  intros Hna. unfold sweep_col. destruct (_ && _); [|done].
  destruct c as [n [d cs]]. simpl in *. f_equal. unfold fillna. simpl.
  f_equal. induction Hna as [|x l Hx _ IH]; [done|]. simpl. rewrite Hx. by f_equal.
Qed.

Lemma sweep_get_dummies `{PyLibs} t s col :
  map (sweep_col t) (get_dummies s col) = get_dummies s col.
Proof.
  unfold get_dummies. rewrite map_map. apply map_ext. intros lv.
  apply sweep_col_no_na. simpl. apply Forall_forall. intros x Hx.
  apply list_elem_of_fmap in Hx as (c & -> & _). done.
Qed.

Lemma NoDup_PREF_ONE_HOT_COLS : NoDup PREF_ONE_HOT_COLS.
Proof.
  apply (bool_decide_unpack _). vm_compute. exact I.
Qed.

Lemma lookup_col_keep_onboarded `{PyLibs} n t s :
  lookup_col n t = Some s → lookup_col n (keep_onboarded_table t) = Some (kept t s).
Proof.
  unfold lookup_col. rewrite !cols_named_pick, pick_keep_onboarded.
  destruct (pick (String.eqb n) t) as [|[m u] l]; [done|]. simpl. congruence.
Qed.

Lemma bucket_of_later col n :
  col ∈ PREF_ONE_HOT_COLS → n ∈ PREF_LATER → bucket_of col n = false.
Proof.
  intros Hc Hn.
  assert (Hall : forallb (λ c, forallb (λ m, negb (bucket_of c m)) PREF_LATER)
                   PREF_ONE_HOT_COLS = true) by (vm_compute; reflexivity).
  rewrite forallb_forall in Hall. apply list_elem_of_In in Hc, Hn.
  specialize (Hall col Hc). rewrite forallb_forall in Hall.
  apply negb_true_iff. by apply Hall.
Qed.

Lemma bucket_of_sorties_other col n :
  col ∈ ["difficulte"; "type"] → n ∈ SORTIES_OTHER → bucket_of col n = false.
Proof.
  intros Hc Hn.
  assert (Hall : forallb (λ c, forallb (λ m, negb (bucket_of c m)) SORTIES_OTHER)
                   ["difficulte"; "type"] = true) by (vm_compute; reflexivity).
  rewrite forallb_forall in Hall. apply list_elem_of_In in Hc, Hn.
  specialize (Hall col Hc). rewrite forallb_forall in Hall.
  apply negb_true_iff. by apply Hall.
Qed.

Ltac later_list := unfold PREF_LATER, SORTIES_OTHER, PREF_BOOL_COLS, PREF_DAYS,
  SORTIES_REMOVE_TEXT_COLS, SORTIES_BOOL_COLS, SORTIES_NUMERIC_COLS;
  simpl; repeat first [ apply list_elem_of_here | apply list_elem_of_further ].

Lemma day_col_later j : j ∈ PREF_DAYS → day_col j ∈ PREF_LATER.
Proof.
  intros Hj. unfold PREF_LATER. rewrite !elem_of_app. right. right.
  apply list_elem_of_fmap. by exists j.
Qed.

Lemma flag_later col : col ∈ PREF_BOOL_COLS → col ∈ PREF_LATER.
Proof. intros Hc. unfold PREF_LATER. rewrite !elem_of_app. by left. Qed.

(** The bucket columns of a categorical preference field are the dummy
    columns of its values, whatever the other fields hold. *)
Lemma preferences_buckets `{PyLibs} col t s :
  col ∈ PREF_ONE_HOT_COLS → NoDup (names t) → lookup_col col t = Some s →
  (∀ n, n ∈ names t → bucket_of col n = false) →
  pick (bucket_of col) (prepare_preferences_table t)
  = get_dummies (astype_str (fillna (VStr "UNKNOWN") (kept t s))) col.
Proof.
  intros Hcol Hnd Hs Hfree.
  rewrite prepare_preferences_unfilled, pick_fill_numeric.
  assert (Hp : pick (bucket_of col) (preferences_unfilled t)
               = get_dummies (astype_str (fillna (VStr "UNKNOWN") (kept t s))) col).
  { rewrite preferences_unfilled_flagged.
    rewrite (pick_foldl (bucket_of col) coerce_numeric_table).
    2:{ intros c t' Hc. apply pick_coerce_numeric, bucket_of_later; [done|].
        repeat (apply elem_of_cons in Hc as [->|Hc]; [later_list|]).
        by apply elem_of_nil in Hc. }
    rewrite !pick_encode_hour by (apply bucket_of_later; [done|later_list]).
    rewrite pick_encode_available_days.
    2:{ intros j Hj. apply bucket_of_later; [done|]. by apply day_col_later. }
    2:{ apply bucket_of_later; [done|later_list]. }
    unfold preferences_flagged.
    rewrite (pick_foldl (bucket_of col) flag_to_int_table).
    2:{ intros c t' Hc. apply pick_flag_to_int, bucket_of_later; [done|].
        by apply flag_later. }
    assert (Hap : all_apart PREF_ONE_HOT_COLS = true) by (vm_compute; reflexivity).
    rewrite (one_hot_loop_bucket "UNKNOWN" col PREF_ONE_HOT_COLS _ (kept t s)).
    - rewrite pick_keep_onboarded, (pick_nil _ t) by done. done.
    - apply NoDup_PREF_ONE_HOT_COLS.
    - done.
    - by apply (all_apart_self PREF_ONE_HOT_COLS).
    - intros c Hc Hne. apply (all_apart_spec PREF_ONE_HOT_COLS); [done..|congruence].
    - by apply lookup_col_keep_onboarded. }
  rewrite Hp. apply sweep_get_dummies.
Qed.

Lemma pick_sorties_later `{PyLibs} col t :
  col ∈ ["difficulte"; "type"] →
  pick (bucket_of col)
    (encode_date_table
       (foldl (λ t c, coerce_numeric_fill_table c t)
          (foldl (λ t c, flag_to_int_table c t) t SORTIES_BOOL_COLS)
          SORTIES_NUMERIC_COLS))
  = pick (bucket_of col) t.
Proof.
  intros Hcol.
  rewrite pick_encode_date by (apply bucket_of_sorties_other; [done|later_list]).
  rewrite (pick_foldl (bucket_of col) coerce_numeric_fill_table).
  2:{ intros c t' Hc. apply pick_coerce_numeric_fill, bucket_of_sorties_other; [done|].
      unfold SORTIES_OTHER. rewrite !elem_of_app. auto. }
  rewrite (pick_foldl (bucket_of col) flag_to_int_table).
  2:{ intros c t' Hc. apply pick_flag_to_int, bucket_of_sorties_other; [done|].
      unfold SORTIES_OTHER. rewrite !elem_of_app. auto. }
  done.
Qed.

Lemma pick_sorties_dropped col t :
  col ∈ ["difficulte"; "type"] →
  pick (bucket_of col) (foldl (λ t c, drop_if_present_table c t) t SORTIES_REMOVE_TEXT_COLS)
  = pick (bucket_of col) t.
Proof.
  intros Hcol. apply (pick_foldl (bucket_of col) drop_if_present_table).
  intros c t' Hc. apply pick_drop_if_present, bucket_of_sorties_other; [done|].
  unfold SORTIES_OTHER. rewrite !elem_of_app. auto.
Qed.

Lemma lookup_col_sorties_dropped col t :
  col ∈ ["difficulte"; "type"] →
  lookup_col col (foldl (λ t c, drop_if_present_table c t) t SORTIES_REMOVE_TEXT_COLS)
  = lookup_col col t.
Proof.
  intros Hcol.
  apply (lookup_col_pick (λ t, foldl (λ t c, drop_if_present_table c t) t
                                 SORTIES_REMOVE_TEXT_COLS)).
  apply (pick_foldl (String.eqb col) drop_if_present_table).
  intros c t' Hc. apply pick_drop_if_present.
  assert (Hall : forallb (λ k, forallb (λ m, negb (String.eqb k m)) SORTIES_REMOVE_TEXT_COLS)
                   ["difficulte"; "type"] = true) by (vm_compute; reflexivity).
  rewrite forallb_forall in Hall. apply list_elem_of_In in Hcol, Hc.
  specialize (Hall col Hcol). rewrite forallb_forall in Hall.
  apply negb_true_iff. by apply Hall.
Qed.

(** The bucket columns of the difficulty of outings. *)
Lemma sorties_buckets_difficulte `{PyLibs} t s :
  lookup_col "difficulte" t = Some s →
  (∀ n, n ∈ names t → bucket_of "difficulte" n = false) →
  pick (bucket_of "difficulte") (prepare_sorties_table t)
  = get_dummies (astype_str (fillna (VStr "INCONNUE") s)) "difficulte".
Proof.
  intros Hs Hfree.
  assert (Hin : "difficulte" ∈ ["difficulte"; "type"]) by later_list.
  rewrite prepare_sorties_unfilled, pick_fill_numeric.
  assert (Hp : pick (bucket_of "difficulte") (sorties_unfilled t)
               = get_dummies (astype_str (fillna (VStr "INCONNUE") s)) "difficulte").
  { unfold sorties_unfilled. cbv zeta. rewrite pick_sorties_later by done.
    rewrite pick_one_hot_other.
    2:{ vm_compute. reflexivity. }
    2:{ intros lv. apply bucket_of_apart; vm_compute; reflexivity. }
    rewrite (pick_one_hot_same _ _ _ _ s).
    - rewrite pick_sorties_dropped, (pick_nil _ t) by done. done.
    - vm_compute. reflexivity.
    - intros lv. apply bucket_of_own.
    - by rewrite lookup_col_sorties_dropped. }
  rewrite Hp. apply sweep_get_dummies.
Qed.

(** The bucket columns of the type of outings. *)
Lemma sorties_buckets_type `{PyLibs} t s :
  lookup_col "type" t = Some s →
  (∀ n, n ∈ names t → bucket_of "type" n = false) →
  pick (bucket_of "type") (prepare_sorties_table t)
  = get_dummies (astype_str (fillna (VStr "UNKNOWN") s)) "type".
Proof.
  intros Hs Hfree.
  assert (Hin : "type" ∈ ["difficulte"; "type"]) by later_list.
  rewrite prepare_sorties_unfilled, pick_fill_numeric.
  assert (Hp : pick (bucket_of "type") (sorties_unfilled t)
               = get_dummies (astype_str (fillna (VStr "UNKNOWN") s)) "type").
  { unfold sorties_unfilled. cbv zeta. rewrite pick_sorties_later by done.
    rewrite (pick_one_hot_same _ _ _ _ s).
    - rewrite pick_one_hot_other.
      + rewrite pick_sorties_dropped, (pick_nil _ t) by done. done.
      + vm_compute. reflexivity.
      + intros lv. apply bucket_of_apart; vm_compute; reflexivity.
    - vm_compute. reflexivity.
    - intros lv. apply bucket_of_own.
    - rewrite (lookup_col_pick (one_hot_table "INCONNUE" "difficulte")).
      + by rewrite lookup_col_sorties_dropped.
      + apply pick_one_hot_other; [vm_compute; reflexivity|].
        intros lv. apply eqb_bucket_false. vm_compute. reflexivity. }
  rewrite Hp. apply sweep_get_dummies.
Qed.

(** ** The dummy columns of one field *)

Lemma insert_sorted_perm x l : insert_sorted x l ≡ₚ x :: l.
Proof.
  induction l as [|y l IH]; simpl; [done|].
  destruct (String.leb x y); [done|]. rewrite IH. apply perm_swap.
Qed.

Lemma sort_strings_perm l : sort_strings l ≡ₚ l.
Proof.
  unfold sort_strings. induction l as [|x l IH]; simpl; [done|].
  by rewrite insert_sorted_perm, IH.
Qed.

Lemma levels_elem `{PyLibs} s lv : lv ∈ levels s ↔ lv ∈ map py_str (cells s).
Proof. unfold levels. by rewrite sort_strings_perm, elem_of_remove_dups. Qed.

Lemma NoDup_levels `{PyLibs} s : NoDup (levels s).
Proof. unfold levels. rewrite sort_strings_perm. apply NoDup_remove_dups. Qed.

Lemma names_get_dummies `{PyLibs} s col :
  (get_dummies s col).*1 = map (λ lv, col +:+ "_" +:+ lv) (levels s).
Proof. unfold get_dummies. rewrite <- list_fmap_compose. done. Qed.

Lemma append_inj_r (a b c : string) : a +:+ b = a +:+ c → b = c.
Proof.
  induction a as [|x a IH]; [done|].
  change (String x (a +:+ b) = String x (a +:+ c) → b = c). intros Heq.
  injection Heq as Heq. by apply IH.
Qed.

Lemma bucket_label_inj col lv lv' :
  col +:+ "_" +:+ lv = col +:+ "_" +:+ lv' → lv = lv'.
Proof. intros Heq. apply append_inj_r in Heq. by apply append_inj_r in Heq. Qed.

Lemma hot_at_dummy `{PyLibs} s col i c lv :
  cells s !! i = Some c →
  hot_at i (col +:+ "_" +:+ lv,
            mkSeries DBool (map (λ c, VBool (bool_decide (py_str c = lv))) (cells s)))
  = bool_decide (py_str c = lv).
Proof.
  intros Hc. unfold hot_at. simpl.
  change (map ?f ?l) with (f <$> l). rewrite list_lookup_fmap, Hc. simpl.
  by case_bool_decide.
Qed.

Lemma filter_hot_dummies `{PyLibs} s col i c (L : list string) :
  cells s !! i = Some c → NoDup L →
  filter (λ x, hot_at i x = true)
    (map (λ lv, (col +:+ "_" +:+ lv,
                 mkSeries DBool (map (λ c, VBool (bool_decide (py_str c = lv))) (cells s)))) L)
  = map (λ lv, (col +:+ "_" +:+ lv,
                mkSeries DBool (map (λ c, VBool (bool_decide (py_str c = lv))) (cells s))))
        (if bool_decide (py_str c ∈ L) then [py_str c] else []).
Proof.
  intros Hc. induction 1 as [|a L Ha Hnd IH]; [done|].
  simpl. rewrite filter_cons, (hot_at_dummy s col i c a Hc), IH.
  destruct (decide (py_str c = a)) as [<-|Hne].
  - rewrite bool_decide_eq_true_2 by done. rewrite decide_True by done.
    rewrite (bool_decide_eq_false_2 (py_str c ∈ L)) by done.
    rewrite bool_decide_eq_true_2 by set_solver. done.
  - rewrite bool_decide_eq_false_2 by done. rewrite decide_False by done.
    destruct (decide (py_str c ∈ L)).
    + rewrite !bool_decide_eq_true_2 by set_solver. done.
    + rewrite !bool_decide_eq_false_2 by set_solver. done.
Qed.

(** In every row, exactly one dummy column is set: the one of the row's word. *)
Lemma get_dummies_hot `{PyLibs} s col i c :
  cells s !! i = Some c →
  filter (λ x, hot_at i x = true) (get_dummies s col)
  = [(col +:+ "_" +:+ py_str c,
      mkSeries DBool (map (λ c', VBool (bool_decide (py_str c' = py_str c))) (cells s)))].
Proof.
  intros Hc. unfold get_dummies.
  rewrite (filter_hot_dummies s col i c (levels s) Hc (NoDup_levels s)).
  rewrite bool_decide_eq_true_2; [done|].
  apply levels_elem. apply list_elem_of_fmap. exists c. split; [done|].
  by apply list_elem_of_lookup_2 in Hc.
Qed.

Lemma cells_bucket_words `{PyLibs} fill s :
  cells (astype_str (fillna (VStr fill) s)) = map (λ c, VStr (bucket_value fill c)) (cells s).
Proof.
  unfold astype_str, fillna, bucket_value. simpl. rewrite map_map.
  apply map_ext. intros c. destruct (dtype s); by destruct (pd_isna c).
Qed.

(** A table whose bucket columns are the dummy columns of a field is a
    one-hot expansion of the field. *)
Lemma one_hot_encoded_dummies `{PyLibs} fill col s out :
  pick (bucket_of col) out = get_dummies (astype_str (fillna (VStr fill) s)) col →
  one_hot_encoded fill col s out.
Proof.
  intros Hp. split.
  - intros lv. transitivity (col +:+ "_" +:+ lv ∈ (pick (bucket_of col) out).*1).
    { rewrite names_pick, list_elem_of_filter, bucket_of_own. tauto. }
    rewrite Hp, names_get_dummies, list_elem_of_fmap. split.
    + intros (lv' & Heq & Hlv). apply bucket_label_inj in Heq. subst lv'.
      apply levels_elem in Hlv. rewrite cells_bucket_words, map_map in Hlv.
      apply list_elem_of_fmap in Hlv as (c & -> & Hc). by exists c.
    + intros (c & Hc & <-). exists (bucket_value fill c). split; [done|].
      apply levels_elem. rewrite cells_bucket_words, map_map.
      apply list_elem_of_fmap. by exists c.
  - intros i c Hc. rewrite Hp. eexists.
    rewrite (get_dummies_hot _ col i (VStr (bucket_value fill c))); [reflexivity|].
    rewrite cells_bucket_words. change (map ?f ?l) with (f <$> l).
    by rewrite list_lookup_fmap, Hc.
Qed.

(** ** Parsing a time of day *)

Lemma parse_hour_missing `{PyLibs} v :
  pd_isna v = true → _parse_hour_to_float v = PrimFloat.nan.
Proof. intros Hv. unfold _parse_hour_to_float. by rewrite Hv. Qed.

Lemma parse_hour_valid `{PyLibs} v p0 p1 hh mm fh fm :
  pd_isna v = false → py_split ":" (py_str v) = [p0; p1] →
  py_int p0 = Some hh → py_int p1 = Some mm →
  float_of_int hh = Some fh → float_of_int mm = Some fm →
  _parse_hour_to_float v = PrimFloat.add fh (PrimFloat.div fm 60%float).
Proof.
  intros Hv Hsplit H0 H1 Hh Hm. unfold _parse_hour_to_float.
  by rewrite Hv, Hsplit, H0, H1, Hm, Hh.
Qed.

Lemma parse_hour_pieces `{PyLibs} v :
  length (py_split ":" (py_str v)) ≠ 2%nat → _parse_hour_to_float v = PrimFloat.nan.
Proof.
  intros Hlen. unfold _parse_hour_to_float. destruct (pd_isna v); [done|].
  destruct (py_split ":" (py_str v)) as [|p0 [|p1 [|p2 l]]]; try done.
Qed.

Lemma parse_hour_not_int `{PyLibs} v p :
  p ∈ py_split ":" (py_str v) → py_int p = None →
  _parse_hour_to_float v = PrimFloat.nan.
Proof.
  intros Hp Hnone. unfold _parse_hour_to_float. destruct (pd_isna v); [done|].
  destruct (py_split ":" (py_str v)) as [|p0 [|p1 [|p2 l]]]; try done.
  apply elem_of_cons in Hp as [->|Hp].
  - by rewrite Hnone.
  - apply list_elem_of_singleton in Hp as ->. rewrite Hnone. by destruct (py_int p0).
Qed.

Lemma parse_hour_half_past_eight `{PyLibs} :
  _parse_hour_to_float (VStr "08:30") = 8.5%float.
Proof. vm_compute. reflexivity. Qed.

Lemma parse_hour_bad `{PyLibs} :
  _parse_hour_to_float (VStr "bad") = PrimFloat.nan.
Proof. vm_compute. reflexivity. Qed.

Lemma digit_char a :
  is_Some (digit_value a) →
  py_isspace a = false ∧ a ≠ "-"%char ∧ a ≠ "+"%char ∧ a ≠ ":"%char ∧
  (nat_of_ascii a <? 128)%nat = true.
Proof.
  destruct a as [[] [] [] [] [] [] [] []]; vm_compute; intros [z Hz];
    try discriminate; repeat split; discriminate.
Qed.

Lemma lstrip_head a l : py_isspace a = false → lstrip (a :: l) = a :: l.
Proof. intros Ha. simpl. by rewrite Ha. Qed.

Lemma py_strip_digits l :
  Forall (λ a, is_Some (digit_value a)) l → py_strip l = l.
Proof.
  intros Hl. unfold py_strip.
  assert (Hstrip : ∀ l', Forall (λ a, is_Some (digit_value a)) l' → lstrip l' = l').
  { intros [|a l'] Hl'; [done|]. apply lstrip_head.
    apply Forall_cons in Hl' as [Ha _]. by apply digit_char in Ha as [? _]. }
  rewrite (Hstrip l Hl), Hstrip by by apply Forall_rev.
  apply rev_involutive.
Qed.

Lemma int_digits_decimal l :
  Forall (λ a, is_Some (digit_value a)) l →
  ∀ acc b, l ≠ [] ∨ b = true →
  int_digits acc b l
  = Some (foldl (λ acc a, 10 * acc + default 0 (digit_value a)) acc l).
Proof.
  induction 1 as [|a l [d Hd] Hl IH]; intros acc b Hne.
  - destruct Hne as [ ? | -> ]; done.
  - simpl. rewrite Hd. simpl. apply IH. by right.
Qed.

Lemma count_digits_le l : (count_digits l ≤ length l)%nat.
Proof. unfold count_digits. apply length_filter. Qed.

Lemma py_int_unsigned `{PyLibs} s a l :
  is_ascii s = true → py_strip (list_ascii_of_string s) = a :: l →
  a ≠ "-"%char → a ≠ "+"%char → py_int s = int_literal (a :: l).
Proof.
  intros Hascii Hstrip Hm Hp. unfold py_int. rewrite Hascii, Hstrip.
  destruct a as [[] [] [] [] [] [] [] []]; try reflexivity; done.
Qed.

Lemma is_decimal_spec s :
  is_decimal s = true →
  list_ascii_of_string s ≠ [] ∧ (length (list_ascii_of_string s) ≤ 640)%nat ∧
  Forall (λ a, is_Some (digit_value a)) (list_ascii_of_string s).
Proof.
  unfold is_decimal. cbv zeta. rewrite !andb_true_iff.
  intros [[Hpos Hlen] Hall]. apply Nat.ltb_lt in Hpos. apply Nat.leb_le in Hlen.
  split; [intros E; rewrite E in Hpos; simpl in Hpos; lia|]. split; [done|].
  apply Forall_forall. intros a Ha. rewrite forallb_forall in Hall.
  apply list_elem_of_In, Hall in Ha. by apply bool_decide_eq_true in Ha.
Qed.

Lemma py_int_decimal `{PyLibs} s : is_decimal s = true → py_int s = Some (decimal s).
Proof.
  intros (Hne & Hlen & Hall)%is_decimal_spec. unfold decimal.
  assert (Hascii : is_ascii s = true).
  { unfold is_ascii. apply forallb_forall. intros a Ha%list_elem_of_In.
    rewrite Forall_forall in Hall. by apply digit_char, Hall. }
  pose proof (py_strip_digits _ Hall) as Hstrip.
  destruct (list_ascii_of_string s) as [|a l] eqn:Hl; [done|].
  assert (Ha : is_Some (digit_value a)) by by apply Forall_cons in Hall as [? _].
  apply digit_char in Ha as (_ & Hm & Hp & _).
  rewrite (py_int_unsigned s a l) by (done || by rewrite Hl).
  unfold int_literal. rewrite (int_digits_decimal _ Hall) by by left.
  unfold over_limit.
  replace (640 <? count_digits (a :: l))%nat with false; [done|].
  symmetry. apply Nat.ltb_ge. etrans; [apply count_digits_le|done].
Qed.

Lemma py_split_no_sep sep s :
  sep ∉ list_ascii_of_string s → py_split sep s = [s].
Proof.
  induction s as [|a s IH]; [done|]. simpl. intros Hs.
  apply not_elem_of_cons in Hs as [Ha Hs].
  destruct (Ascii.eqb_spec a sep) as [->|_]; [done|]. by rewrite IH.
Qed.

Lemma py_split_two sep s1 s2 :
  sep ∉ list_ascii_of_string s1 → sep ∉ list_ascii_of_string s2 →
  py_split sep (s1 +:+ String sep s2) = [s1; s2].
Proof.
  intros H1 H2. induction s1 as [|a s1 IH]; simpl.
  - rewrite Ascii.eqb_refl. by rewrite py_split_no_sep.
  - simpl in H1. apply not_elem_of_cons in H1 as [Ha H1].
    destruct (Ascii.eqb_spec a sep) as [->|_]; [done|]. by rewrite IH.
Qed.

Lemma decimal_no_colon s : is_decimal s = true → ":"%char ∉ list_ascii_of_string s.
Proof.
  intros (_ & _ & Hall)%is_decimal_spec Hin. rewrite Forall_forall in Hall.
  apply Hall, digit_char in Hin as (_ & _ & _ & Hc & _). done.
Qed.

Lemma parse_hour_decimal `{PyLibs} hs ms fh fm :
  is_decimal hs = true → is_decimal ms = true →
  float_of_int (decimal hs) = Some fh → float_of_int (decimal ms) = Some fm →
  _parse_hour_to_float (VStr (hs +:+ ":" +:+ ms))
  = PrimFloat.add fh (PrimFloat.div fm 60%float).
Proof.
  intros Hh Hm Hfh Hfm.
  apply (parse_hour_valid _ hs ms (decimal hs) (decimal ms)); try done.
  - apply (py_split_two ":"%char); by apply decimal_no_colon.
  - by apply py_int_decimal.
  - by apply py_int_decimal.
Qed.

Lemma lstrip_keeps a l : a ∈ l → py_isspace a = false → a ∈ lstrip l.
Proof.
  induction l as [|b l IH]; [done|]. intros Ha Hs. simpl.
  destruct (py_isspace b) eqn:Hb; [|done].
  apply elem_of_cons in Ha as [->|Ha]; [congruence|]. by apply IH.
Qed.

Lemma py_strip_keeps a l : a ∈ l → py_isspace a = false → a ∈ py_strip l.
Proof.
  intros Ha Hs. unfold py_strip.
  apply list_elem_of_In, in_rev, list_elem_of_In. rewrite rev_involutive.
  apply lstrip_keeps; [|done].
  apply list_elem_of_In. rewrite <- in_rev. apply list_elem_of_In.
  by apply lstrip_keeps.
Qed.

Lemma int_digits_rejects a l :
  a ∈ l → digit_value a = None → a ≠ "_"%char → ∀ acc b, int_digits acc b l = None.
Proof.
  intros Ha Hd Hu. induction l as [|c l IH]; [by apply elem_of_nil in Ha|].
  intros acc b. simpl. apply elem_of_cons in Ha as [<-|Ha].
  - rewrite Hd. by destruct (Ascii.eqb_spec a "_"%char).
  - destruct (digit_value c); [by apply IH|].
    destruct (Ascii.eqb c "_" && b); [by apply IH|done].
Qed.

Lemma int_char_false a :
  int_char a = false →
  digit_value a = None ∧ py_isspace a = false ∧
  a ≠ "_"%char ∧ a ≠ "+"%char ∧ a ≠ "-"%char.
Proof.
  unfold int_char. rewrite !orb_false_iff.
  intros [[[[Hd Hs] Hu] Hp] Hm].
  apply bool_decide_eq_false in Hd.
  split; [destruct (digit_value a); [by destruct Hd|done]|]. split; [done|].
  by repeat split; apply Ascii.eqb_neq.
Qed.

Lemma py_int_rejects `{PyLibs} s a :
  is_ascii s = true → a ∈ list_ascii_of_string s → int_char a = false →
  py_int s = None.
Proof.
  intros Hascii Ha (Hd & Hs & Hu & Hp & Hm)%int_char_false.
  pose proof (py_strip_keeps _ _ Ha Hs) as Hin.
  assert (Hlit : ∀ l, a ∈ l → int_literal l = None).
  { intros l Hl. unfold int_literal. by rewrite (int_digits_rejects a l Hl Hd Hu). }
  destruct (py_strip (list_ascii_of_string s)) as [|c l] eqn:Hstrip;
    [by apply elem_of_nil in Hin|].
  assert (Hrest : c = "-"%char ∨ c = "+"%char → a ∈ l).
  { intros Hc. apply elem_of_cons in Hin as [->|Hin]; [|done]. by destruct Hc. }
  destruct (Ascii.eqb_spec c "-"%char) as [->|Hcm].
  { unfold py_int. rewrite Hascii, Hstrip, Hlit by auto. done. }
  destruct (Ascii.eqb_spec c "+"%char) as [->|Hcp].
  { unfold py_int. by rewrite Hascii, Hstrip, Hlit by auto. }
  rewrite (py_int_unsigned s c l) by done. by apply Hlit.
Qed.

Lemma parse_hour_rejects `{PyLibs} v p a :
  p ∈ py_split ":" (py_str v) → is_ascii p = true →
  a ∈ list_ascii_of_string p → int_char a = false →
  _parse_hour_to_float v = PrimFloat.nan.
Proof.
  intros Hp Hascii Ha Hc. apply (parse_hour_not_int v p Hp).
  by apply (py_int_rejects p a).
Qed.

Lemma parse_hour_too_large `{PyLibs} v p z :
  p ∈ py_split ":" (py_str v) → py_int p = Some z → float_of_int z = None →
  _parse_hour_to_float v = PrimFloat.nan.
Proof.
  intros Hp Hz Hf. unfold _parse_hour_to_float. destruct (pd_isna v); [done|].
  destruct (py_split ":" (py_str v)) as [|p0 [|p1 [|p2 l]]]; try done.
  apply elem_of_cons in Hp as [->|Hp].
  - rewrite Hz. destruct (py_int p1) as [mm|]; [|done].
    rewrite Hf. by destruct (float_of_int mm).
  - apply list_elem_of_singleton in Hp as ->. rewrite Hz.
    destruct (py_int p0); [|done]. by rewrite Hf.
Qed.

Lemma parse_hour_otherwise `{PyLibs} v :
  (¬ ∃ p0 p1 hh mm fh fm,
       pd_isna v = false ∧ py_split ":" (py_str v) = [p0; p1] ∧
       py_int p0 = Some hh ∧ py_int p1 = Some mm ∧
       float_of_int hh = Some fh ∧ float_of_int mm = Some fm) →
  _parse_hour_to_float v = PrimFloat.nan.
Proof.
  intros Hno. unfold _parse_hour_to_float.
  destruct (pd_isna v) eqn:Hv; [done|].
  destruct (py_split ":" (py_str v)) as [|p0 [|p1 [|p2 l]]]; try done.
  destruct (py_int p0) as [hh|] eqn:H0; [|done].
  destruct (py_int p1) as [mm|] eqn:H1; [|done].
  destruct (float_of_int mm) as [fm|] eqn:Hm; [|done].
  destruct (float_of_int hh) as [fh|] eqn:Hh; [|done].
  destruct Hno. by exists p0, p1, hh, mm, fh, fm.
Qed.

Lemma parse_hour_examples `{PyLibs} :
  _parse_hour_to_float (VStr " 8: 30 ") = 8.5%float ∧
  _parse_hour_to_float (VStr "+8:30") = 8.5%float ∧
  _parse_hour_to_float (VStr "24:60") = 25%float ∧
  _parse_hour_to_float (VStr "-1:30") = (-0.5)%float ∧
  _parse_hour_to_float (VStr "1_0:30") = 10.5%float ∧
  _parse_hour_to_float (VStr (String "028"%char "7:00")) = PrimFloat.nan ∧
  _parse_hour_to_float (VStr "8:30:00") = PrimFloat.nan ∧
  _parse_hour_to_float (VStr "8h30") = PrimFloat.nan ∧
  _parse_hour_to_float (VStr "8.5:00") = PrimFloat.nan ∧
  _parse_hour_to_float (VStr "- 8:30") = PrimFloat.nan ∧
  _parse_hour_to_float (VStr "") = PrimFloat.nan ∧
  _parse_hour_to_float (VInt 830) = PrimFloat.nan ∧
  _parse_hour_to_float (VBool true) = PrimFloat.nan.
Proof. repeat split; vm_compute; reflexivity. Qed.

Lemma hour_cell_nan `{PyLibs} v :
  PrimFloat.is_nan (_parse_hour_to_float v) = true → hour_cell v = VFloat 0%float.
Proof. intros Hn. unfold hour_cell. cbv zeta. by rewrite Hn. Qed.

Lemma hour_cell_number `{PyLibs} v :
  PrimFloat.is_nan (_parse_hour_to_float v) = false →
  hour_cell v = VFloat (_parse_hour_to_float v).
Proof. intros Hn. unfold hour_cell. cbv zeta. by rewrite Hn. Qed.

(** ** The process *)

Lemma lift_ok {A} (m : M A) w a h' :
  m (heap w) = (Ok a, h') →
  lift m w = (Ok a, mkWorld h' (calls w) (stdout w) (stderr w)).
Proof. unfold lift. by intros ->. Qed.

Lemma try_except_ok {A} (body : P A) handler w a w' :
  body w = (Ok a, w') → try_except body handler w = (Ok a, w').
Proof. unfold try_except. by intros ->. Qed.

Lemma try_except_exit {A} (body : P A) handler w c w' :
  body w = (Exit c, w') → try_except body handler w = (Exit c, w').
Proof. unfold try_except. by intros ->. Qed.

Lemma try_except_raise {A} (body : P A) handler w e w' :
  body w = (Raise e, w') → try_except body handler w = handler e w'.
Proof. unfold try_except. by intros ->. Qed.

Lemma load_models_ok models w : load_models (inr models) w = (Ok models, w).
Proof. done. Qed.

Lemma py_in_obj {S} key fields (w : S) :
  py_in key (JObj fields) w = (Ok (bool_decide (key ∈ fields.*1)), w).
Proof. done. Qed.

(** The part of [main] that follows the reading of the input, up to the
    two checks of the keys. *)
Lemma main_empty_stdin `{PyLibs} `{Runtime} models :
  run (inr models) "" =
  (Exit 1, mkWorld (heap start) [] [] ["Erreur: aucune donnée reçue sur stdin"]).
Proof. reflexivity. Qed.

Lemma main_invalid_json `{PyLibs} `{Runtime} models stdin e :
  stdin ≠ "" → json_loads stdin = inl e →
  run (inr models) stdin =
  (Exit 1, mkWorld (heap start) [] [] ["Erreur: JSON invalide - " +:+ e]).
Proof.
  intros Hne Hjson. apply String.eqb_neq in Hne.
  unfold run, main. apply try_except_exit.
  rewrite (bind_ok _ _ _ _ _ (load_models_ok models start)). cbv zeta.
  rewrite Hne.
  rewrite (bind_ok _ _ start () start) by reflexivity.
  rewrite Hjson. reflexivity.
Qed.

Lemma main_no_preferences `{PyLibs} `{Runtime} models stdin fields :
  stdin ≠ "" → json_loads stdin = inr (JObj fields) →
  "userPreferences" ∉ fields.*1 →
  run (inr models) stdin =
  (Exit 1, mkWorld (heap start) [] []
             ["Erreur: 'userPreferences' manquant dans les données"]).
Proof.
  intros Hne Hjson Hkey. apply String.eqb_neq in Hne.
  unfold run, main. apply try_except_exit.
  rewrite (bind_ok _ _ _ _ _ (load_models_ok models start)). cbv zeta.
  rewrite Hne.
  rewrite (bind_ok _ _ start () start) by reflexivity.
  rewrite Hjson.
  rewrite (bind_ok _ _ start (JObj fields) start) by reflexivity.
  rewrite (bind_ok _ _ _ _ _ (py_in_obj "userPreferences" fields start)).
  rewrite bool_decide_eq_false_2 by done. reflexivity.
Qed.

Lemma main_no_sorties `{PyLibs} `{Runtime} models stdin fields :
  stdin ≠ "" → json_loads stdin = inr (JObj fields) →
  "userPreferences" ∈ fields.*1 → "sorties" ∉ fields.*1 →
  run (inr models) stdin =
  (Exit 1, mkWorld (heap start) [] [] ["Erreur: 'sorties' manquant dans les données"]).
Proof.
  intros Hne Hjson Hkey Hkey'. apply String.eqb_neq in Hne.
  unfold run, main. apply try_except_exit.
  rewrite (bind_ok _ _ _ _ _ (load_models_ok models start)). cbv zeta.
  rewrite Hne.
  rewrite (bind_ok _ _ start () start) by reflexivity.
  rewrite Hjson.
  rewrite (bind_ok _ _ start (JObj fields) start) by reflexivity.
  rewrite (bind_ok _ _ _ _ _ (py_in_obj "userPreferences" fields start)).
  rewrite bool_decide_eq_true_2 by done.
  rewrite (bind_ok _ _ start () start) by reflexivity.
  rewrite (bind_ok _ _ _ _ _ (py_in_obj "sorties" fields start)).
  rewrite bool_decide_eq_false_2 by done. reflexivity.
Qed.

Lemma main_load_failure `{PyLibs} `{Runtime} stdin e :
  run (inl e) stdin =
  (Exit 1, mkWorld (heap start) [] [] ["Erreur lors du chargement des modèles: " +:+ e]).
Proof. reflexivity. Qed.

Lemma invalid_json_message_distinct e :
  "Erreur: JSON invalide - " +:+ e ≠ "Erreur: aucune donnée reçue sur stdin" ∧
  "Erreur: JSON invalide - " +:+ e ≠ "Erreur: 'userPreferences' manquant dans les données" ∧
  "Erreur: JSON invalide - " +:+ e ≠ "Erreur: 'sorties' manquant dans les données".
Proof. repeat split; intros Heq; cbv in Heq; discriminate Heq. Qed.



Lemma get_field_key key fields v : get_field key fields = Some v → key ∈ fields.*1.
Proof.
  unfold get_field. intros Hf.
  destruct (list_find (λ f, f.1 = key) fields) as [[i f]|] eqn:E; [|done].
  apply list_find_Some in E as (Hi & <- & _).
  apply list_elem_of_fmap. exists f. split; [done|]. by apply list_elem_of_lookup_2 in Hi.
Qed.

Lemma py_getitem_obj {S} key fields v (w : S) :
  get_field key fields = Some v → py_getitem (JObj fields) key w = (Ok v, w).
Proof.
  unfold get_field, py_getitem. intros Hf.
  destruct (list_find (λ f, f.1 = key) fields) as [[i f]|]; [|done].
  simpl in Hf. by injection Hf as ->.
Qed.

Lemma user_only_ret {A} (a : A) : user_only (mret a).
Proof.
  intros w r w' Hrun. injection Hrun as <- <-. split; [done|].
  exists []. by rewrite app_nil_r.
Qed.

Lemma user_only_raise {A} e : user_only (raise (A := A) e).
Proof.
  intros w r w' Hrun. injection Hrun as <- <-. split; [done|].
  exists []. by rewrite app_nil_r.
Qed.

Lemma user_only_bind {A B} (m : P A) (k : A -> P B) :
  user_only m → (∀ a, user_only (k a)) → user_only (m ≫= k).
Proof.
  intros Hm Hk w r w' Hrun. unfold mbind, St_bind in Hrun.
  destruct (m w) as [[a|e|c] w1] eqn:E.
  - destruct (Hm _ _ _ E) as (Ho & l1 & Hc & Hl1).
    destruct (Hk a _ _ _ Hrun) as (Ho' & l2 & Hc' & Hl2).
    split; [congruence|]. exists (l1 ++ l2)%list.
    rewrite Hc', Hc, app_assoc. split; [done|]. by apply Forall_app.
  - injection Hrun as <- <-. by apply (Hm _ _ _ E).
  - injection Hrun as <- <-. by apply (Hm _ _ _ E).
Qed.

Lemma user_only_lift {A} (m : M A) : user_only (lift m).
Proof.
  intros w r w' Hrun. unfold lift in Hrun. destruct (m (heap w)) as [a h].
  injection Hrun as <- <-. simpl. split; [done|]. exists []. by rewrite app_nil_r.
Qed.

Lemma user_only_of_sum {A} (x : string + A) : user_only (of_sum x).
Proof. destruct x; [apply user_only_raise|apply user_only_ret]. Qed.

Lemma user_only_enter stage : user_only (enter User stage).
Proof.
  intros w r w' Hrun. injection Hrun as <- <-. simpl. split; [done|].
  exists [(User, stage)]. split; [done|]. by repeat constructor.
Qed.

Lemma user_only_print_err line : user_only (print_err line).
Proof.
  intros w r w' Hrun. injection Hrun as <- <-. simpl. split; [done|].
  exists []. by rewrite app_nil_r.
Qed.

Lemma user_only_try_except {A} (body : P A) handler :
  user_only body → (∀ e, user_only (handler e)) → user_only (try_except body handler).
Proof.
  intros Hb Hh w r w' Hrun. unfold try_except in Hrun.
  destruct (body w) as [[a|e|c] w1] eqn:E.
  - injection Hrun as <- <-. by apply (Hb _ _ _ E).
  - destruct (Hb _ _ _ E) as (Ho & l1 & Hc & Hl1).
    destruct (Hh e _ _ _ Hrun) as (Ho' & l2 & Hc' & Hl2).
    split; [congruence|]. exists (l1 ++ l2)%list.
    rewrite Hc', Hc, app_assoc. split; [done|]. by apply Forall_app.
  - injection Hrun as <- <-. by apply (Hb _ _ _ E).
Qed.

Lemma user_only_predict_user_cluster `{PyLibs} `{Runtime} user_prefs models :
  user_only (predict_user_cluster user_prefs models).
Proof.
  unfold predict_user_cluster, new_frame. apply user_only_try_except.
  - repeat first
      [ apply user_only_lift | apply user_only_of_sum | apply user_only_enter
      | apply user_only_bind; [|intros ?] ].
    match goal with |- user_only (match ?c with _ => _ end) => destruct c end;
      [apply user_only_raise|apply user_only_ret].
  - intros e. apply user_only_bind; [apply user_only_print_err|intros _].
    apply user_only_raise.
Qed.

Lemma predict_sorties_clusters_empty `{PyLibs} `{Runtime} sorties models w :
  py_bool sorties = false → predict_sorties_clusters sorties models w = (Ok [], w).
Proof. intros Hb. unfold predict_sorties_clusters, try_except. by rewrite Hb. Qed.

(** A run whose two predictions return. *)
Lemma main_success `{PyLibs} `{Runtime} models stdin fields user_prefs sorties
    user_cluster w1 pairs w2 :
  stdin ≠ "" → json_loads stdin = inr (JObj fields) →
  get_field "userPreferences" fields = Some user_prefs →
  get_field "sorties" fields = Some sorties →
  predict_user_cluster user_prefs models start = (Ok user_cluster, w1) →
  predict_sorties_clusters sorties models w1 = (Ok pairs, w2) →
  run (inr models) stdin =
  (Exit 0, mkWorld (heap w2) (calls w2)
             (stdout w2 ++ [json_dumps (mkMatchResult user_cluster pairs
                                          (matched_sortie_ids user_cluster pairs))])
             (stderr w2)).
Proof.
  intros Hne Hjson Hup Hso Huser Hsorties. apply String.eqb_neq in Hne.
  unfold run, main. apply try_except_exit.
  rewrite (bind_ok _ _ _ _ _ (load_models_ok models start)). cbv zeta.
  rewrite Hne.
  rewrite (bind_ok _ _ start () start) by reflexivity.
  rewrite Hjson.
  rewrite (bind_ok _ _ start (JObj fields) start) by reflexivity.
  rewrite (bind_ok _ _ _ _ _ (py_in_obj "userPreferences" fields start)).
  rewrite bool_decide_eq_true_2 by (by eapply get_field_key).
  rewrite (bind_ok _ _ start () start) by reflexivity.
  rewrite (bind_ok _ _ _ _ _ (py_in_obj "sorties" fields start)).
  rewrite bool_decide_eq_true_2 by (by eapply get_field_key).
  rewrite (bind_ok _ _ start () start) by reflexivity.
  rewrite (bind_ok _ _ _ _ _ (py_getitem_obj _ _ _ start Hup)).
  rewrite (bind_ok _ _ _ _ _ Huser).
  rewrite (bind_ok _ _ _ _ _ (py_getitem_obj _ _ _ w1 Hso)).
  rewrite (bind_ok _ _ _ _ _ Hsorties).
  reflexivity.
Qed.



Lemma pairs_loop {S} (clusters : list Z) (ids : list Cell) off acc (w : S) :
  (off + length ids ≤ length clusters)%nat →
  for_each (zip (seq off (length ids)) ids)
    (λ (row : nat * Cell) result,
       let (i, sortie_id) := row in
       match clusters !! i with
       | Some cluster => mret (result ++ [(sortie_id, cluster)])%list
       | None => raise "IndexError: index is out of bounds"
       end) acc w
  = (Ok (acc ++ zip ids (drop off clusters))%list, w).
Proof.
  revert off acc. induction ids as [|x ids IH]; intros off acc Hlen; simpl.
  - by rewrite app_nil_r.
  - simpl in Hlen. destruct (lookup_lt_is_Some_2 clusters off) as [c Hc]; [lia|].
    unfold mbind, St_bind. rewrite Hc. simpl.
    rewrite IH by lia. rewrite (drop_S _ _ _ Hc). simpl. by rewrite <- app_assoc.
Qed.

Lemma outing_ids_read t w df :
  frame_at (heap w) df = t →
  (if bool_decide ("id" ∈ names t)
   then s ← lift (df_getitem df "id"); mret (cells s)
   else t ← lift (deref df); mret (py_range (nrows t))) w
  = (Ok (outing_ids t), w).
Proof.
  intros Ht. unfold outing_ids. destruct w as [h c o e]. simpl in Ht.
  case_bool_decide as Hid.
  - destruct (lookup_col_Some "id" t Hid) as [s Hs]. rewrite Hs.
    unfold lift, df_getitem, deref, mbind, St_bind. simpl. by rewrite Ht, Hs.
  - rewrite (lookup_col_None "id" t Hid).
    unfold lift, deref, mbind, St_bind. simpl. by rewrite Ht.
Qed.

Lemma enter_run side stage w :
  enter side stage w
  = (Ok (), mkWorld (heap w) (calls w ++ [(side, stage)]) (stdout w) (stderr w)).
Proof. done. Qed.

Lemma of_sum_inr {S A} (a : A) (w : S) : of_sum (inr a) w = (Ok a, w).
Proof. done. Qed.

(** The outings' side when every stage returns: the identifiers read before
    the encoding are paired with the clusters, in order. *)
Lemma predict_sorties_clusters_run `{PyLibs} `{Runtime} sorties models w t ft m clusters :
  py_bool sorties = true → pd_DataFrame sorties = inr t →
  aligned (sorties_features models) (prepare_sorties_table t) = Some ft →
  transform (sorties_scaler models) ft = inr m →
  predict (sorties_kmeans models) m = inr clusters →
  (length (outing_ids t) ≤ length clusters)%nat →
  ∃ h', predict_sorties_clusters sorties models w
        = (Ok (zip (outing_ids t) clusters),
           mkWorld h' (calls w ++ OUTING_STAGES) (stdout w) (stderr w)).
Proof.
  intros Hb Hdf Hal Htr Hpr Hlen. rewrite aligned_spec in Hal.
  apply (inj Some) in Hal. subst ft.
  destruct w as [h0 c0 o0 e0].
  set (df := next_ref h0).
  set (h1 := mkHeap (S df) (upd (frame_at h0) df t)).
  assert (Ht : frame_at h1 df = t) by apply upd_eq.
  destruct (prepare_sorties_run h1 df) as (r2 & h2 & E2 & _ & F2 & _).
  rewrite Ht in F2.
  destruct (ensure_features_run (sorties_features models) h2 r2) as (h3 & E3 & _ & F3 & _).
  rewrite F2 in F3.
  exists h3. unfold predict_sorties_clusters. apply try_except_ok.
  rewrite Hb. cbn [negb].
  assert (E0 : new_frame sorties (mkWorld h0 c0 o0 e0) = (Ok df, mkWorld h1 c0 o0 e0)).
  { unfold new_frame. rewrite Hdf. reflexivity. }
  rewrite (bind_ok _ _ _ _ _ E0).
  assert (E1 : lift (df_columns df) (mkWorld h1 c0 o0 e0) = (Ok (names t), mkWorld h1 c0 o0 e0)).
  { unfold lift, df_columns, deref, mbind, St_bind. simpl. by rewrite upd_eq. }
  rewrite (bind_ok _ _ _ _ _ E1).
  rewrite (bind_ok _ _ _ _ _ (outing_ids_read t (mkWorld h1 c0 o0 e0) df Ht)).
  rewrite (bind_ok _ _ _ _ _ (enter_run _ _ _)). cbn [heap calls stdout stderr].
  rewrite (bind_ok _ _ _ _ _ (lift_ok _ (mkWorld h1 _ o0 e0) _ _ E2)).
  rewrite (bind_ok _ _ _ _ _ (enter_run _ _ _)). cbn [heap calls stdout stderr].
  rewrite (bind_ok _ _ _ _ _ (lift_ok _ (mkWorld h2 _ o0 e0) _ _ E3)).
  rewrite (bind_ok _ _ _ _ _ (enter_run _ _ _)).
  cbn [heap calls stdout stderr].
  assert (E4 : ∀ c, lift (deref (next_ref h2)) (mkWorld h3 c o0 e0)
                    = (Ok (frame_at h3 (next_ref h2)), mkWorld h3 c o0 e0)) by done.
  rewrite (bind_ok _ _ _ _ _ (E4 _)). rewrite F3, Htr.
  rewrite (bind_ok _ _ _ _ _ (of_sum_inr _ _)).
  rewrite (bind_ok _ _ _ _ _ (enter_run _ _ _)).
  rewrite Hpr. rewrite (bind_ok _ _ _ _ _ (of_sum_inr _ _)).
  unfold items. rewrite pairs_loop by (simpl; lia).
  cbn [heap calls stdout stderr]. rewrite drop_0. simpl.
  unfold OUTING_STAGES. by rewrite <- !app_assoc.
Qed.



(* ====================================================================== *)
(** * The claims                                                           *)
(* ====================================================================== *)

(** ** Alignment *)

(** C2 (amended): when no required name is borne by two columns of the
    table, [ensure_features] returns a table whose labels are the required
    names in the given order, with the rows of the input; a required name
    the input lacks is a column of zeros, a required name the input has
    keeps its column, and no other column of the input is left. *)
Theorem ensure_features_columns (h : Heap) (df : ref) (F : list string)
    (Hone : ∀ n, n ∈ F → (length (cols_named n (frame_at h df)) ≤ 1)%nat) :
  ∃ r' h', ensure_features df F h = (Ok r', h') ∧
    names (frame_at h' r') = F ∧
    nrows (frame_at h' r') = nrows (frame_at h df) ∧
    (∀ n, n ∈ F → n ∉ names (frame_at h df) →
       lookup_col n (frame_at h' r') = Some (full DInt (VInt 0) (frame_at h df))) ∧
    (∀ n, n ∈ F → n ∈ names (frame_at h df) →
       lookup_col n (frame_at h' r') = lookup_col n (frame_at h df)) ∧
    (∀ n, n ∉ F → cols_named n (frame_at h' r') = []).
Proof.
  destruct (ensure_features_run F h df) as (h' & E & N & Fr & _).
  exists (next_ref h), h'. split; [done|]. rewrite Fr.
  split; [|split; [done|split; [|split]]].
  - unfold names. simpl. apply names_blocks. intros n Hn.
    apply cols_named_single_add_missing; auto.
  - intros n HF Hn. rewrite lookup_col_blocks by done.
    unfold lookup_col. by rewrite cols_named_add_missing_new.
  - intros n HF Hn. rewrite lookup_col_blocks by done.
    unfold lookup_col. by rewrite cols_named_add_missing_old.
  - intros n Hn. apply cols_named_nil. unfold names. simpl.
    rewrite names_blocks; [done|]. intros m Hm.
    apply cols_named_single_add_missing; auto.
Qed.

(** The user of [sample_preferences] aligned on a level and an age. *)
Lemma ensure_features_columns_sample :
  ∃ r' h', ensure_features 0%nat ["age"; "level"] (store_of sample_preferences) = (Ok r', h') ∧
           names (frame_at h' r') = ["age"; "level"].
Proof.
  destruct (ensure_features_columns (store_of sample_preferences) 0%nat ["age"; "level"])
    as (r' & h' & E & Hnames & _).
  - intros n Hn. repeat (apply elem_of_cons in Hn as [->|Hn]); [vm_compute; lia..|].
    by apply elem_of_nil in Hn.
  - by exists r', h'.
Defined.

(** The outing of [sample_outing] is encoded into two columns labelled
    [type_HIKE], the field of that name and the bucket of its type; aligned
    on that one name, the table has both. *)
Lemma ensure_features_duplicate_label :
  ∃ r1 h1 r2 h2,
    @prepare_sorties_dataframe sample_libs 0%nat (store_of sample_outing) = (Ok r1, h1) ∧
    ensure_features r1 ["type_HIKE"] h1 = (Ok r2, h2) ∧
    names (frame_at h2 r2) = ["type_HIKE"; "type_HIKE"].
Proof.
  destruct (@prepare_sorties_run sample_libs (store_of sample_outing) 0%nat)
    as (r1 & h1 & E1 & _ & F1 & _).
  destruct (ensure_features_run ["type_HIKE"] h1 r1) as (h2 & E2 & _ & F2 & _).
  exists r1, h1, (next_ref h1), h2. split; [done|]. split; [done|].
  rewrite F2, F1. vm_compute. reflexivity.
Qed.

(** C3 (amended): [ensure_features] returns on every table and every list
    of names, and when no name is listed twice, aligning its result on the
    same list gives that table again. *)
Theorem ensure_features_idempotent (h : Heap) (df : ref) (F : list string) :
  ∃ r1 h1, ensure_features df F h = (Ok r1, h1) ∧
    (NoDup F →
     ∃ r2 h2, ensure_features r1 F h1 = (Ok r2, h2) ∧ frame_at h2 r2 = frame_at h1 r1).
Proof.
  destruct (ensure_features_run F h df) as (h1 & E1 & N1 & Fr1 & _).
  exists (next_ref h), h1. split; [done|]. intros Hnd.
  destruct (ensure_features_run F h1 (next_ref h)) as (h2 & E2 & N2 & Fr2 & _).
  exists (next_ref h1), h2. split; [done|].
  rewrite Fr2, Fr1. simpl.
  set (t' := add_missing F (frame_at h df)).
  set (t1 := mkTable (nrows (frame_at h df)) (blocks F t')).
  assert (Hid : add_missing F t1 = t1).
  { apply add_missing_id. intros n Hn. unfold names, t1. simpl.
    apply blocks_has; [done|]. by apply add_missing_has. }
  rewrite Hid. f_equal. apply blocks_ext. intros n Hn.
  by apply cols_named_blocks_NoDup.
Qed.

(** The two outings aligned twice on a distance and a duration. *)
Lemma ensure_features_idempotent_sample :
  ∃ r1 h1 r2 h2,
    ensure_features 0%nat ["distance"; "duree_estimee"] (store_of sample_outings) = (Ok r1, h1) ∧
    ensure_features r1 ["distance"; "duree_estimee"] h1 = (Ok r2, h2) ∧
    frame_at h2 r2 = frame_at h1 r1.
Proof.
  destruct (ensure_features_idempotent (store_of sample_outings) 0%nat
              ["distance"; "duree_estimee"]) as (r1 & h1 & E1 & Hagain).
  destruct Hagain as (r2 & h2 & E2 & Hsame).
  - apply (bool_decide_unpack _). vm_compute. exact I.
  - by exists r1, h1, r2, h2.
Defined.

(** With a name listed twice, the second alignment doubles the columns of
    the first. *)
Lemma ensure_features_repeated_name :
  ∃ r1 h1 r2 h2,
    ensure_features 0%nat ["distance"; "distance"] (store_of sample_outings) = (Ok r1, h1) ∧
    ensure_features r1 ["distance"; "distance"] h1 = (Ok r2, h2) ∧
    names (frame_at h1 r1) = ["distance"; "distance"] ∧
    names (frame_at h2 r2) = ["distance"; "distance"; "distance"; "distance"].
Proof.
  destruct (ensure_features_run ["distance"; "distance"] (store_of sample_outings) 0%nat)
    as (h1 & E1 & _ & F1 & _).
  destruct (ensure_features_run ["distance"; "distance"] h1
              (next_ref (store_of sample_outings))) as (h2 & E2 & _ & F2 & _).
  exists (next_ref (store_of sample_outings)), h1, (next_ref h1), h2. split; [done|]. split; [done|].
  rewrite F2, F1. split; vm_compute; reflexivity.
Qed.

(** C10: [ensure_features] adds the missing columns to the frame it is
    given, which the caller still holds: that frame gains a column of zeros
    for every required name it lacked and keeps the columns it had, and the
    table returned is another object. The two encoders work on a copy: the
    frame they are given is as it was when they return. *)
Theorem ensure_features_in_place `{PyLibs} (h : Heap) (df : ref) (F : list string)
    (Hdf : (df < next_ref h)%nat) :
  (∃ r' h', ensure_features df F h = (Ok r', h') ∧ r' ≠ df ∧
     nrows (frame_at h' df) = nrows (frame_at h df) ∧
     (∀ n, n ∈ F → n ∉ names (frame_at h df) →
        cols_named n (frame_at h' df) = [full DInt (VInt 0) (frame_at h df)]) ∧
     (∀ n, n ∈ names (frame_at h df) →
        cols_named n (frame_at h' df) = cols_named n (frame_at h df)) ∧
     (∀ n, n ∈ names (frame_at h' df) → n ∈ names (frame_at h df) ∨ n ∈ F)) ∧
  (∃ r' h', prepare_preferences_dataframe df h = (Ok r', h') ∧ r' ≠ df ∧
     frame_at h' df = frame_at h df) ∧
  (∃ r' h', prepare_sorties_dataframe df h = (Ok r', h') ∧ r' ≠ df ∧
     frame_at h' df = frame_at h df).
Proof.
  split; [|split].
  - destruct (ensure_features_run F h df) as (h' & E & _ & _ & Hin & _).
    exists (next_ref h), h'. split; [done|]. split; [lia|].
    rewrite Hin by lia.
    destruct (add_missing_spec F (frame_at h df)) as (Hrows & extra & Hcols & _ & Hall).
    split; [done|]. split; [|split].
    + intros n HF Hn. by apply cols_named_add_missing_new.
    + intros n Hn. by apply cols_named_add_missing_old.
    + intros n Hn. unfold names in Hn. rewrite Hcols, fmap_app in Hn.
      apply elem_of_app in Hn as [Hn|Hn]; [by left|right].
      apply list_elem_of_fmap in Hn as (c & -> & Hc).
      rewrite Forall_forall in Hall. by destruct (Hall c Hc) as (_ & HF & _).
  - destruct (prepare_preferences_run h df) as (r' & h' & E & Hr & _ & Hold).
    exists r', h'. split; [done|]. split; [lia|]. by apply Hold.
  - destruct (prepare_sorties_run h df) as (r' & h' & E & Hr & _ & Hold).
    exists r', h'. split; [done|]. split; [lia|]. by apply Hold.
Qed.

(** The user of [sample_preferences] aligned on a level and an age: the
    caller's frame has the new column. *)
Lemma ensure_features_in_place_sample :
  ∃ r' h', ensure_features 0%nat ["age"; "level"] (store_of sample_preferences) = (Ok r', h') ∧
           r' ≠ 0%nat ∧
           cols_named "age" (frame_at h' 0%nat) = [mkSeries DInt [VInt 0]].
Proof.
  destruct (@ensure_features_in_place sample_libs (store_of sample_preferences) 0%nat
              ["age"; "level"]) as [(r' & h' & E & Hr & _ & Hnew & _) _].
  - vm_compute. lia.
  - exists r', h'. split; [done|]. split; [done|].
    apply (Hnew "age").
    + apply list_elem_of_here.
    + apply (bool_decide_unpack _). vm_compute. exact I.
Defined.

Lemma bucket_free_check col t :
  forallb (λ n, negb (bucket_of col n)) (names t) = true →
  ∀ n, n ∈ names t → bucket_of col n = false.
Proof.
  intros Hall n Hn. rewrite forallb_forall in Hall.
  apply negb_true_iff, Hall. by apply list_elem_of_In.
Qed.

(** ** The encoders *)

(** C5 (amended): for a categorical field of the input that no other label
    of the input takes for a bucket, the encoded table has one bucket column
    per word found in the field, a missing value counting as the fallback
    word ([UNKNOWN], or [INCONNUE] for the difficulty): the fallback column
    is there exactly when a value is missing or is the fallback word itself.
    In every row, exactly one bucket column of the field is set, the one of
    the row's word. The preference encoder keeps the rows of completed
    onboardings only. *)
Theorem one_hot_buckets `{PyLibs} (h : Heap) (df : ref) (col : string) (s : Series)
    (Hlabels : NoDup (names (frame_at h df)))
    (Hfield : lookup_col col (frame_at h df) = Some s)
    (Hfree : ∀ n, n ∈ names (frame_at h df) → bucket_of col n = false) :
  (col ∈ PREF_ONE_HOT_COLS →
     ∃ r' h', prepare_preferences_dataframe df h = (Ok r', h') ∧
              one_hot_encoded "UNKNOWN" col (kept (frame_at h df) s) (frame_at h' r')) ∧
  (col = "difficulte" →
     ∃ r' h', prepare_sorties_dataframe df h = (Ok r', h') ∧
              one_hot_encoded "INCONNUE" col s (frame_at h' r')) ∧
  (col = "type" →
     ∃ r' h', prepare_sorties_dataframe df h = (Ok r', h') ∧
              one_hot_encoded "UNKNOWN" col s (frame_at h' r')).
Proof.
  split; [|split].
  - intros Hcol. destruct (prepare_preferences_run h df) as (r' & h' & E & _ & F & _).
    exists r', h'. split; [done|]. rewrite F.
    apply one_hot_encoded_dummies. by apply preferences_buckets.
  - intros ->. destruct (prepare_sorties_run h df) as (r' & h' & E & _ & F & _).
    exists r', h'. split; [done|]. rewrite F.
    apply one_hot_encoded_dummies. by apply sorties_buckets_difficulte.
  - intros ->. destruct (prepare_sorties_run h df) as (r' & h' & E & _ & F & _).
    exists r', h'. split; [done|]. rewrite F.
    apply one_hot_encoded_dummies. by apply sorties_buckets_type.
Qed.

(** The difficulty of the two outings of [sample_outings], the first of
    which has none. *)
Lemma one_hot_buckets_sample :
  ∃ r' h', @prepare_sorties_dataframe sample_libs 0%nat (store_of sample_outings) = (Ok r', h') ∧
           @one_hot_encoded sample_libs "INCONNUE" "difficulte"
             (mkSeries DObject [VNone; VStr "FACILE"]) (frame_at h' r').
Proof.
  refine (proj1 (proj2 (@one_hot_buckets sample_libs (store_of sample_outings) 0%nat
                          "difficulte" (mkSeries DObject [VNone; VStr "FACILE"]) _ _ _)) _).
  - apply (bool_decide_unpack _). vm_compute. exact I.
  - vm_compute. reflexivity.
  - apply bucket_free_check. vm_compute. reflexivity.
  - reflexivity.
Defined.

(** The level of the user of [sample_preferences] is known: the encoded
    table has the bucket of that level and no fallback bucket. *)
Lemma no_fallback_bucket :
  ∃ r' h', @prepare_preferences_dataframe sample_libs 0%nat (store_of sample_preferences)
           = (Ok r', h') ∧
           names (frame_at h' r') = ["nickname"; "level_beginner"] ∧
           "level_UNKNOWN" ∉ names (frame_at h' r').
Proof.
  destruct (@prepare_preferences_run sample_libs (store_of sample_preferences) 0%nat)
    as (r' & h' & E & _ & F & _).
  exists r', h'. split; [done|]. rewrite F.
  split; [vm_compute; reflexivity|].
  apply (bool_decide_unpack _). vm_compute. exact I.
Qed.

(** C6 (amended): when the input has the field [availableDays], the
    preference encoder emits for every day name one int column [day_<name>]
    that holds 1 in the rows whose value, split on the bar, has the name
    and 0 in the others (a row without value has no day); for the value
    MONDAY|FRIDAY these are Monday and Friday. When the input lacks the
    field, the encoder emits no day column. *)
Theorem day_columns `{PyLibs} (h : Heap) (df : ref) (j : string)
    (Hj : j ∈ PREF_DAYS) (Hlabels : NoDup (names (frame_at h df))) :
  ∃ r' h', prepare_preferences_dataframe df h = (Ok r', h') ∧
    (∀ s, lookup_col "availableDays" (frame_at h df) = Some s →
          length (cells s) = nrows (frame_at h df) →
          cols_named (day_col j) (frame_at h' r')
          = [mkSeries DInt (map (λ v, day_cell j (_encode_days v))
                              (cells (kept (frame_at h df) s)))]) ∧
    ("availableDays" ∉ names (frame_at h df) → day_col j ∉ names (frame_at h df) →
     day_col j ∉ names (frame_at h' r')) ∧
    _encode_days (VStr "MONDAY|FRIDAY") = ["MONDAY"; "FRIDAY"] ∧
    map (λ j, day_cell j (_encode_days (VStr "MONDAY|FRIDAY"))) PREF_DAYS
    = [VInt 1; VInt 0; VInt 0; VInt 0; VInt 1; VInt 0; VInt 0].
Proof.
  destruct (prepare_preferences_run h df) as (r' & h' & E & _ & F & _).
  exists r', h'. split; [done|]. rewrite F. split; [|split; [|split]].
  - intros s Hs Hlen. by apply preferences_day_column.
  - intros Hav Hday. by apply preferences_no_day_column.
  - vm_compute. reflexivity.
  - vm_compute. reflexivity.
Qed.

(** The Fridays of the two users of [sample_schedules] whose onboarding is
    complete. *)
Lemma day_columns_sample :
  ∃ r' h', @prepare_preferences_dataframe sample_libs 0%nat (store_of sample_schedules)
           = (Ok r', h') ∧
           cols_named "day_FRIDAY" (frame_at h' r') = [mkSeries DInt [VInt 1; VInt 0]].
Proof.
  destruct (@day_columns sample_libs (store_of sample_schedules) 0%nat "FRIDAY")
    as (r' & h' & E & Hday & _).
  - apply (bool_decide_unpack _). vm_compute. exact I.
  - apply (bool_decide_unpack _). vm_compute. exact I.
  - exists r', h'. split; [done|].
    apply (Hday (mkSeries DObject [VStr "MONDAY|FRIDAY"; VNone; VStr "SUNDAY"])).
    + vm_compute. reflexivity.
    + vm_compute. reflexivity.
Defined.

(** The record of the user of [sample_preferences] has no field
    [availableDays]: the encoded table has no day column. *)
Lemma no_day_columns :
  ∃ r' h', @prepare_preferences_dataframe sample_libs 0%nat (store_of sample_preferences)
           = (Ok r', h') ∧
           ∀ j, j ∈ PREF_DAYS → day_col j ∉ names (frame_at h' r').
Proof.
  destruct (@prepare_preferences_run sample_libs (store_of sample_preferences) 0%nat)
    as (r' & h' & E & _ & F & _).
  exists r', h'. split; [done|]. rewrite F.
  assert (Hn : names (@prepare_preferences_table sample_libs
                        (frame_at (store_of sample_preferences) 0%nat))
               = ["nickname"; "level_beginner"]) by (vm_compute; reflexivity).
  rewrite Hn. intros j Hj.
  assert (Hb : forallb (λ j, negb (bool_decide (day_col j ∈ ["nickname"; "level_beginner"])))
                 PREF_DAYS = true) by (vm_compute; reflexivity).
  rewrite forallb_forall in Hb. apply list_elem_of_In in Hj.
  specialize (Hb j Hj). by apply negb_true_iff, bool_decide_eq_false in Hb.
Qed.





(** C7 (amended): parsing a time of day is a total function of the cell, a
    scalar of the decoded document. A missing cell gives NaN. A cell whose
    str splits on the colon into exactly two pieces that [int] reads gives
    the hours plus the minutes over 60: so do any two strs of digits, and
    08:30 gives 8.5. As [int] skips the blanks around a literal and takes
    a sign and underscores between digits, and as no piece is compared
    with the range of a clock, 24:60 gives 25, -1:30 gives -0.5 and 1_0:30
    gives 10.5. Every other cell gives NaN: one with fewer or more than two
    pieces, one with a piece that [int] refuses (any ASCII piece that holds
    a character other than a digit, a blank, a sign or an underscore), one
    with an int too large for a float. The preference encoder returns
    whatever the cells of [start] and [end] are, and its columns
    [start_hour] and [end_hour] hold the parsed hours of the rows kept,
    with 0 in the place of NaN. *)
Theorem time_of_day_parsing `{PyLibs} (h : Heap) (df : ref)
    (Hlabels : NoDup (names (frame_at h df))) :
  (∀ v, pd_isna v = true → _parse_hour_to_float v = PrimFloat.nan) ∧
  (∀ v p0 p1 hh mm fh fm,
     pd_isna v = false → py_split ":" (py_str v) = [p0; p1] →
     py_int p0 = Some hh → py_int p1 = Some mm →
     float_of_int hh = Some fh → float_of_int mm = Some fm →
     _parse_hour_to_float v = PrimFloat.add fh (PrimFloat.div fm 60%float)) ∧
  (∀ hs ms fh fm,
     is_decimal hs = true → is_decimal ms = true →
     float_of_int (decimal hs) = Some fh → float_of_int (decimal ms) = Some fm →
     _parse_hour_to_float (VStr (hs +:+ ":" +:+ ms))
     = PrimFloat.add fh (PrimFloat.div fm 60%float)) ∧
  (∀ v, (¬ ∃ p0 p1 hh mm fh fm,
             pd_isna v = false ∧ py_split ":" (py_str v) = [p0; p1] ∧
             py_int p0 = Some hh ∧ py_int p1 = Some mm ∧
             float_of_int hh = Some fh ∧ float_of_int mm = Some fm) →
        _parse_hour_to_float v = PrimFloat.nan) ∧
  (∀ v, length (py_split ":" (py_str v)) ≠ 2%nat → _parse_hour_to_float v = PrimFloat.nan) ∧
  (∀ v p, p ∈ py_split ":" (py_str v) → py_int p = None →
          _parse_hour_to_float v = PrimFloat.nan) ∧
  (∀ v p a, p ∈ py_split ":" (py_str v) → is_ascii p = true →
            a ∈ list_ascii_of_string p → int_char a = false →
            _parse_hour_to_float v = PrimFloat.nan) ∧
  (∀ v p z, p ∈ py_split ":" (py_str v) → py_int p = Some z → float_of_int z = None →
            _parse_hour_to_float v = PrimFloat.nan) ∧
  (_parse_hour_to_float (VStr "08:30") = 8.5%float ∧
   _parse_hour_to_float (VStr "bad") = PrimFloat.nan ∧
   _parse_hour_to_float (VStr " 8: 30 ") = 8.5%float ∧
   _parse_hour_to_float (VStr "+8:30") = 8.5%float ∧
   _parse_hour_to_float (VStr "24:60") = 25%float ∧
   _parse_hour_to_float (VStr "-1:30") = (-0.5)%float ∧
   _parse_hour_to_float (VStr "1_0:30") = 10.5%float ∧
   _parse_hour_to_float (VStr (String "028"%char "7:00")) = PrimFloat.nan ∧
   _parse_hour_to_float (VStr "8:30:00") = PrimFloat.nan ∧
   _parse_hour_to_float (VStr "8h30") = PrimFloat.nan ∧
   _parse_hour_to_float (VStr "8.5:00") = PrimFloat.nan ∧
   _parse_hour_to_float (VStr "- 8:30") = PrimFloat.nan ∧
   _parse_hour_to_float (VStr "") = PrimFloat.nan ∧
   _parse_hour_to_float (VInt 830) = PrimFloat.nan ∧
   _parse_hour_to_float (VBool true) = PrimFloat.nan) ∧
  (∀ v, hour_cell v = VFloat (if PrimFloat.is_nan (_parse_hour_to_float v)
                              then 0%float else _parse_hour_to_float v)) ∧
  ∃ r' h', prepare_preferences_dataframe df h = (Ok r', h') ∧
    (∀ s, lookup_col "start" (frame_at h df) = Some s →
       ∃ c, cols_named "start_hour" (frame_at h' r') = [c] ∧
            cells c = map hour_cell (cells (kept (frame_at h df) s))) ∧
    (∀ s, lookup_col "end" (frame_at h df) = Some s →
       ∃ c, cols_named "end_hour" (frame_at h' r') = [c] ∧
            cells c = map hour_cell (cells (kept (frame_at h df) s))).
Proof.
  split; [apply @parse_hour_missing|].
  split; [apply @parse_hour_valid|].
  split; [apply @parse_hour_decimal|].
  split; [apply @parse_hour_otherwise|].
  split; [apply @parse_hour_pieces|].
  split; [apply @parse_hour_not_int|].
  split; [apply @parse_hour_rejects|].
  split; [apply @parse_hour_too_large|].
  split.
  { split; [apply parse_hour_half_past_eight|].
    split; [apply parse_hour_bad|]. apply parse_hour_examples. }
  split; [done|].
  destruct (prepare_preferences_run h df) as (r' & h' & E & _ & F & _).
  exists r', h'. split; [done|]. rewrite F. split.
  - intros s Hs. eexists. split; [by apply preferences_start_hour|].
    apply cells_filled_hours.
  - intros s Hs. eexists. split; [by apply preferences_end_hour|].
    apply cells_filled_hours.
Qed.

(** The hours of the two users of [sample_schedules] whose onboarding is
    complete: half past eight and a word that is no hour; no value and a
    quarter to seven. *)
Lemma time_of_day_parsing_sample :
  ∃ r' h', @prepare_preferences_dataframe sample_libs 0%nat (store_of sample_schedules)
           = (Ok r', h') ∧
           (∃ c, cols_named "start_hour" (frame_at h' r') = [c] ∧
                 cells c = [VFloat 8.5; VFloat 0]) ∧
           (∃ c, cols_named "end_hour" (frame_at h' r') = [c] ∧
                 cells c = [VFloat 0; VFloat 18.75]).
Proof.
  destruct (@time_of_day_parsing sample_libs (store_of sample_schedules) 0%nat)
    as (_ & _ & _ & _ & _ & _ & _ & _ & _ & _ & r' & h' & E & Hstart & Hend).
  - apply (bool_decide_unpack _). vm_compute. exact I.
  - exists r', h'. split; [done|]. split.
    + destruct (Hstart (mkSeries DObject [VStr "08:30"; VStr "bad"; VStr "10:00"]))
        as (c & Hc & Hcells); [vm_compute; reflexivity|].
      exists c. split; [done|]. rewrite Hcells. vm_compute. reflexivity.
    + destruct (Hend (mkSeries DObject [VNone; VStr "18:45"; VStr "11:00"]))
        as (c & Hc & Hcells); [vm_compute; reflexivity|].
      exists c. split; [done|]. rewrite Hcells. vm_compute. reflexivity.
Defined.

(** A str in the shape of a time of day that is none, 24:60, is not taken
    as malformed: it parses to the number 25, not to NaN, and the column
    [start_hour] of a user with this [start] holds 25, not 0. *)
Lemma hour_outside_the_clock :
  @_parse_hour_to_float sample_libs (VStr "24:60") = 25%float ∧
  PrimFloat.is_nan (@_parse_hour_to_float sample_libs (VStr "24:60")) = false ∧
  cols_named "start_hour"
    (@prepare_preferences_table sample_libs
       (mkTable 1 [("start", mkSeries DObject [VStr "24:60"])]))
  = [mkSeries DFloat [VFloat 25]].
Proof. repeat split; vm_compute; reflexivity. Qed.






(** ** The runner *)

(** C1: when the request is well formed, the user's cluster is predicted
    and the outing model gives a cluster to every outing, the program exits
    with status 0 and prints one result: each identifier of the outings
    table as it was before the encoding (the cells of its column [id], or
    the row numbers from 0 when it has none) with the cluster of its row,
    in order, and as matches the identifiers whose cluster is the user's,
    in that order. *)
Theorem match_pairs_ids `{PyLibs} `{Runtime} (models : Models) (stdin : string)
    (fields : list (string * Json)) (user_prefs sorties : Json)
    (user_cluster : Z) (w1 : World) (t ft : Table) (m : Matrix) (clusters : list Z)
    (Hstdin : stdin ≠ "") (Hjson : json_loads stdin = inr (JObj fields))
    (Hprefs : get_field "userPreferences" fields = Some user_prefs)
    (Hsorties : get_field "sorties" fields = Some sorties)
    (Huser : predict_user_cluster user_prefs models start = (Ok user_cluster, w1))
    (Hsome : py_bool sorties = true) (Hframe : pd_DataFrame sorties = inr t)
    (Hlabels : NoDup (names t))
    (Halign : aligned (sorties_features models) (prepare_sorties_table t) = Some ft)
    (Hscale : transform (sorties_scaler models) ft = inr m)
    (Hpredict : predict (sorties_kmeans models) m = inr clusters)
    (Hall : (length (outing_ids t) ≤ length clusters)%nat) :
  ∃ w', run (inr models) stdin = (Exit 0, w') ∧
    stdout w' =
      [json_dumps
         (mkMatchResult user_cluster (zip (outing_ids t) clusters)
            (filter (λ p, p.2 = user_cluster) (zip (outing_ids t) clusters)).*1)] ∧
    (zip (outing_ids t) clusters).*1 = outing_ids t ∧
    (∀ s, lookup_col "id" t = Some s → outing_ids t = cells s) ∧
    ("id" ∉ names t →
     outing_ids t = map (λ i, VInt (Z.of_nat i)) (seq 0 (nrows t))).
Proof.
  destruct (predict_sorties_clusters_run sorties models w1 t ft m clusters)
    as (h' & Erun); try done.
  destruct (user_only_predict_user_cluster user_prefs models _ _ _ Huser) as (Hout & _).
  eexists. split.
  - exact (main_success models stdin fields user_prefs sorties user_cluster w1 _ _
             Hstdin Hjson Hprefs Hsorties Huser Erun).
  - simpl. rewrite Hout. split; [done|]. split; [by apply fst_zip|]. split.
    + intros s Hs. unfold outing_ids. by rewrite Hs.
    + intros Hid. unfold outing_ids. by rewrite lookup_col_None.
Qed.

(** The request of the samples: the second outing is in the user's cluster. *)
Lemma match_pairs_ids_sample :
  ∃ w', @run sample_libs sample_runtime (inr sample_models) "request" = (Exit 0, w') ∧
        stdout w' =
          [@json_dumps sample_runtime
             (mkMatchResult 1 [(VStr "s1", 0); (VStr "s2", 1)] [VStr "s2"])].
Proof.
  destruct (@match_pairs_ids sample_libs sample_runtime sample_models "request"
              [("userPreferences", JObj [("level", JScalar (VStr "beginner"))]);
               ("sorties", JArr [JObj [("id", JScalar (VStr "s1"));
                                       ("distance", JScalar (VInt 12))];
                                 JObj [("id", JScalar (VStr "s2"));
                                       ("distance", JScalar (VInt 30))]])]
              (JObj [("level", JScalar (VStr "beginner"))])
              (JArr [JObj [("id", JScalar (VStr "s1")); ("distance", JScalar (VInt 12))];
                     JObj [("id", JScalar (VStr "s2")); ("distance", JScalar (VInt 30))]])
              1
              (@predict_user_cluster sample_libs sample_runtime
                 (JObj [("level", JScalar (VStr "beginner"))]) sample_models start).2
              (mkTable 2 [("id", mkSeries DObject [VStr "s1"; VStr "s2"]);
                          ("distance", mkSeries DInt [VInt 12; VInt 30])])
              (mkTable 2 [("distance", mkSeries DInt [VInt 12; VInt 30]);
                          ("duree_estimee", mkSeries DInt [VInt 0; VInt 0])])
              [[]; []] [0; 1])
    as (w' & Erun & Hout & _).
  - discriminate.
  - reflexivity.
  - reflexivity.
  - reflexivity.
  - vm_compute. reflexivity.
  - reflexivity.
  - reflexivity.
  - apply (bool_decide_unpack _). vm_compute. exact I.
  - vm_compute. reflexivity.
  - reflexivity.
  - reflexivity.
  - vm_compute. lia.
  - exists w'. split; [done|]. rewrite Hout. vm_compute. reflexivity.
Defined.

(** C4: when the request is well formed, the user's cluster is predicted
    and the outings are the empty list (or any value that Python counts as
    false), the program exits with status 0 and prints one result with no
    outing and no match, and no stage of the outings' side is entered:
    neither encoding, alignment, scaling nor prediction. *)
Theorem empty_outings_short_circuit `{PyLibs} `{Runtime} (models : Models) (stdin : string)
    (fields : list (string * Json)) (user_prefs sorties : Json)
    (user_cluster : Z) (w1 : World)
    (Hstdin : stdin ≠ "") (Hjson : json_loads stdin = inr (JObj fields))
    (Hprefs : get_field "userPreferences" fields = Some user_prefs)
    (Hsorties : get_field "sorties" fields = Some sorties)
    (Huser : predict_user_cluster user_prefs models start = (Ok user_cluster, w1))
    (Hempty : py_bool sorties = false) :
  py_bool (JArr []) = false ∧
  ∃ w', run (inr models) stdin = (Exit 0, w') ∧
    stdout w' = [json_dumps (mkMatchResult user_cluster [] [])] ∧
    ∀ stage, (Outings, stage) ∉ calls w'.
Proof.
  split; [done|].
  destruct (user_only_predict_user_cluster user_prefs models _ _ _ Huser)
    as (Hout & l & Hcalls & Huser_only).
  eexists. split.
  - apply (main_success models stdin fields user_prefs sorties user_cluster w1 [] w1);
      try done.
    by apply predict_sorties_clusters_empty.
  - simpl. rewrite Hout. split; [done|].
    intros stage Hin. rewrite Hcalls in Hin. simpl in Hin.
    rewrite Forall_forall in Huser_only. by specialize (Huser_only _ Hin).
Qed.

(** The request of the samples that has no outing. *)
Lemma empty_outings_sample :
  ∃ w', @run sample_libs sample_runtime (inr sample_models) "request without outing"
        = (Exit 0, w') ∧
        stdout w' = [@json_dumps sample_runtime (mkMatchResult 1 [] [])] ∧
        ∀ stage, (Outings, stage) ∉ calls w'.
Proof.
  destruct (@empty_outings_short_circuit sample_libs sample_runtime sample_models
              "request without outing"
              [("userPreferences", JObj [("level", JScalar (VStr "beginner"))]);
               ("sorties", JArr [])]
              (JObj [("level", JScalar (VStr "beginner"))]) (JArr []) 1
              (@predict_user_cluster sample_libs sample_runtime
                 (JObj [("level", JScalar (VStr "beginner"))]) sample_models start).2)
    as (_ & w' & Hrun).
  - discriminate.
  - reflexivity.
  - reflexivity.
  - reflexivity.
  - vm_compute. reflexivity.
  - reflexivity.
  - by exists w'.
Defined.

(** C8: once the models are loaded, an empty input, an input that is not
    JSON, an object without the key [userPreferences] and an object with
    that key and without the key [sorties] each end the program with status
    1, nothing on standard output and one line on standard error; the key
    [userPreferences] is looked for first, so an object that lacks both
    keys is reported for that one. The four lines differ from one
    another. *)
Theorem input_shape_errors `{PyLibs} `{Runtime} (models : Models) (stdin : string) :
  (stdin = "" →
   run (inr models) stdin =
   (Exit 1, mkWorld (heap start) [] [] ["Erreur: aucune donnée reçue sur stdin"])) ∧
  (∀ e, stdin ≠ "" → json_loads stdin = inl e →
   run (inr models) stdin =
   (Exit 1, mkWorld (heap start) [] [] ["Erreur: JSON invalide - " +:+ e])) ∧
  (∀ fields, stdin ≠ "" → json_loads stdin = inr (JObj fields) →
   "userPreferences" ∉ fields.*1 →
   run (inr models) stdin =
   (Exit 1, mkWorld (heap start) [] []
              ["Erreur: 'userPreferences' manquant dans les données"])) ∧
  (∀ fields, stdin ≠ "" → json_loads stdin = inr (JObj fields) →
   "userPreferences" ∈ fields.*1 → "sorties" ∉ fields.*1 →
   run (inr models) stdin =
   (Exit 1, mkWorld (heap start) [] [] ["Erreur: 'sorties' manquant dans les données"])) ∧
  exit_status (Exit (A := ()) 1) ≠ 0 ∧
  "Erreur: aucune donnée reçue sur stdin"
    ≠ "Erreur: 'userPreferences' manquant dans les données" ∧
  "Erreur: aucune donnée reçue sur stdin" ≠ "Erreur: 'sorties' manquant dans les données" ∧
  "Erreur: 'userPreferences' manquant dans les données"
    ≠ "Erreur: 'sorties' manquant dans les données" ∧
  ∀ e, "Erreur: JSON invalide - " +:+ e ≠ "Erreur: aucune donnée reçue sur stdin" ∧
       "Erreur: JSON invalide - " +:+ e
         ≠ "Erreur: 'userPreferences' manquant dans les données" ∧
       "Erreur: JSON invalide - " +:+ e ≠ "Erreur: 'sorties' manquant dans les données".
Proof.
  split; [intros ->; apply main_empty_stdin|].
  split; [intros e; apply main_invalid_json|].
  split; [intros fields; apply main_no_preferences|].
  split; [intros fields; apply main_no_sorties|].
  split; [done|]. split; [done|]. split; [done|]. split; [done|].
  apply invalid_json_message_distinct.
Qed.

(** A text that is not JSON, given to the runtime of the samples. *)
Lemma input_shape_errors_sample :
  @run sample_libs sample_runtime (inr sample_models) "not a request" =
  (Exit 1, mkWorld (heap start) [] []
             ["Erreur: JSON invalide - Expecting value: line 1 column 1 (char 0)"]).
Proof.
  apply (proj1 (proj2 (@input_shape_errors sample_libs sample_runtime sample_models
                         "not a request"))).
  - discriminate.
  - reflexivity.
Defined.



(** * Further properties of the program                                    *)

(** ** What the process writes *)

Lemma mute_ret {A} (a : A) : mute (mret a).
Proof. intros w r w' Hrun. injection Hrun as <- <-. done. Qed.

Lemma mute_raise {A} e : mute (raise (A := A) e).
Proof. intros w r w' Hrun. injection Hrun as <- <-. done. Qed.

Lemma mute_bind {A B} (m : P A) (k : A -> P B) :
  mute m → (∀ a, mute (k a)) → mute (m ≫= k).
Proof.
  intros Hm Hk w r w' Hrun. unfold mbind, St_bind in Hrun.
  destruct (m w) as [[a|e|c] w1] eqn:E.
  - destruct (Hm _ _ _ E) as (Ho & He & _).
    destruct (Hk a _ _ _ Hrun) as (Ho' & He' & Hx).
    split; [congruence|]. split; [congruence|done].
  - injection Hrun as <- <-. destruct (Hm _ _ _ E) as (Ho & He & _). done.
  - destruct (Hm _ _ _ E) as (_ & _ & Hx). by destruct (Hx c).
Qed.

Lemma mute_lift {A} (m : M A) : (∀ h c h', m h ≠ (Exit c, h')) → mute (lift m).
Proof.
  intros Hm w r w' Hrun. unfold lift in Hrun. destruct (m (heap w)) as [a h] eqn:E.
  injection Hrun as <- <-. simpl. split; [done|]. split; [done|].
  intros code ->. by apply (Hm _ _ _ E).
Qed.

Lemma mute_of_sum {A} (x : string + A) : mute (of_sum x).
Proof. destruct x; [apply mute_raise|apply mute_ret]. Qed.

Lemma mute_enter side stage : mute (enter side stage).
Proof. intros w r w' Hrun. injection Hrun as <- <-. done. Qed.


Lemma lift_no_exit_ok {A} (m : M A) :
  (∀ h, ∃ a h', m h = (Ok a, h')) → ∀ h c h', m h ≠ (Exit c, h').
Proof. intros Hm h c h' Heq. destruct (Hm h) as (a & h1 & E). congruence. Qed.

Lemma df_getitem_no_exit df n h c h' : df_getitem df n h ≠ (Exit c, h').
Proof.
  unfold df_getitem, deref, mbind, St_bind. simpl.
  by destruct (lookup_col n (frame_at h df)).
Qed.

(** The body of a prediction under its handler: the handler writes one line
    on standard error and raises the exception again. *)
Lemma guarded_run {A} (body : P A) (message : string) w r w' :
  mute body →
  try_except body (λ e, print_err (message +:+ e);; raise e) w = (r, w') →
  stdout w' = stdout w ∧
  match r with
  | Ok _ => stderr w' = stderr w
  | Raise e => stderr w' = (stderr w ++ [message +:+ e])%list
  | Exit _ => False
  end.
Proof.
  intros Hb Hrun. unfold try_except in Hrun.
  destruct (body w) as [[a|e|c] w1] eqn:E; destruct (Hb _ _ _ E) as (Ho & He & Hx).
  - injection Hrun as <- <-. done.
  - injection Hrun as <- <-. simpl. by rewrite Ho, He.
  - by destruct (Hx c).
Qed.

(** One step of the proof that a block of the pipeline is mute. *)
Ltac mute_step :=
  let h := fresh "h" in
  lazymatch goal with
  | |- mute (of_sum _) => apply mute_of_sum
  | |- mute (enter _ _) => apply mute_enter
  | |- mute (mret _) => apply mute_ret
  | |- mute (raise _) => apply mute_raise
  | |- mute (lift (prepare_preferences_dataframe ?df)) =>
      apply mute_lift, lift_no_exit_ok; intros h;
      destruct (prepare_preferences_run h df) as (? & ? & ? & _); eauto
  | |- mute (lift (prepare_sorties_dataframe ?df)) =>
      apply mute_lift, lift_no_exit_ok; intros h;
      destruct (prepare_sorties_run h df) as (? & ? & ? & _); eauto
  | |- mute (lift (ensure_features ?df ?F)) =>
      apply mute_lift, lift_no_exit_ok; intros h;
      destruct (ensure_features_run F h df) as (? & ? & _); eauto
  | |- mute (lift (df_getitem _ _)) => apply mute_lift; intros; apply df_getitem_no_exit
  | |- mute (lift _) =>
      apply mute_lift, lift_no_exit_ok; intros h; eexists _, _; reflexivity
  | |- mute (_ ≫= _) => apply mute_bind; [|intros ?]
  end.

Lemma mute_user_body `{PyLibs} `{Runtime} user_prefs models :
  mute (df ← new_frame (JArr [user_prefs]);
        enter User Encode;;
        df_processed ← lift (prepare_preferences_dataframe df);
        enter User Align;;
        df_features ← lift (ensure_features df_processed (preferences_features models));
        enter User Scale;;
        features ← lift (deref df_features);
        df_scaled ← of_sum (transform (preferences_scaler models) features);
        enter User Predict;;
        clusters ← of_sum (predict (preferences_kmeans models) df_scaled);
        match clusters with
        | cluster :: _ => mret cluster
        | [] => raise "IndexError: index 0 is out of bounds"
        end).
Proof.
  unfold new_frame. repeat mute_step.
  match goal with |- mute (match ?c with _ => _ end) => destruct c end; mute_step.
Qed.


Lemma calm_bind {A B} (m : P A) (k : A -> P B) :
  calm m → (∀ a, calm (k a)) → calm (m ≫= k).
Proof.
  intros Hm Hk w r w' Hrun. unfold mbind, St_bind in Hrun.
  destruct (m w) as [[a|e|c] w1] eqn:E; destruct (Hm _ _ _ E) as (Ho & He).
  - destruct (Hk a _ _ _ Hrun) as (Ho' & He'). split; [congruence|].
    destruct r; [congruence|done|done].
  - injection Hrun as <- <-. done.
  - injection Hrun as <- <-. done.
Qed.















(** The unhandled exception of [main]: two lines on standard error, then
    status 1. *)
Lemma main_handler_run `{Runtime} e w :
  (print_err ("Erreur non gérée: " +:+ e);; print_err (traceback_text e);;
   sys_exit (A := ()) 1) w
  = (Exit 1, mkWorld (heap w) (calls w) (stdout w)
               ((stderr w ++ ["Erreur non gérée: " +:+ e]) ++ [traceback_text e])).
Proof. done. Qed.


(** X2: when a model file cannot be loaded, the input is not looked at: the
    program ends with status 1 after the one line that names the failure,
    which the handler of [main] does not take for an exception of its
    own. *)
Theorem models_not_loaded `{PyLibs} `{Runtime} (e stdin : string) :
  run (inl e) stdin =
  (Exit 1, mkWorld (heap start) [] [] ["Erreur lors du chargement des modèles: " +:+ e]).
Proof. reflexivity. Qed.

(** X3: when the request is well formed and the prediction of the user's
    cluster raises, at whatever stage, the program ends with status 1 and
    nothing on standard output; standard error has the line of the user's
    side, the line of [main] and the traceback, in that order, each with
    the message of the exception, and no stage of the outings' side is
    entered. *)
Theorem user_failure_reported `{PyLibs} `{Runtime} (models : Models) (stdin : string)
    (fields : list (string * Json)) (user_prefs : Json) (e : string) (w1 : World)
    (Hstdin : stdin ≠ "") (Hjson : json_loads stdin = inr (JObj fields))
    (Hprefs : get_field "userPreferences" fields = Some user_prefs)
    (Hsorties : "sorties" ∈ fields.*1)
    (Huser : predict_user_cluster user_prefs models start = (Raise e, w1)) :
  ∃ w', run (inr models) stdin = (Exit 1, w') ∧
    stdout w' = [] ∧
    stderr w' = ["Erreur lors de la prédiction du cluster utilisateur: " +:+ e;
                 "Erreur non gérée: " +:+ e; traceback_text e] ∧
    ∀ stage, (Outings, stage) ∉ calls w'.
Proof.
  destruct (user_only_predict_user_cluster user_prefs models _ _ _ Huser)
    as (Hout & l & Hcalls & Huser_only).
  pose proof (guarded_run _ _ _ _ _ (mute_user_body user_prefs models) Huser) as (_ & Herr).
  simpl in Herr. apply String.eqb_neq in Hstdin.
  assert (Erun : run (inr models) stdin
                 = (Exit 1, mkWorld (heap w1) (calls w1) (stdout w1)
                              ((stderr w1 ++ ["Erreur non gérée: " +:+ e])
                               ++ [traceback_text e]))).
  { unfold run, main.
    match goal with |- try_except ?b ?hd ?w = _ =>
      assert (E : b w = (Raise e, w1)); [|by rewrite (try_except_raise _ _ _ _ _ E)]
    end.
    rewrite (bind_ok _ _ _ _ _ (load_models_ok models start)). cbv zeta.
    rewrite Hstdin.
    rewrite (bind_ok _ _ start () start) by reflexivity.
    rewrite Hjson.
    rewrite (bind_ok _ _ start (JObj fields) start) by reflexivity.
    rewrite (bind_ok _ _ _ _ _ (py_in_obj "userPreferences" fields start)).
    rewrite bool_decide_eq_true_2 by (by eapply get_field_key).
    rewrite (bind_ok _ _ start () start) by reflexivity.
    rewrite (bind_ok _ _ _ _ _ (py_in_obj "sorties" fields start)).
    rewrite bool_decide_eq_true_2 by done.
    rewrite (bind_ok _ _ start () start) by reflexivity.
    rewrite (bind_ok _ _ _ _ _ (py_getitem_obj _ _ _ start Hprefs)).
    apply (bind_raise _ _ _ _ _ Huser). }
  eexists. split; [exact Erun|]. simpl. rewrite Hout, Herr. split; [done|]. split; [done|].
  intros stage Hin. rewrite Hcalls in Hin. simpl in Hin.
  rewrite Forall_forall in Huser_only. by specialize (Huser_only _ Hin).
Qed.

(** The request of the samples with a scaler that refuses the table. *)
Lemma user_failure_reported_sample :
  ∃ w', @run sample_libs sample_runtime (inr sample_models_unfit) "request" = (Exit 1, w') ∧
        stdout w' = [] ∧
        stderr w' =
          ["Erreur lors de la prédiction du cluster utilisateur: X has 2 features, but the scaler expects 3";
           "Erreur non gérée: X has 2 features, but the scaler expects 3";
           "Traceback (most recent call last): X has 2 features, but the scaler expects 3"].
Proof.
  destruct (@user_failure_reported sample_libs sample_runtime sample_models_unfit "request"
              [("userPreferences", JObj [("level", JScalar (VStr "beginner"))]);
               ("sorties", JArr [JObj [("id", JScalar (VStr "s1"));
                                       ("distance", JScalar (VInt 12))];
                                 JObj [("id", JScalar (VStr "s2"));
                                       ("distance", JScalar (VInt 30))]])]
              (JObj [("level", JScalar (VStr "beginner"))])
              "X has 2 features, but the scaler expects 3"
              (@predict_user_cluster sample_libs sample_runtime
                 (JObj [("level", JScalar (VStr "beginner"))]) sample_models_unfit start).2)
    as (w' & Erun & Hout & Herr & _).
  - discriminate.
  - reflexivity.
  - reflexivity.
  - apply (bool_decide_unpack _). vm_compute. exact I.
  - vm_compute. reflexivity.
  - exists w'. split; [exact Erun|]. split; [exact Hout|].
    rewrite Herr. vm_compute. reflexivity.
Defined.








(** X6: a document that is not an object gives no result, even when it is
    an array or a str that holds the two words the program looks for: the
    program ends with status 1 and nothing on standard output. *)
Theorem document_not_an_object `{PyLibs} `{Runtime} (models : Models) (stdin : string)
    (data : Json)
    (Hstdin : stdin ≠ "") (Hjson : json_loads stdin = inr data)
    (Hshape : ∀ fields, data ≠ JObj fields) :
  ∃ w, run (inr models) stdin = (Exit 1, w) ∧ stdout w = [].
Proof.
  apply String.eqb_neq in Hstdin.
  assert (Hkeys : ∀ key, ∃ r, (∀ w : World, py_in key data w = (r, w)) ∧ ∀ c, r ≠ Exit c).
  { intros key. destruct data as [c|l|fields]; [|by eexists|by destruct (Hshape fields)].
    destruct c; by eexists. }
  assert (Hitem : ∀ key (w : World),
             py_getitem data key w = (Raise "TypeError: indices must be integers", w)).
  { intros key w. destruct data as [c|l|fields]; [done|done|by destruct (Hshape fields)]. }
  unfold run, main.
  match goal with |- ∃ w, try_except ?b ?hd start = _ ∧ _ =>
    assert (E : ∃ w, stdout w = [] ∧
                     (b start = (Exit 1, w) ∨ ∃ e, b start = (Raise e, w)))
  end.
  { rewrite (bind_ok _ _ _ _ _ (load_models_ok models start)). cbv zeta.
    rewrite Hstdin.
    rewrite (bind_ok _ _ start () start) by reflexivity.
    rewrite Hjson.
    rewrite (bind_ok _ _ start data start) by reflexivity.
    destruct (Hkeys "userPreferences") as ([b1|e1|c1] & Hin1 & Hx1);
      [| |by destruct (Hx1 c1)].
    2:{ exists start. split; [done|]. right. exists e1. apply (bind_raise _ _ _ _ _ (Hin1 _)). }
    rewrite (bind_ok _ _ _ _ _ (Hin1 start)).
    destruct b1; cbn [negb]; [|eexists; split; [|left; reflexivity]; done].
    rewrite (bind_ok _ _ start () start) by reflexivity.
    destruct (Hkeys "sorties") as ([b2|e2|c2] & Hin2 & Hx2);
      [| |by destruct (Hx2 c2)].
    2:{ exists start. split; [done|]. right. exists e2. apply (bind_raise _ _ _ _ _ (Hin2 _)). }
    rewrite (bind_ok _ _ _ _ _ (Hin2 start)).
    destruct b2; cbn [negb]; [|eexists; split; [|left; reflexivity]; done].
    rewrite (bind_ok _ _ start () start) by reflexivity.
    exists start. split; [done|]. right. eexists.
    apply (bind_raise _ _ _ _ _ (Hitem _ _)). }
  destruct E as (w & Hout & [E|[e E]]).
  - exists w. by rewrite (try_except_exit _ _ _ _ _ E).
  - rewrite (try_except_raise _ _ _ _ _ E), main_handler_run. eexists. split; [reflexivity|].
    done.
Qed.

(** The array of the two words is no request. *)
Lemma document_not_an_object_sample :
  ∃ w, @run sample_libs sample_runtime_array (inr sample_models) "[...]" = (Exit 1, w) ∧
       stdout w = [].
Proof.
  apply (@document_not_an_object sample_libs sample_runtime_array sample_models "[...]"
           (JArr [JScalar (VStr "userPreferences"); JScalar (VStr "sorties")])).
  - discriminate.
  - reflexivity.
  - discriminate.
Defined.

(** X7: the user's side is the composition of its four stages: when the
    table of the one user is built and the scaler and the model accept the
    encoded and aligned table, the user's cluster is the first cluster the
    model gives, the four stages have been entered in order and nothing has
    been written; when the model gives no cluster, the user's side raises
    after the line of the user's side on standard error. *)
Theorem user_cluster_pipeline `{PyLibs} `{Runtime} (user_prefs : Json) (models : Models)
    (w : World) (t ft : Table) (m : Matrix) (clusters : list Z)
    (Hframe : pd_DataFrame (JArr [user_prefs]) = inr t)
    (Halign : aligned (preferences_features models) (prepare_preferences_table t) = Some ft)
    (Hscale : transform (preferences_scaler models) ft = inr m)
    (Hpredict : predict (preferences_kmeans models) m = inr clusters) :
  (∀ cluster rest, clusters = cluster :: rest →
     ∃ h', predict_user_cluster user_prefs models w
           = (Ok cluster, mkWorld h' (calls w ++ USER_STAGES) (stdout w) (stderr w))) ∧
  (clusters = [] →
     ∃ e h', predict_user_cluster user_prefs models w
             = (Raise e,
                mkWorld h' (calls w ++ USER_STAGES) (stdout w)
                  (stderr w ++ ["Erreur lors de la prédiction du cluster utilisateur: "
                                +:+ e]))).
Proof.
  rewrite aligned_spec in Halign. apply (inj Some) in Halign. subst ft.
  destruct w as [h0 c0 o0 e0].
  set (df := next_ref h0).
  set (h1 := mkHeap (S df) (upd (frame_at h0) df t)).
  assert (Ht : frame_at h1 df = t) by apply upd_eq.
  destruct (prepare_preferences_run h1 df) as (r2 & h2 & E2 & _ & F2 & _).
  rewrite Ht in F2.
  destruct (ensure_features_run (preferences_features models) h2 r2)
    as (h3 & E3 & _ & F3 & _).
  rewrite F2 in F3.
  assert (Ebody : ∀ k : list Z → P Z,
    (df ← new_frame (JArr [user_prefs]);
     enter User Encode;;
     df_processed ← lift (prepare_preferences_dataframe df);
     enter User Align;;
     df_features ← lift (ensure_features df_processed (preferences_features models));
     enter User Scale;;
     features ← lift (deref df_features);
     df_scaled ← of_sum (transform (preferences_scaler models) features);
     enter User Predict;;
     clusters ← of_sum (predict (preferences_kmeans models) df_scaled);
     k clusters) (mkWorld h0 c0 o0 e0)
    = k clusters (mkWorld h3 (c0 ++ USER_STAGES) o0 e0)).
  { intros k.
    assert (E0 : new_frame (JArr [user_prefs]) (mkWorld h0 c0 o0 e0)
                 = (Ok df, mkWorld h1 c0 o0 e0)).
    { unfold new_frame. rewrite Hframe. reflexivity. }
    rewrite (bind_ok _ _ _ _ _ E0).
    rewrite (bind_ok _ _ _ _ _ (enter_run _ _ _)). cbn [heap calls stdout stderr].
    rewrite (bind_ok _ _ _ _ _ (lift_ok _ (mkWorld h1 _ o0 e0) _ _ E2)).
    rewrite (bind_ok _ _ _ _ _ (enter_run _ _ _)). cbn [heap calls stdout stderr].
    rewrite (bind_ok _ _ _ _ _ (lift_ok _ (mkWorld h2 _ o0 e0) _ _ E3)).
    rewrite (bind_ok _ _ _ _ _ (enter_run _ _ _)).
    cbn [heap calls stdout stderr].
    assert (E4 : ∀ c, lift (deref (next_ref h2)) (mkWorld h3 c o0 e0)
                      = (Ok (frame_at h3 (next_ref h2)), mkWorld h3 c o0 e0)) by done.
    rewrite (bind_ok _ _ _ _ _ (E4 _)). rewrite F3, Hscale.
    rewrite (bind_ok (S := World) _ _ _ _ _ (of_sum_inr _ _)).
    rewrite (bind_ok _ _ _ _ _ (enter_run _ _ _)).
    rewrite Hpredict. rewrite (bind_ok (S := World) _ _ _ _ _ (of_sum_inr _ _)).
    cbn [heap calls stdout stderr]. unfold USER_STAGES. by rewrite <- !app_assoc. }
  split.
  - intros cluster rest ->. exists h3. unfold predict_user_cluster, try_except.
    by rewrite Ebody.
  - intros ->. exists "IndexError: index 0 is out of bounds", h3.
    unfold predict_user_cluster, try_except. by rewrite Ebody.
Qed.

(** The user of the samples: the model answers cluster 1. *)
Lemma user_cluster_pipeline_sample :
  ∃ h', @predict_user_cluster sample_libs sample_runtime
          (JObj [("level", JScalar (VStr "beginner"))]) sample_models start
        = (Ok 1, mkWorld h' USER_STAGES [] []).
Proof.
  refine (proj1 (@user_cluster_pipeline sample_libs sample_runtime
                   (JObj [("level", JScalar (VStr "beginner"))]) sample_models start
                   (mkTable 1 [("level", mkSeries DObject [VStr "beginner"])])
                   (mkTable 1 [("level_beginner", mkSeries DBool [VBool true]);
                               ("level_expert", mkSeries DInt [VInt 0])])
                   [[]] [1] _ _ _ _) 1 [] _).
  - reflexivity.
  - vm_compute. reflexivity.
  - reflexivity.
  - reflexivity.
  - reflexivity.
Defined.

(** ** The rows of the encoded tables *)

Lemma nrows_drop_if_present col t : nrows (drop_if_present_table col t) = nrows t.
Proof. unfold drop_if_present_table. by destruct (has_col col t). Qed.

Lemma nrows_coerce_numeric_fill `{PyLibs} col t :
  nrows (coerce_numeric_fill_table col t) = nrows t.
Proof.
  unfold coerce_numeric_fill_table. destruct (lookup_col col t); [|done]. apply nrows_set_col.
Qed.

Lemma nrows_coerce_numeric `{PyLibs} col t : nrows (coerce_numeric_table col t) = nrows t.
Proof.
  unfold coerce_numeric_table. destruct (lookup_col col t); [|done]. apply nrows_set_col.
Qed.

Lemma nrows_encode_date `{PyLibs} t : nrows (encode_date_table t) = nrows t.
Proof.
  unfold encode_date_table. destruct (lookup_col "date" t); [|done]. simpl.
  by rewrite !nrows_set_col.
Qed.

Lemma nrows_encode_hour `{PyLibs} col out t : nrows (encode_hour_table col out t) = nrows t.
Proof.
  unfold encode_hour_table. destruct (lookup_col col t); [|done]. simpl. apply nrows_set_col.
Qed.

Lemma nrows_mark_days row t : nrows (mark_days row t) = nrows t.
Proof.
  unfold mark_days.
  apply (nrows_foldl (λ j t, if bool_decide (j ∈ row.2)
                             then set_at row.1 (day_col j) (VInt 1) t else t)).
  intros j t'. by case_bool_decide.
Qed.

Lemma nrows_encode_available_days `{PyLibs} t :
  nrows (encode_available_days_table t) = nrows t.
Proof.
  unfold encode_available_days_table. destruct (lookup_col "availableDays" t); [|done].
  simpl. rewrite (nrows_foldl mark_days) by apply nrows_mark_days.
  unfold zero_days. apply nrows_zero_days_fold.
Qed.

Lemma nrows_prepare_sorties `{PyLibs} t : nrows (prepare_sorties_table t) = nrows t.
Proof.
  rewrite prepare_sorties_unfilled, (proj1 (fill_numeric_table_spec _)).
  unfold sorties_unfilled. rewrite nrows_encode_date.
  rewrite (nrows_foldl coerce_numeric_fill_table) by apply nrows_coerce_numeric_fill.
  rewrite (nrows_foldl flag_to_int_table) by apply nrows_flag_to_int.
  rewrite !nrows_one_hot.
  apply (nrows_foldl drop_if_present_table), nrows_drop_if_present.
Qed.

Lemma nrows_prepare_preferences `{PyLibs} t :
  nrows (prepare_preferences_table t) = nrows (keep_onboarded_table t).
Proof.
  rewrite prepare_preferences_unfilled, (proj1 (fill_numeric_table_spec _)).
  rewrite preferences_unfilled_flagged.
  rewrite (nrows_foldl coerce_numeric_table) by apply nrows_coerce_numeric.
  rewrite !nrows_encode_hour, nrows_encode_available_days.
  apply nrows_preferences_flagged.
Qed.

Lemma mask_cells_truthy `{PyLibs} {A} (cs : list Cell) (l : list A) :
  length l = length cs →
  length (mask_cells (map truthy cs) l) = length (filter (λ c, truthy c = true) cs).
Proof.
  revert l. induction cs as [|c cs IH]; intros [|x l] Hlen; simpl in *; try done.
  rewrite filter_cons. destruct (decide (truthy c = true)) as [Ht|Ht].
  - rewrite Ht. simpl. f_equal. apply IH. lia.
  - apply not_true_is_false in Ht. rewrite Ht. apply IH. lia.
Qed.

Lemma nrows_keep_onboarded `{PyLibs} t :
  nrows (keep_onboarded_table t)
  = match lookup_col "onboardingComplete" t with
    | Some flag => length (mask_cells (map truthy (cells flag)) (seq 0 (nrows t)))
    | None => nrows t
    end.
Proof. unfold keep_onboarded_table. by destruct (lookup_col "onboardingComplete" t). Qed.

Lemma nrows_mkTable k cs : nrows (mkTable k cs) = k.
Proof. done. Qed.

(** ** The rows the preference encoder keeps *)

Lemma mask_cells_flagged `{PyLibs} {A} (cs : list Cell) (l : list A) :
  mask_cells (map truthy cs) l = (filter (λ p, truthy p.1 = true) (zip cs l)).*2.
Proof.
  revert l. induction cs as [|c cs IH]; intros [|x l]; simpl; try done.
  rewrite filter_cons. simpl. destruct (truthy c) eqn:Hc.
  - rewrite decide_True by done. simpl. by rewrite IH.
  - rewrite decide_False by done. apply IH.
Qed.

Lemma mask_cells_all {A} (mask : list bool) (l : list A) :
  Forall (λ b, b = true) mask → (length l ≤ length mask)%nat → mask_cells mask l = l.
Proof.
  intros Hall. revert l. induction Hall as [|b mask -> _ IH]; intros [|x l] Hlen;
    simpl in *; try done; try lia.
  f_equal. apply IH. lia.
Qed.

Lemma mask_cells_kept_truthy `{PyLibs} (cs : list Cell) :
  Forall (λ c, truthy c = true) (mask_cells (map truthy cs) cs).
Proof.
  induction cs as [|c cs IH]; simpl; [done|].
  destruct (truthy c) eqn:Hc; [by apply Forall_cons|done].
Qed.

Lemma lookup_col_column n t s : lookup_col n t = Some s → (n, s) ∈ columns t.
Proof.
  unfold lookup_col, cols_named. induction (columns t) as [|[m u] cs IH]; [done|].
  rewrite filter_cons. simpl. destruct (decide (m = n)) as [->|Hm]; simpl.
  - intros [= ->]. apply list_elem_of_here.
  - intros Hs. apply list_elem_of_further. by apply IH.
Qed.

Lemma wf_lookup_col n t s : wf t → lookup_col n t = Some s → length (cells s) = nrows t.
Proof.
  intros Hwf Hs. apply lookup_col_column in Hs. unfold wf in Hwf.
  rewrite Forall_forall in Hwf. by apply Hwf in Hs.
Qed.

Lemma filter_rows_all mask t :
  Forall (λ b, b = true) mask → length mask = nrows t → wf t → filter_rows mask t = t.
Proof.
  intros Hall Hlen Hwf. unfold filter_rows. destruct t as [k cs]. simpl in *. f_equal.
  - rewrite mask_cells_all by (by rewrite ?length_seq, ?Hlen). apply length_seq.
  - rewrite <- (map_id cs) at 2. apply map_ext_Forall.
    eapply Forall_impl; [exact Hwf|]. intros [n [d l]] Hc. simpl in *.
    by rewrite mask_cells_all by (done || lia).
Qed.

Lemma wf_filter_rows mask t : wf t → wf (filter_rows mask t).
Proof.
  unfold wf, filter_rows. simpl. intros Hwf. apply Forall_map.
  eapply Forall_impl; [exact Hwf|]. intros [n s] Hs. simpl in *.
  apply mask_cells_length. by rewrite length_seq.
Qed.

Lemma keep_onboarded_idem `{PyLibs} t :
  wf t → keep_onboarded_table (keep_onboarded_table t) = keep_onboarded_table t.
Proof.
  intros Hwf. destruct (lookup_col "onboardingComplete" t) as [flag|] eqn:Hflag.
  - pose proof (lookup_col_keep_onboarded _ _ _ Hflag) as Hkept.
    pose proof (length_kept t flag (wf_lookup_col _ _ _ Hwf Hflag)) as Hlen.
    assert (Hwf' : wf (keep_onboarded_table t)).
    { unfold keep_onboarded_table. rewrite Hflag. by apply wf_filter_rows. }
    revert Hkept Hlen Hwf'. generalize (keep_onboarded_table t). intros t' Hkept Hlen Hwf'.
    unfold keep_onboarded_table. rewrite Hkept. apply filter_rows_all; [| |done].
    + unfold isin_truthy, kept. rewrite Hflag. simpl. apply Forall_map.
      apply mask_cells_kept_truthy.
    + unfold isin_truthy. by rewrite length_map.
  - unfold keep_onboarded_table. by rewrite !Hflag.
Qed.

Lemma keep_onboarded_rows `{PyLibs} t flag :
  wf t → lookup_col "onboardingComplete" t = Some flag →
  keep_onboarded_table t
  = mkTable (length (filter (λ c, truthy c = true) (cells flag)))
      (map (λ c, (c.1, mkSeries (dtype c.2)
                         (filter (λ p, truthy p.1 = true)
                                 (zip (cells flag) (cells c.2))).*2))
           (columns t)).
Proof.
  intros Hwf Hflag. unfold keep_onboarded_table. rewrite Hflag.
  unfold filter_rows, isin_truthy. f_equal.
  - apply mask_cells_truthy. rewrite length_seq. symmetry. by eapply wf_lookup_col.
  - apply map_ext. intros [n s]. simpl. by rewrite mask_cells_flagged.
Qed.

Lemma prepare_preferences_kept `{PyLibs} t :
  wf t → prepare_preferences_table (keep_onboarded_table t) = prepare_preferences_table t.
Proof.
  intros Hwf. unfold prepare_preferences_table. cbv zeta. by rewrite keep_onboarded_idem.
Qed.

Lemma cells_kept `{PyLibs} t flag s :
  lookup_col "onboardingComplete" t = Some flag →
  kept t s = mkSeries (dtype s)
               (filter (λ p, truthy p.1 = true) (zip (cells flag) (cells s))).*2.
Proof.
  intros Hflag. unfold kept. rewrite Hflag. unfold isin_truthy.
  by rewrite mask_cells_flagged.
Qed.

(** X8: the outing encoder keeps every row: the encoded table, and the
    table aligned on the features of the model, have the rows of the
    request, so that the cluster of row i belongs to the identifier of row
    i. The preference encoder keeps every row when the table has no field
    [onboardingComplete]; when it has one, it keeps exactly the rows whose
    [onboardingComplete], as a lowercased str, is true, 1 or yes: its
    result is the encoding of the table [rows] made of these rows, in
    which every column holds its cells of these rows in the order of the
    input, and on which the filter changes nothing; a field outside the
    schema comes out as its column of [rows], missing cells filled when
    it is numeric. A table has one cell per row in every column. *)
Theorem encoded_rows `{PyLibs} (h : Heap) (df : ref) (F : list string)
    (Hlabels : NoDup (names (frame_at h df)))
    (Hshape : wf (frame_at h df)) :
  (∃ r1 h1 r2 h2,
     prepare_sorties_dataframe df h = (Ok r1, h1) ∧
     ensure_features r1 F h1 = (Ok r2, h2) ∧
     nrows (frame_at h1 r1) = nrows (frame_at h df) ∧
     nrows (frame_at h2 r2) = nrows (frame_at h df)) ∧
  (∃ r1 h1,
     prepare_preferences_dataframe df h = (Ok r1, h1) ∧
     ("onboardingComplete" ∉ names (frame_at h df) →
      nrows (frame_at h1 r1) = nrows (frame_at h df)) ∧
     (∀ flag, lookup_col "onboardingComplete" (frame_at h df) = Some flag →
        let completed (s : Series) : Series :=
          mkSeries (dtype s)
            (filter (λ p, truthy p.1 = true) (zip (cells flag) (cells s))).*2 in
        let rows : Table :=
          mkTable (length (filter (λ c, truthy c = true) (cells flag)))
                  (map (λ c, (c.1, completed c.2)) (columns (frame_at h df))) in
        nrows (frame_at h1 r1) = length (filter (λ c, truthy c = true) (cells flag)) ∧
        frame_at h1 r1 = prepare_preferences_table rows ∧
        keep_onboarded_table rows = rows ∧
        (∀ c, c ∈ cells (completed flag) → truthy c = true) ∧
        (∀ n s, lookup_col n (frame_at h df) = Some s → pref_schema_label n = false →
                cols_named n (frame_at h1 r1) = [filled (completed s)]))).
Proof.
  split.
  - destruct (prepare_sorties_run h df) as (r1 & h1 & E1 & _ & F1 & _).
    destruct (ensure_features_run F h1 r1) as (h2 & E2 & _ & F2 & _).
    exists r1, h1, (next_ref h1), h2. split; [done|]. split; [done|].
    rewrite F2, nrows_mkTable, F1.
    rewrite (nrows_prepare_sorties (frame_at h df)). split; reflexivity.
  - destruct (prepare_preferences_run h df) as (r1 & h1 & E1 & _ & F1 & _).
    exists r1, h1. split; [done|]. rewrite F1. split.
    + intros Hno. rewrite (nrows_prepare_preferences (frame_at h df)),
        (nrows_keep_onboarded (frame_at h df)). by rewrite lookup_col_None.
    + intros flag Hflag. cbv zeta.
      pose proof (keep_onboarded_rows _ _ Hshape Hflag) as Hrows.
      split; [|split; [|split; [|split]]].
      * rewrite (nrows_prepare_preferences (frame_at h df)),
          (nrows_keep_onboarded (frame_at h df)), Hflag.
        apply mask_cells_truthy. rewrite length_seq. symmetry.
        by apply (wf_lookup_col "onboardingComplete").
      * rewrite <- Hrows. symmetry. by apply prepare_preferences_kept.
      * rewrite <- Hrows. by apply keep_onboarded_idem.
      * intros c Hc. simpl in Hc. rewrite <- mask_cells_flagged in Hc.
        pose proof (mask_cells_kept_truthy (cells flag)) as Hall.
        rewrite Forall_forall in Hall. by apply Hall.
      * intros n s Hs Hn. rewrite <- (cells_kept _ flag s Hflag).
        by apply preferences_other_field.
Qed.

(** Of the three users of [sample_schedules], two have completed the
    onboarding: their flags and their ages are kept. *)
Lemma encoded_rows_sample :
  ∃ r1 h1, @prepare_preferences_dataframe sample_libs 0%nat (store_of sample_schedules)
           = (Ok r1, h1) ∧
           nrows (frame_at h1 r1) = 2%nat ∧
           cols_named "onboardingComplete" (frame_at h1 r1)
           = [mkSeries DBool [VBool true; VBool true]] ∧
           cols_named "age" (frame_at h1 r1)
           = [mkSeries DFloat [VFloat 31; VFloat 0]].
Proof.
  destruct (@encoded_rows sample_libs (store_of sample_schedules) 0%nat [])
    as (_ & r1 & h1 & E1 & _ & Hrows).
  - apply (bool_decide_unpack _). vm_compute. exact I.
  - unfold wf. simpl. repeat constructor.
  - exists r1, h1. split; [exact E1|].
    destruct (Hrows (mkSeries DBool [VBool true; VBool true; VBool false]))
      as (Hn & _ & _ & _ & Hcols); [vm_compute; reflexivity|].
    split; [rewrite Hn; vm_compute; reflexivity|]. split.
    + rewrite (Hcols "onboardingComplete"
                 (mkSeries DBool [VBool true; VBool true; VBool false]))
        by (vm_compute; reflexivity).
      vm_compute. reflexivity.
    + rewrite (Hcols "age"
                 (mkSeries DFloat [VFloat 31%float; VFloat PrimFloat.nan; VFloat 40%float]))
        by (vm_compute; reflexivity).
      vm_compute. reflexivity.
Defined.

(** ** The fields an encoder consumes *)

Lemma pick_nil_absent n t : pick (String.eqb n) t = [] → n ∉ names t.
Proof.
  intros Hp Hin. assert (Hn : n ∈ (pick (String.eqb n) t).*1).
  { rewrite names_pick. apply list_elem_of_filter. split; [apply String.eqb_refl|done]. }
  rewrite Hp in Hn. by apply elem_of_nil in Hn.
Qed.

Lemma pick_eqb_drop_cols n t : pick (String.eqb n) (drop_cols [n] t) = [].
Proof.
  apply pick_nil. intros m Hm. rewrite names_drop_cols in Hm.
  apply list_elem_of_filter in Hm as [Hm _]. apply String.eqb_neq. intros ->.
  apply Hm. apply list_elem_of_here.
Qed.

Lemma pick_drop_cols_nil p ns t : pick p t = [] → pick p (drop_cols ns t) = [].
Proof.
  unfold pick, drop_cols. simpl. intros Hp.
  induction (columns t) as [|c cs IH]; [done|].
  rewrite filter_cons in Hp. rewrite filter_cons.
  destruct (decide (p c.1 = true)) as [Hc|Hc]; [done|].
  destruct (decide (c.1 ∉ ns)); [|by apply IH].
  rewrite filter_cons. rewrite decide_False by done. by apply IH.
Qed.

Lemma pick_eqb_absent n t : n ∉ names t → pick (String.eqb n) t = [].
Proof.
  intros Hn. apply pick_nil. intros m Hm. apply String.eqb_neq. by intros ->.
Qed.

Lemma pick_eqb_drop_if_present n t :
  pick (String.eqb n) (drop_if_present_table n t) = [].
Proof.
  unfold drop_if_present_table. destruct (has_col n t) eqn:E.
  - apply pick_eqb_drop_cols.
  - apply pick_eqb_absent. by apply has_col_false.
Qed.

Lemma pick_drop_if_present_nil p c t :
  pick p t = [] → pick p (drop_if_present_table c t) = [].
Proof.
  intros Hp. unfold drop_if_present_table. destruct (has_col c t); [|done].
  by apply pick_drop_cols_nil.
Qed.

Lemma pick_dropped_fold n l t :
  n ∈ l → pick (String.eqb n) (foldl (λ t c, drop_if_present_table c t) t l) = [].
Proof.
  assert (Hkeep : ∀ l t, pick (String.eqb n) t = [] →
            pick (String.eqb n) (foldl (λ t c, drop_if_present_table c t) t l) = []).
  { clear. intros l. induction l as [|c l IH]; intros t Hp; [done|]. simpl.
    apply IH. by apply pick_drop_if_present_nil. }
  revert t. induction l as [|c l IH]; intros t Hin; [by apply elem_of_nil in Hin|].
  simpl. destruct (decide (c = n)) as [->|Hne].
  - apply Hkeep, pick_eqb_drop_if_present.
  - apply IH. set_solver.
Qed.

Lemma bucket_of_self col : bucket_of col col = false.
Proof.
  unfold bucket_of. induction col as [|a col IH]; [done|].
  change (String.prefix (String a (col +:+ "_")) (String a col) = false). simpl.
  by destruct (ascii_dec a a).
Qed.

Lemma eqb_own_bucket col lv : String.eqb col (col +:+ "_" +:+ lv) = false.
Proof. apply eqb_bucket_false, bucket_of_self. Qed.

Lemma pick_eqb_one_hot `{PyLibs} fill col t :
  pick (String.eqb col) (one_hot_table fill col t) = [].
Proof.
  unfold one_hot_table. destruct (lookup_col col t) as [s|] eqn:E.
  - rewrite pick_concat_cols, pick_eqb_drop_cols.
    rewrite filter_get_dummies_none; [done|]. intros lv. apply eqb_own_bucket.
  - apply pick_eqb_absent. intros Hin. destruct (lookup_col_Some _ _ Hin) as [s Hs].
    congruence.
Qed.

Lemma pick_eqb_encode_hour `{PyLibs} col out t :
  col ≠ out → pick (String.eqb col) (encode_hour_table col out t) = [].
Proof.
  intros Hne. unfold encode_hour_table. destruct (lookup_col col t) as [s|] eqn:E.
  - apply pick_eqb_drop_cols.
  - apply pick_eqb_absent. intros Hin. destruct (lookup_col_Some _ _ Hin) as [s Hs].
    congruence.
Qed.

Lemma pick_eqb_encode_date `{PyLibs} t :
  pick (String.eqb "date") (encode_date_table t) = [].
Proof.
  unfold encode_date_table. destruct (lookup_col "date" t) as [s|] eqn:E.
  - apply pick_eqb_drop_cols.
  - apply pick_eqb_absent. intros Hin. destruct (lookup_col_Some _ _ Hin) as [s Hs].
    congruence.
Qed.

Lemma pick_eqb_encode_available_days `{PyLibs} t :
  pick (String.eqb "availableDays") (encode_available_days_table t) = [].
Proof.
  unfold encode_available_days_table.
  destruct (lookup_col "availableDays" t) as [s|] eqn:E.
  - apply pick_eqb_drop_cols.
  - apply pick_eqb_absent. intros Hin. destruct (lookup_col_Some _ _ Hin) as [s Hs].
    congruence.
Qed.

Lemma pick_one_hot_loop_removed `{PyLibs} fill col l t :
  NoDup l → col ∈ l →
  (∀ c, c ∈ l → c ≠ col → ∀ lv, String.eqb col (c +:+ "_" +:+ lv) = false) →
  pick (String.eqb col) (foldl (λ t c, one_hot_table fill c t) t l) = [].
Proof.
  intros Hnd Hin Hoth. revert t. induction l as [|c l IH]; intros t.
  - by apply elem_of_nil in Hin.
  - apply NoDup_cons in Hnd as [Hc Hnd]. simpl.
    destruct (decide (c = col)) as [->|Hne].
    + rewrite pick_one_hot_loop; [apply pick_eqb_one_hot|].
      intros c' Hc'. split.
      * apply String.eqb_neq. by intros ->.
      * apply Hoth; [set_solver|]. by intros ->.
    + apply IH; [done|set_solver|]. intros c' Hc' Hne'. apply Hoth; [set_solver|done].
Qed.

Lemma eqb_not_in (n : string) (l : list string) :
  n ∉ l → ∀ m, m ∈ l → String.eqb n m = false.
Proof. intros Hn m Hm. apply String.eqb_neq. by intros ->. Qed.

Lemma pick_fill_numeric_nil p t : pick p t = [] → pick p (fill_numeric_table t) = [].
Proof. intros Hp. by rewrite pick_fill_numeric, Hp. Qed.

(** The stages of the outing encoder after the categorical fields. *)
Lemma pick_sorties_tail `{PyLibs} p t :
  (∀ n, n ∈ (SORTIES_BOOL_COLS ++ SORTIES_NUMERIC_COLS ++ ["date"; "mois"; "jour_semaine"])%list
        → p n = false) →
  pick p (encode_date_table
            (foldl (λ t c, coerce_numeric_fill_table c t)
               (foldl (λ t c, flag_to_int_table c t) t SORTIES_BOOL_COLS)
               SORTIES_NUMERIC_COLS))
  = pick p t.
Proof.
  intros Hp.
  rewrite pick_encode_date by (apply Hp; rewrite !elem_of_app; right; right; later_list).
  rewrite (pick_foldl p coerce_numeric_fill_table).
  2:{ intros c t' Hc. apply pick_coerce_numeric_fill, Hp. rewrite !elem_of_app. auto. }
  rewrite (pick_foldl p flag_to_int_table).
  2:{ intros c t' Hc. apply pick_flag_to_int, Hp. rewrite !elem_of_app. auto. }
  done.
Qed.

(** The stages of the preference encoder after the categorical fields. *)
Lemma pick_preferences_tail `{PyLibs} p t :
  (∀ n, n ∈ PREF_LATER → p n = false) →
  pick p (foldl (λ t c, coerce_numeric_table c t)
            (encode_hour_table "end" "end_hour"
               (encode_hour_table "start" "start_hour"
                  (encode_available_days_table
                     (foldl (λ t c, flag_to_int_table c t) t PREF_BOOL_COLS))))
            ["latitude"; "longitude"; "averageSpeed"])
  = pick p t.
Proof.
  intros Hp.
  rewrite (pick_foldl p coerce_numeric_table).
  2:{ intros c t' Hc. apply pick_coerce_numeric, Hp.
      repeat (apply elem_of_cons in Hc as [->|Hc]; [later_list|]).
      by apply elem_of_nil in Hc. }
  rewrite !pick_encode_hour by (apply Hp; later_list).
  rewrite pick_encode_available_days.
  2:{ intros j Hj. by apply Hp, day_col_later. }
  2:{ apply Hp. later_list. }
  rewrite (pick_foldl p flag_to_int_table).
  2:{ intros c t' Hc. by apply pick_flag_to_int, Hp, flag_later. }
  done.
Qed.

Lemma sorties_raw_removed `{PyLibs} col t :
  col ∈ (SORTIES_REMOVE_TEXT_COLS ++ ["difficulte"; "type"; "date"])%list →
  col ∉ names (prepare_sorties_table t).
Proof.
  intros Hcol. apply pick_nil_absent.
  rewrite prepare_sorties_unfilled. apply pick_fill_numeric_nil.
  unfold sorties_unfilled. cbv zeta.
  apply elem_of_app in Hcol as [Hcol|Hcol].
  - assert (Hchk : forallb (λ c,
        bool_decide (c ∉ (SORTIES_BOOL_COLS ++ SORTIES_NUMERIC_COLS ++
                          ["date"; "mois"; "jour_semaine"; "difficulte"; "type"])%list)
        && negb (bucket_of "difficulte" c) && negb (bucket_of "type" c))
        SORTIES_REMOVE_TEXT_COLS = true) by (vm_compute; reflexivity).
    rewrite forallb_forall in Hchk. specialize (Hchk col (proj1 (list_elem_of_In _ _) Hcol)).
    apply andb_prop in Hchk as [Hchk Ht]. apply andb_prop in Hchk as [Hout Hd].
    apply bool_decide_eq_true in Hout. apply negb_true_iff in Ht, Hd.
    rewrite pick_sorties_tail.
    2:{ intros n Hn. apply (eqb_not_in col _ Hout). rewrite !elem_of_app in Hn.
        rewrite !elem_of_app. destruct Hn as [?|[?|Hn]]; [auto|auto|].
        right. right.
        repeat (apply elem_of_cons in Hn as [->|Hn]; [later_list|]).
        by apply elem_of_nil in Hn. }
    rewrite !pick_one_hot_other.
    + by apply pick_dropped_fold.
    + apply (eqb_not_in col _ Hout). rewrite !elem_of_app. right. right. later_list.
    + intros lv. by apply eqb_bucket_false.
    + apply (eqb_not_in col _ Hout). rewrite !elem_of_app. right. right. later_list.
    + intros lv. by apply eqb_bucket_false.
  - repeat (apply elem_of_cons in Hcol as [->|Hcol]).
    + rewrite pick_sorties_tail.
      2:{ apply eqb_not_in. apply (bool_decide_unpack _). vm_compute. exact I. }
      rewrite pick_one_hot_other; [apply pick_eqb_one_hot|done|].
      intros lv. apply eqb_bucket_false. vm_compute. reflexivity.
    + rewrite pick_sorties_tail.
      2:{ apply eqb_not_in. apply (bool_decide_unpack _). vm_compute. exact I. }
      apply pick_eqb_one_hot.
    + apply pick_eqb_encode_date.
    + by apply elem_of_nil in Hcol.
Qed.

Lemma preferences_raw_removed `{PyLibs} col t :
  col ∈ (PREF_ONE_HOT_COLS ++ ["availableDays"; "start"; "end"])%list →
  col ∉ names (prepare_preferences_table t).
Proof.
  intros Hcol. apply pick_nil_absent.
  rewrite prepare_preferences_unfilled. apply pick_fill_numeric_nil.
  rewrite preferences_unfilled_flagged.
  apply elem_of_app in Hcol as [Hcol|Hcol].
  - assert (Hchk : forallb (λ c, bool_decide (c ∉ PREF_LATER)) PREF_ONE_HOT_COLS = true)
      by (vm_compute; reflexivity).
    rewrite forallb_forall in Hchk. specialize (Hchk col (proj1 (list_elem_of_In _ _) Hcol)).
    apply bool_decide_eq_true in Hchk.
    unfold preferences_flagged. cbv zeta.
    rewrite pick_preferences_tail by (by apply eqb_not_in).
    apply pick_one_hot_loop_removed; [apply NoDup_PREF_ONE_HOT_COLS|done|].
    intros c Hc Hne.
    assert (Hap : all_apart PREF_ONE_HOT_COLS = true) by (vm_compute; reflexivity).
    by apply (all_apart_spec PREF_ONE_HOT_COLS col c Hap).
  - repeat (apply elem_of_cons in Hcol as [->|Hcol]).
    + rewrite (pick_foldl _ coerce_numeric_table).
      2:{ intros c t' Hc. apply pick_coerce_numeric.
          repeat (apply elem_of_cons in Hc as [->|Hc]; [done|]).
          by apply elem_of_nil in Hc. }
      rewrite !pick_encode_hour by done. apply pick_eqb_encode_available_days.
    + rewrite (pick_foldl _ coerce_numeric_table).
      2:{ intros c t' Hc. apply pick_coerce_numeric.
          repeat (apply elem_of_cons in Hc as [->|Hc]; [done|]).
          by apply elem_of_nil in Hc. }
      rewrite pick_encode_hour by done. by apply pick_eqb_encode_hour.
    + rewrite (pick_foldl _ coerce_numeric_table).
      2:{ intros c t' Hc. apply pick_coerce_numeric.
          repeat (apply elem_of_cons in Hc as [->|Hc]; [done|]).
          by apply elem_of_nil in Hc. }
      by apply pick_eqb_encode_hour.
    + by apply elem_of_nil in Hcol.
Qed.

(** X9: the fields an encoder consumes are not in the table it returns,
    whatever the table holds: the outing encoder returns no free-text field
    (titre, description, photo, createurId, itineraire_description), and
    neither [difficulte], [type] nor [date]; the preference encoder returns
    none of its categorical fields, and neither [availableDays], [start]
    nor [end]. *)
Theorem raw_fields_removed `{PyLibs} (h : Heap) (df : ref)
    (Hlabels : NoDup (names (frame_at h df))) :
  (∃ r' h', prepare_sorties_dataframe df h = (Ok r', h') ∧
     ∀ col, col ∈ (SORTIES_REMOVE_TEXT_COLS ++ ["difficulte"; "type"; "date"])%list →
            col ∉ names (frame_at h' r')) ∧
  (∃ r' h', prepare_preferences_dataframe df h = (Ok r', h') ∧
     ∀ col, col ∈ (PREF_ONE_HOT_COLS ++ ["availableDays"; "start"; "end"])%list →
            col ∉ names (frame_at h' r')).
Proof.
  split.
  - destruct (prepare_sorties_run h df) as (r' & h' & E & _ & F & _).
    exists r', h'. split; [exact E|]. rewrite F. intros col. apply sorties_raw_removed.
  - destruct (prepare_preferences_run h df) as (r' & h' & E & _ & F & _).
    exists r', h'. split; [exact E|]. rewrite F. intros col. apply preferences_raw_removed.
Qed.

(** The two outings of [sample_outings]: their type and their difficulty
    are in bucket columns only. *)
Lemma raw_fields_removed_sample :
  ∃ r' h', @prepare_sorties_dataframe sample_libs 0%nat (store_of sample_outings) = (Ok r', h') ∧
           ("type" ∉ names (frame_at h' r')) ∧ ("difficulte" ∉ names (frame_at h' r')).
Proof.
  destruct (@raw_fields_removed sample_libs (store_of sample_outings) 0%nat)
    as ((r' & h' & E & Hout) & _).
  - apply (bool_decide_unpack _). vm_compute. exact I.
  - exists r', h'. split; [exact E|]. split; apply Hout; later_list.
Defined.

(** ** Flags and numeric fields *)

(** A loop that rewrites the column of each label of a list. *)
Lemma cols_named_rewritten (f : Series -> Series) (step : string -> Table -> Table)
    (l : list string) col t u :
  (∀ c t, step c t = match lookup_col c t with
                     | Some s => set_col c (f s) t
                     | None => t
                     end) →
  NoDup l → col ∈ l → cols_named col t = [u] →
  cols_named col (foldl (λ t c, step c t) t l) = [f u].
Proof.
  intros Hstep Hnd Hin. revert t u.
  assert (Hkeep : ∀ l t, col ∉ l →
            cols_named col (foldl (λ t c, step c t) t l) = cols_named col t).
  { clear Hnd Hin. intros l'. induction l' as [|c l' IH]; intros t Hc; [done|]. simpl.
    rewrite IH by set_solver. rewrite Hstep. destruct (lookup_col c t); [|done].
    apply cols_named_set_col_ne. set_solver. }
  induction l as [|c l IH]; intros t u Hu; [by apply elem_of_nil in Hin|].
  apply NoDup_cons in Hnd as [Hc Hnd]. simpl.
  destruct (decide (c = col)) as [->|Hne].
  - rewrite Hkeep by done. rewrite Hstep, (lookup_col_cols_named _ _ _ Hu).
    apply cols_named_set_col_one. by rewrite Hu.
  - apply IH; [done|set_solver|]. rewrite Hstep. destruct (lookup_col c t); [|done].
    by rewrite cols_named_set_col_ne.
Qed.

Lemma filled_flags mask : filled (bools_as_int mask) = bools_as_int mask.
Proof.
  unfold filled, bools_as_int, fillna. simpl. f_equal. rewrite map_map.
  apply map_ext. intros b. done.
Qed.

Lemma filled_fillna s : filled (fillna (VInt 0) s) = fillna (VInt 0) s.
Proof.
  unfold filled. rewrite dtype_fillna_int.
  destruct (is_numeric_dtype (dtype s)); [apply fillna_zero_idem|done].
Qed.

Lemma cols_named_keep_onboarded `{PyLibs} n t s :
  cols_named n t = [s] → cols_named n (keep_onboarded_table t) = [kept t s].
Proof.
  intros Hs. rewrite cols_named_pick, pick_keep_onboarded, pick_eqb_cols_named, Hs. done.
Qed.

(** The stages of the preference encoder after the flags. *)
Lemma pick_preferences_after_flags `{PyLibs} p t :
  (∀ j, j ∈ PREF_DAYS → p (day_col j) = false) →
  (∀ n, n ∈ ["availableDays"; "start"; "start_hour"; "end"; "end_hour";
             "latitude"; "longitude"; "averageSpeed"] → p n = false) →
  pick p (foldl (λ t c, coerce_numeric_table c t)
            (encode_hour_table "end" "end_hour"
               (encode_hour_table "start" "start_hour" (encode_available_days_table t)))
            ["latitude"; "longitude"; "averageSpeed"])
  = pick p t.
Proof.
  intros Hd Hp.
  rewrite (pick_foldl p coerce_numeric_table).
  2:{ intros c t' Hc. apply pick_coerce_numeric, Hp.
      repeat (apply elem_of_cons in Hc as [->|Hc]; [later_list|]).
      by apply elem_of_nil in Hc. }
  rewrite !pick_encode_hour by (apply Hp; later_list).
  rewrite pick_encode_available_days; [done|done|]. apply Hp. later_list.
Qed.

Lemma preferences_flag_column `{PyLibs} col t s :
  col ∈ PREF_BOOL_COLS → NoDup (names t) → lookup_col col t = Some s →
  cols_named col (prepare_preferences_table t) = [bools_as_int (isin_truthy (kept t s))].
Proof.
  intros Hcol Hnd Hs. rewrite prepare_preferences_unfilled.
  rewrite (cols_named_filled _ _ (bools_as_int (isin_truthy (kept t s))));
    [by rewrite filled_flags|].
  rewrite preferences_unfilled_flagged.
  assert (Hchk : forallb (λ c,
      onehot_free PREF_ONE_HOT_COLS c
      && forallb (λ j, negb (String.eqb c (day_col j))) PREF_DAYS
      && bool_decide (c ∉ ["availableDays"; "start"; "start_hour"; "end"; "end_hour";
                           "latitude"; "longitude"; "averageSpeed"]))
      PREF_BOOL_COLS = true) by (vm_compute; reflexivity).
  rewrite forallb_forall in Hchk. specialize (Hchk col (proj1 (list_elem_of_In _ _) Hcol)).
  apply andb_prop in Hchk as [Hchk Hout]. apply andb_prop in Hchk as [Hfree Hdays].
  apply bool_decide_eq_true in Hout.
  rewrite cols_named_pick, pick_preferences_after_flags, <- cols_named_pick.
  2:{ by apply eqb_days_false. }
  2:{ by apply eqb_not_in. }
  unfold preferences_flagged. cbv zeta.
  apply (cols_named_rewritten (λ s, bools_as_int (isin_truthy s)) flag_to_int_table).
  - done.
  - apply (bool_decide_unpack _). vm_compute. exact I.
  - done.
  - rewrite cols_named_pick, pick_one_hot_loop, <- cols_named_pick.
    + apply cols_named_keep_onboarded. by apply cols_named_NoDup.
    + intros c Hc. by apply onehot_free_eqb with (cols := PREF_ONE_HOT_COLS).
Qed.

(** The stages of the outing encoder before the flags. *)
Lemma pick_sorties_head `{PyLibs} p t :
  (∀ n, n ∈ SORTIES_REMOVE_TEXT_COLS → p n = false) →
  (∀ c, c ∈ ["difficulte"; "type"] → p c = false ∧ ∀ lv, p (c +:+ "_" +:+ lv) = false) →
  pick p (one_hot_table "UNKNOWN" "type"
            (one_hot_table "INCONNUE" "difficulte"
               (foldl (λ t c, drop_if_present_table c t) t SORTIES_REMOVE_TEXT_COLS)))
  = pick p t.
Proof.
  intros Hr Hc.
  destruct (Hc "difficulte") as [Hd Hdl]; [later_list|].
  destruct (Hc "type") as [Ht Htl]; [later_list|].
  rewrite !pick_one_hot_other by done.
  apply (pick_foldl p drop_if_present_table). intros c t' Hin.
  by apply pick_drop_if_present, Hr.
Qed.

Lemma sorties_label_free col :
  col ∈ (SORTIES_BOOL_COLS ++ SORTIES_NUMERIC_COLS ++ ["mois"; "jour_semaine"; "date"])%list →
  (∀ n, n ∈ SORTIES_REMOVE_TEXT_COLS → String.eqb col n = false) ∧
  (∀ c, c ∈ ["difficulte"; "type"] →
        String.eqb col c = false ∧ ∀ lv, String.eqb col (c +:+ "_" +:+ lv) = false).
Proof.
  intros Hcol.
  assert (Hchk : forallb (λ c,
      bool_decide (c ∉ (SORTIES_REMOVE_TEXT_COLS ++ ["difficulte"; "type"])%list)
      && negb (bucket_of "difficulte" c) && negb (bucket_of "type" c))
      (SORTIES_BOOL_COLS ++ SORTIES_NUMERIC_COLS ++ ["mois"; "jour_semaine"; "date"])
      = true) by (vm_compute; reflexivity).
  rewrite forallb_forall in Hchk. specialize (Hchk col (proj1 (list_elem_of_In _ _) Hcol)).
  apply andb_prop in Hchk as [Hchk Ht]. apply andb_prop in Hchk as [Hout Hd].
  apply bool_decide_eq_true in Hout. apply negb_true_iff in Ht, Hd.
  split.
  - intros n Hn. apply (eqb_not_in col _ Hout). rewrite elem_of_app. by left.
  - intros c Hc. split.
    + apply (eqb_not_in col _ Hout). rewrite elem_of_app. by right.
    + intros lv. apply eqb_bucket_false.
      repeat (apply elem_of_cons in Hc as [->|Hc]; [done|]). by apply elem_of_nil in Hc.
Qed.

Lemma cols_named_sorties_head `{PyLibs} col t :
  col ∈ (SORTIES_BOOL_COLS ++ SORTIES_NUMERIC_COLS ++ ["mois"; "jour_semaine"; "date"])%list →
  cols_named col (one_hot_table "UNKNOWN" "type"
                    (one_hot_table "INCONNUE" "difficulte"
                       (foldl (λ t c, drop_if_present_table c t) t
                              SORTIES_REMOVE_TEXT_COLS)))
  = cols_named col t.
Proof.
  intros Hcol. destruct (sorties_label_free col Hcol) as [Hr Hc].
  by rewrite cols_named_pick, pick_sorties_head, <- cols_named_pick.
Qed.

Lemma sorties_flag_column `{PyLibs} col t s :
  col ∈ SORTIES_BOOL_COLS → NoDup (names t) → lookup_col col t = Some s →
  cols_named col (prepare_sorties_table t) = [bools_as_int (isin_truthy s)].
Proof.
  intros Hcol Hnd Hs. rewrite prepare_sorties_unfilled.
  rewrite (cols_named_filled _ _ (bools_as_int (isin_truthy s)));
    [by rewrite filled_flags|].
  unfold sorties_unfilled. cbv zeta.
  assert (Hout : col ∉ (SORTIES_NUMERIC_COLS ++ ["date"; "mois"; "jour_semaine"])%list).
  { assert (Hchk : forallb (λ c, bool_decide
        (c ∉ (SORTIES_NUMERIC_COLS ++ ["date"; "mois"; "jour_semaine"])%list))
        SORTIES_BOOL_COLS = true) by (vm_compute; reflexivity).
    rewrite forallb_forall in Hchk.
    specialize (Hchk col (proj1 (list_elem_of_In _ _) Hcol)).
    by apply bool_decide_eq_true in Hchk. }
  rewrite cols_named_pick, pick_encode_date, (pick_foldl _ coerce_numeric_fill_table),
    <- cols_named_pick.
  - apply (cols_named_rewritten (λ s, bools_as_int (isin_truthy s)) flag_to_int_table).
    + done.
    + apply (bool_decide_unpack _). vm_compute. exact I.
    + done.
    + rewrite cols_named_sorties_head by (rewrite elem_of_app; by left).
      by apply cols_named_NoDup.
  - intros c t' Hc. apply pick_coerce_numeric_fill, (eqb_not_in col _ Hout).
    rewrite elem_of_app. by left.
  - apply (eqb_not_in col _ Hout). rewrite elem_of_app. right. later_list.
  - apply (eqb_not_in col _ Hout). rewrite elem_of_app. right. later_list.
  - apply (eqb_not_in col _ Hout). rewrite elem_of_app. right. later_list.
Qed.

(** X10: a flag field of the input (cyclingGroupInterest and campingPractice
    of a user, option_camping and camping of an outing) is an int column of
    the encoded table: 1 in the rows whose value, as a lowercased str, is
    true, 1 or yes, and 0 in every other row, a missing value included. The
    preference encoder keeps the rows of completed onboardings only. *)
Theorem flags_encoded `{PyLibs} (h : Heap) (df : ref) (col : string) (s : Series)
    (Hlabels : NoDup (names (frame_at h df)))
    (Hfield : lookup_col col (frame_at h df) = Some s) :
  (col ∈ PREF_BOOL_COLS →
     ∃ r' h', prepare_preferences_dataframe df h = (Ok r', h') ∧
       cols_named col (frame_at h' r')
       = [mkSeries DInt (map (λ c, VInt (if truthy c then 1 else 0))
                           (cells (kept (frame_at h df) s)))]) ∧
  (col ∈ SORTIES_BOOL_COLS →
     ∃ r' h', prepare_sorties_dataframe df h = (Ok r', h') ∧
       cols_named col (frame_at h' r')
       = [mkSeries DInt (map (λ c, VInt (if truthy c then 1 else 0)) (cells s))]) ∧
  (∀ c, truthy c = true ↔ py_lower (py_str c) ∈ ["true"; "1"; "yes"]).
Proof.
  assert (Hint : ∀ u, bools_as_int (isin_truthy u)
                      = mkSeries DInt (map (λ c, VInt (if truthy c then 1 else 0)) (cells u))).
  { intros u. unfold bools_as_int, isin_truthy. by rewrite map_map. }
  split; [|split].
  - intros Hcol. destruct (prepare_preferences_run h df) as (r' & h' & E & _ & F & _).
    exists r', h'. split; [exact E|]. rewrite F, <- Hint.
    by apply preferences_flag_column.
  - intros Hcol. destruct (prepare_sorties_run h df) as (r' & h' & E & _ & F & _).
    exists r', h'. split; [exact E|]. rewrite F, <- Hint.
    by apply sorties_flag_column.
  - intros c. unfold truthy, TRUTHY. apply bool_decide_eq_true.
Qed.


(** The camping options of the four outings of [sample_options]. *)
Lemma flags_encoded_sample :
  ∃ r' h', @prepare_sorties_dataframe sample_libs 0%nat (store_of sample_options) = (Ok r', h') ∧
           cols_named "option_camping" (frame_at h' r')
           = [mkSeries DInt [VInt 1; VInt 1; VInt 0; VInt 0]].
Proof.
  destruct (@flags_encoded sample_libs (store_of sample_options) 0%nat "option_camping"
              (mkSeries DObject [VBool true; VStr "Yes"; VInt 0; VNone]))
    as (_ & Hsorties & _).
  - apply (bool_decide_unpack _). vm_compute. exact I.
  - vm_compute. reflexivity.
  - destruct Hsorties as (r' & h' & E & Hcol); [later_list|].
    exists r', h'. split; [exact E|]. rewrite Hcol. vm_compute. reflexivity.
Defined.

Lemma sorties_numeric_column `{PyLibs} col t s :
  col ∈ SORTIES_NUMERIC_COLS → NoDup (names t) → lookup_col col t = Some s →
  cols_named col (prepare_sorties_table t) = [fillna (VInt 0) (pd_to_numeric s)].
Proof.
  intros Hcol Hnd Hs. rewrite prepare_sorties_unfilled.
  rewrite (cols_named_filled _ _ (fillna (VInt 0) (pd_to_numeric s)));
    [by rewrite filled_fillna|].
  unfold sorties_unfilled. cbv zeta.
  assert (Hout : col ∉ (SORTIES_BOOL_COLS ++ ["date"; "mois"; "jour_semaine"])%list).
  { assert (Hchk : forallb (λ c, bool_decide
        (c ∉ (SORTIES_BOOL_COLS ++ ["date"; "mois"; "jour_semaine"])%list))
        SORTIES_NUMERIC_COLS = true) by (vm_compute; reflexivity).
    rewrite forallb_forall in Hchk.
    specialize (Hchk col (proj1 (list_elem_of_In _ _) Hcol)).
    by apply bool_decide_eq_true in Hchk. }
  rewrite cols_named_pick, pick_encode_date, <- cols_named_pick.
  - apply (cols_named_rewritten (λ s, fillna (VInt 0) (pd_to_numeric s))
             coerce_numeric_fill_table).
    + done.
    + apply (bool_decide_unpack _). vm_compute. exact I.
    + done.
    + rewrite cols_named_pick, (pick_foldl _ flag_to_int_table), <- cols_named_pick.
      * rewrite cols_named_sorties_head by (rewrite !elem_of_app; auto).
        by apply cols_named_NoDup.
      * intros c t' Hc. apply pick_flag_to_int, (eqb_not_in col _ Hout).
        rewrite elem_of_app. by left.
  - apply (eqb_not_in col _ Hout). rewrite elem_of_app. right. later_list.
  - apply (eqb_not_in col _ Hout). rewrite elem_of_app. right. later_list.
  - apply (eqb_not_in col _ Hout). rewrite elem_of_app. right. later_list.
Qed.

Lemma preferences_numeric_column `{PyLibs} col t s :
  col ∈ ["latitude"; "longitude"; "averageSpeed"] → NoDup (names t) →
  lookup_col col t = Some s →
  cols_named col (prepare_preferences_table t) = [filled (pd_to_numeric (kept t s))].
Proof.
  intros Hcol Hnd Hs. rewrite prepare_preferences_unfilled. apply cols_named_filled.
  rewrite preferences_unfilled_flagged.
  assert (Hchk : forallb (λ c,
      onehot_free PREF_ONE_HOT_COLS c
      && forallb (λ j, negb (String.eqb c (day_col j))) PREF_DAYS
      && bool_decide (c ∉ (PREF_BOOL_COLS ++
                           ["availableDays"; "start"; "start_hour"; "end"; "end_hour"])%list))
      ["latitude"; "longitude"; "averageSpeed"] = true) by (vm_compute; reflexivity).
  rewrite forallb_forall in Hchk. specialize (Hchk col (proj1 (list_elem_of_In _ _) Hcol)).
  apply andb_prop in Hchk as [Hchk Hout]. apply andb_prop in Hchk as [Hfree Hdays].
  apply bool_decide_eq_true in Hout.
  apply (cols_named_rewritten pd_to_numeric coerce_numeric_table).
  - done.
  - apply (bool_decide_unpack _). vm_compute. exact I.
  - done.
  - rewrite cols_named_pick, !pick_encode_hour, <- cols_named_pick.
    + rewrite cols_named_after_days; try done.
      * by rewrite (cols_named_NoDup col t s).
      * intros Hin. apply Hout. rewrite elem_of_app. by left.
      * intros ->. apply Hout. rewrite elem_of_app. right. later_list.
    + apply (eqb_not_in col _ Hout). rewrite elem_of_app. right. later_list.
    + apply (eqb_not_in col _ Hout). rewrite elem_of_app. right. later_list.
    + apply (eqb_not_in col _ Hout). rewrite elem_of_app. right. later_list.
    + apply (eqb_not_in col _ Hout). rewrite elem_of_app. right. later_list.
Qed.

Lemma fillna_zero_cell u i c :
  cells u !! i = Some c →
  ∃ c', cells (fillna (VInt 0) u) !! i = Some c' ∧
        if pd_isna c then number_cell 0 c' else c' = c.
Proof.
  intros Hi. unfold fillna. simpl.
  change (map ?f ?l) with (f <$> l). rewrite list_lookup_fmap, Hi. simpl.
  eexists. split; [reflexivity|].
  destruct (pd_isna c); [|done]. destruct (dtype u); first [by left | by right].
Qed.

(** X11: a designated numeric field of an outing (capacite, distance,
    duree_estimee and the four coordinates) is in the encoded table the
    column [pd.to_numeric] makes of it with 0 in the place of its missing
    cells: no cell of it is missing, whatever the dtype of the column. A
    designated numeric field of a user (latitude, longitude, averageSpeed)
    is the column [pd.to_numeric] makes of the rows kept, which is a
    numeric column as [errors="coerce"] always gives one, with 0 in the
    place of its missing cells: no cell of it is missing either. Filling
    leaves every cell that is not missing as it is and puts the number 0
    in the others. *)
Theorem numeric_fields_encoded `{PyLibs} (h : Heap) (df : ref) (col : string) (s : Series)
    (Hlabels : NoDup (names (frame_at h df)))
    (Hfield : lookup_col col (frame_at h df) = Some s) :
  (col ∈ SORTIES_NUMERIC_COLS →
     ∃ r' h', prepare_sorties_dataframe df h = (Ok r', h') ∧
       cols_named col (frame_at h' r') = [fillna (VInt 0) (pd_to_numeric s)] ∧
       ∀ x, x ∈ cells (fillna (VInt 0) (pd_to_numeric s)) → pd_isna x = false) ∧
  (col ∈ ["latitude"; "longitude"; "averageSpeed"] →
   is_numeric_dtype (dtype (pd_to_numeric (kept (frame_at h df) s))) = true →
     ∃ r' h', prepare_preferences_dataframe df h = (Ok r', h') ∧
       cols_named col (frame_at h' r')
       = [fillna (VInt 0) (pd_to_numeric (kept (frame_at h df) s))] ∧
       ∀ x, x ∈ cells (fillna (VInt 0) (pd_to_numeric (kept (frame_at h df) s))) →
            pd_isna x = false) ∧
  (∀ u i c, cells u !! i = Some c →
     ∃ c', cells (fillna (VInt 0) u) !! i = Some c' ∧
           if pd_isna c then number_cell 0 c' else c' = c).
Proof.
  split; [|split].
  - intros Hcol. destruct (prepare_sorties_run h df) as (r' & h' & E & _ & F & _).
    exists r', h'. split; [exact E|]. rewrite F. split.
    + by apply sorties_numeric_column.
    + intros x. apply fillna_zero_no_na.
  - intros Hcol Hnum.
    destruct (prepare_preferences_run h df) as (r' & h' & E & _ & F & _).
    exists r', h'. split; [exact E|]. rewrite F. split.
    + rewrite (preferences_numeric_column col (frame_at h df) s) by done.
      unfold filled. by rewrite Hnum.
    + intros x. apply fillna_zero_no_na.
  - apply fillna_zero_cell.
Qed.

(** The latitudes of the two users of [sample_places] whose onboarding is
    complete. *)
Lemma numeric_fields_encoded_sample :
  ∃ r' h', @prepare_preferences_dataframe sample_libs_numeric 0%nat (store_of sample_places)
           = (Ok r', h') ∧
           cols_named "latitude" (frame_at h' r')
           = [mkSeries DFloat [VFloat 48.5; VFloat 0]].
Proof.
  destruct (@numeric_fields_encoded sample_libs_numeric (store_of sample_places) 0%nat
              "latitude" (mkSeries DObject [VFloat 48.5; VFloat 43.25; VStr "north"]))
    as (_ & Husers & _).
  - apply (bool_decide_unpack _). vm_compute. exact I.
  - vm_compute. reflexivity.
  - destruct Husers as (r' & h' & E & Hcol & _); [later_list|vm_compute; reflexivity|].
    exists r', h'. split; [exact E|]. rewrite Hcol. vm_compute. reflexivity.
Defined.


(** ** The date of an outing *)

Lemma small_int_not_nan (z : Z) :
  (0 ≤ z ≤ 12)%Z → PrimFloat.is_nan (SF2Prim (binary_normalize prec emax z 0 false)) = false.
Proof.
  intros Hz.
  assert (Hcases : z = 0 ∨ z = 1 ∨ z = 2 ∨ z = 3 ∨ z = 4 ∨ z = 5 ∨ z = 6 ∨ z = 7 ∨
                   z = 8 ∨ z = 9 ∨ z = 10 ∨ z = 11 ∨ z = 12) by lia.
  repeat (destruct Hcases as [->|Hcases]; [vm_compute; reflexivity|]).
  subst z. vm_compute. reflexivity.
Qed.

Lemma date_part_cells (part : Z * Z -> Z) d0 (datetime64 : bool)
    (parsed : list (option (Z * Z))) i d :
  (∀ x, Some x ∈ parsed → (0 ≤ part x ≤ 12)%Z) →
  parsed !! i = Some d →
  ∃ c, cells (filled (date_part part d0 datetime64 parsed)) !! i = Some c ∧
       number_cell (from_option part 0 d) c.
Proof.
  intros Hrange Hi. unfold date_part.
  destruct parsed as [|d1 parsed']; [done|].
  set (parsed := d1 :: parsed') in *. clearbody parsed.
  destruct (datetime64 && existsb (λ d, bool_decide (is_Some d)) parsed
            && existsb (λ d, negb (bool_decide (is_Some d))) parsed).
  - unfold filled, fillna. simpl. rewrite map_map.
    change (map ?f ?l) with (f <$> l). rewrite list_lookup_fmap, Hi. simpl.
    destruct d as [x|]; simpl.
    + rewrite small_int_not_nan
        by (apply Hrange; by apply list_elem_of_lookup_2 in Hi).
      eexists. split; [reflexivity|]. by right.
    + eexists. split; [reflexivity|]. by right.
  - exists (VInt (from_option part 0 d)). split; [|by left].
    unfold filled, fillna. simpl. rewrite map_map.
    change (map ?f ?l) with (f <$> l). by rewrite list_lookup_fmap, Hi.
Qed.

Lemma cols_named_sorties_mid `{PyLibs} col t :
  col ∈ ["mois"; "jour_semaine"; "date"] →
  cols_named col
    (foldl (λ t c, coerce_numeric_fill_table c t)
       (foldl (λ t c, flag_to_int_table c t)
          (one_hot_table "UNKNOWN" "type"
             (one_hot_table "INCONNUE" "difficulte"
                (foldl (λ t c, drop_if_present_table c t) t SORTIES_REMOVE_TEXT_COLS)))
          SORTIES_BOOL_COLS)
       SORTIES_NUMERIC_COLS)
  = cols_named col t.
Proof.
  intros Hcol.
  assert (Hout : col ∉ (SORTIES_BOOL_COLS ++ SORTIES_NUMERIC_COLS)%list).
  { repeat (apply elem_of_cons in Hcol as [->|Hcol];
            [apply (bool_decide_unpack _); vm_compute; exact I|]).
    by apply elem_of_nil in Hcol. }
  rewrite cols_named_pick, (pick_foldl _ coerce_numeric_fill_table),
    (pick_foldl _ flag_to_int_table), <- cols_named_pick.
  - apply cols_named_sorties_head. rewrite !elem_of_app. auto.
  - intros c t' Hc. apply pick_flag_to_int, (eqb_not_in col _ Hout).
    rewrite elem_of_app. by left.
  - intros c t' Hc. apply pick_coerce_numeric_fill, (eqb_not_in col _ Hout).
    rewrite elem_of_app. by right.
Qed.

Lemma sorties_date_columns `{PyLibs} t s :
  NoDup (names t) → lookup_col "date" t = Some s →
  cols_named "mois" (prepare_sorties_table t)
  = [filled (date_part fst (dtype s) (datetime64_column (parsed_texts (cells s)))
               (map _parse_datetime_safe (cells s)))] ∧
  cols_named "jour_semaine" (prepare_sorties_table t)
  = [filled (date_part snd (dtype s) (datetime64_column (parsed_texts (cells s)))
               (map _parse_datetime_safe (cells s)))].
Proof.
  intros Hnd Hs. rewrite prepare_sorties_unfilled.
  unfold sorties_unfilled. cbv zeta.
  match goal with |- context [encode_date_table ?T] => set (T0 := T) end.
  assert (Hdate : lookup_col "date" T0 = Some s).
  { apply lookup_col_cols_named. unfold T0. rewrite cols_named_sorties_mid by later_list.
    by apply cols_named_NoDup. }
  assert (Hm : (length (cols_named "mois" T0) ≤ 1)%nat).
  { unfold T0. rewrite cols_named_sorties_mid by later_list. by apply NoDup_cols_named_le. }
  assert (Hj : (length (cols_named "jour_semaine" T0) ≤ 1)%nat).
  { unfold T0. rewrite cols_named_sorties_mid by later_list. by apply NoDup_cols_named_le. }
  clearbody T0. unfold encode_date_table. rewrite Hdate. cbv zeta. split.
  - apply cols_named_filled.
    rewrite cols_named_drop_cols by (apply (bool_decide_unpack _); vm_compute; exact I).
    rewrite cols_named_set_col_ne by done. by apply cols_named_set_col_one.
  - apply cols_named_filled.
    rewrite cols_named_drop_cols by (apply (bool_decide_unpack _); vm_compute; exact I).
    apply cols_named_set_col_one. by rewrite cols_named_set_col_ne.
Qed.

(** X12: when the outings have the field [date], the encoded table has the
    columns [mois] and [jour_semaine] and, row by row, they hold the month
    and the weekday of the parsed date, as ints or as floats; a row whose
    date is missing or is no date holds 0 in both, and the encoder does
    not raise. The months a parser gives are 1 to 12 and its weekdays 0
    to 6. *)
Theorem date_fields_encoded `{PyLibs} (h : Heap) (df : ref) (s : Series)
    (Hlabels : NoDup (names (frame_at h df)))
    (Hfield : lookup_col "date" (frame_at h df) = Some s)
    (Hrange : ∀ text month weekday,
        dateutil_parse text = Some (month, weekday) →
        (1 ≤ month ≤ 12)%Z ∧ (0 ≤ weekday ≤ 6)%Z) :
  ∃ r' h' mois jour_semaine,
    prepare_sorties_dataframe df h = (Ok r', h') ∧
    cols_named "mois" (frame_at h' r') = [mois] ∧
    cols_named "jour_semaine" (frame_at h' r') = [jour_semaine] ∧
    (∀ i v, cells s !! i = Some v →
       ∃ m wd, cells mois !! i = Some m ∧ cells jour_semaine !! i = Some wd ∧
               match (if pd_isna v then None else dateutil_parse (py_str v)) with
               | Some (month, weekday) => number_cell month m ∧ number_cell weekday wd
               | None => number_cell 0 m ∧ number_cell 0 wd
               end).
Proof.
  destruct (prepare_sorties_run h df) as (r' & h' & E & _ & F & _).
  destruct (sorties_date_columns (frame_at h df) s Hlabels Hfield) as [Hm Hj].
  exists r', h'. eexists _, _. split; [exact E|]. rewrite F.
  split; [exact Hm|]. split; [exact Hj|].
  intros i v Hv.
  assert (Hi : map _parse_datetime_safe (cells s) !! i = Some (_parse_datetime_safe v)).
  { change (map ?f ?l) with (f <$> l). by rewrite list_lookup_fmap, Hv. }
  assert (Hparsed : ∀ x, Some x ∈ map _parse_datetime_safe (cells s) →
                         (1 ≤ x.1 ≤ 12)%Z ∧ (0 ≤ x.2 ≤ 6)%Z).
  { intros [mo wd] Hx. apply list_elem_of_fmap in Hx as (c & Hc & _).
    unfold _parse_datetime_safe in Hc. destruct (pd_isna c); [done|].
    symmetry in Hc. by apply Hrange in Hc. }
  destruct (date_part_cells fst (dtype s) (datetime64_column (parsed_texts (cells s)))
              _ i _ (λ x Hx, ltac:(destruct (Hparsed x Hx); lia)) Hi)
    as (m & Hm' & Hmn).
  destruct (date_part_cells snd (dtype s) (datetime64_column (parsed_texts (cells s)))
              _ i _ (λ x Hx, ltac:(destruct (Hparsed x Hx); lia)) Hi)
    as (wd & Hwd' & Hwdn).
  exists m, wd. split; [exact Hm'|]. split; [exact Hwd'|].
  unfold _parse_datetime_safe in Hmn, Hwdn.
  destruct (if pd_isna v then None else dateutil_parse (py_str v)) as [[mo w]|]; done.
Qed.

(** The three outings of [sample_dates]. *)
Lemma date_fields_encoded_sample :
  ∃ r' h', @prepare_sorties_dataframe sample_libs_dates 0%nat (store_of sample_dates)
           = (Ok r', h') ∧
           cols_named "mois" (frame_at h' r')
           = [mkSeries DFloat [VFloat 5; VFloat 0; VFloat 0]] ∧
           cols_named "jour_semaine" (frame_at h' r')
           = [mkSeries DFloat [VFloat 4; VFloat 0; VFloat 0]].
Proof.
  destruct (@date_fields_encoded sample_libs_dates (store_of sample_dates) 0%nat
              (mkSeries DObject [VStr "2024-05-17"; VStr "soon"; VNone]))
    as (r' & h' & mois & jour & E & Hm & Hj & _).
  - apply (bool_decide_unpack _). vm_compute. exact I.
  - vm_compute. reflexivity.
  - intros text month weekday. simpl.
    destruct (String.eqb text "2024-05-17"); [|discriminate].
    intros Heq. injection Heq as <- <-. lia.
  - exists r', h'. split; [exact E|].
    destruct (@prepare_sorties_run sample_libs_dates (store_of sample_dates) 0%nat)
      as (r2 & h2 & E2 & _ & F2 & _).
    rewrite E2 in E. injection E as <- <-. rewrite F2.
    split; vm_compute; reflexivity.
Defined.

(** ** Alignment of a complete table *)

(** X13: when the table has every required name already, [ensure_features]
    changes no object of the store, the caller's table included: it only
    creates the table it returns, which has the rows of the input and, for
    a list without repeated name, the columns the input has under each
    required name. *)
Theorem ensure_features_complete (h : Heap) (df : ref) (F : list string)
    (Hdf : (df < next_ref h)%nat)
    (Hall : ∀ n, n ∈ F → n ∈ names (frame_at h df)) :
  ∃ r' h', ensure_features df F h = (Ok r', h') ∧
    r' = next_ref h ∧
    (∀ q, (q < next_ref h)%nat → frame_at h' q = frame_at h q) ∧
    nrows (frame_at h' r') = nrows (frame_at h df) ∧
    (NoDup F → ∀ n, n ∈ F →
       cols_named n (frame_at h' r') = cols_named n (frame_at h df)).
Proof.
  destruct (ensure_features_run F h df) as (h' & E & _ & Fr & Hin & Hold).
  exists (next_ref h), h'. split; [exact E|]. split; [done|].
  rewrite (add_missing_id F (frame_at h df) Hall) in Hin, Fr.
  split; [|split].
  - intros q Hq. destruct (decide (q = df)) as [->|Hne].
    + apply Hin. lia.
    + apply Hold; [done|lia].
  - by rewrite Fr.
  - intros Hnd n Hn. rewrite Fr. by apply cols_named_blocks_NoDup.
Qed.

(** The two outings of [sample_outings] aligned on their distance and
    their identifier. *)
Lemma ensure_features_complete_sample :
  ∃ r' h', ensure_features 0%nat ["distance"; "id"] (store_of sample_outings) = (Ok r', h') ∧
           frame_at h' 0%nat = sample_outings ∧
           names (frame_at h' r') = ["distance"; "id"].
Proof.
  destruct (ensure_features_complete (store_of sample_outings) 0%nat ["distance"; "id"])
    as (r' & h' & E & -> & Hold & _).
  - vm_compute. lia.
  - intros n Hn. repeat (apply elem_of_cons in Hn as [->|Hn]; [later_list|]).
    by apply elem_of_nil in Hn.
  - eexists _, h'. split; [exact E|]. split.
    + apply (Hold 0%nat). vm_compute. lia.
    + destruct (ensure_features_run ["distance"; "id"] (store_of sample_outings) 0%nat)
        as (h2 & E2 & _ & F2 & _).
      rewrite E2 in E. injection E as <-. rewrite F2. vm_compute. reflexivity.
Defined.

(** ** Columns made from a field that is absent *)

Lemma names_absent_cols_named n t : cols_named n t = [] → n ∉ names t.
Proof.
  intros Hc Hin. destruct (cols_named_cons n t Hin) as (s & ss & Heq). congruence.
Qed.

Lemma absent_after_fill n t : cols_named n t = [] → n ∉ names (fill_numeric_table t).
Proof.
  intros Hc. apply pick_nil_absent, pick_fill_numeric_nil.
  by rewrite pick_eqb_cols_named, Hc.
Qed.

Lemma encode_hour_absent `{PyLibs} col out t :
  cols_named col t = [] → encode_hour_table col out t = t.
Proof. intros Hc. unfold encode_hour_table, lookup_col. by rewrite Hc. Qed.

Lemma encode_date_absent `{PyLibs} t :
  cols_named "date" t = [] → encode_date_table t = t.
Proof. intros Hc. unfold encode_date_table, lookup_col. by rewrite Hc. Qed.

Lemma cols_named_numerics `{PyLibs} n t :
  n ∉ ["latitude"; "longitude"; "averageSpeed"] →
  cols_named n (foldl (λ t c, coerce_numeric_table c t) t
                      ["latitude"; "longitude"; "averageSpeed"])
  = cols_named n t.
Proof.
  intros Hn. rewrite cols_named_pick, (pick_foldl _ coerce_numeric_table), <- cols_named_pick.
  - done.
  - intros c t' Hc. by apply pick_coerce_numeric, (eqb_not_in n _ Hn).
Qed.

Lemma preferences_no_hour_column `{PyLibs} t :
  ("start" ∉ names t → "start_hour" ∉ names t →
   "start_hour" ∉ names (prepare_preferences_table t)) ∧
  ("end" ∉ names t → "end_hour" ∉ names t →
   "end_hour" ∉ names (prepare_preferences_table t)).
Proof.
  assert (Hkept : ∀ n, n ∉ names t → map (kept t) (cols_named n t) = []).
  { intros n Hn. by rewrite cols_named_nil. }
  assert (Hfree : ∀ n, n ∈ ["start"; "start_hour"; "end"; "end_hour"] → n ∉ names t →
            cols_named n (encode_available_days_table (preferences_flagged t)) = []).
  { intros n Hn Habs. rewrite cols_named_after_days.
    - by apply Hkept.
    - repeat (apply elem_of_cons in Hn as [->|Hn]; [vm_compute; reflexivity|]).
      by apply elem_of_nil in Hn.
    - repeat (apply elem_of_cons in Hn as [->|Hn];
              [apply (bool_decide_unpack _); vm_compute; exact I|]).
      by apply elem_of_nil in Hn.
    - repeat (apply elem_of_cons in Hn as [->|Hn]; [vm_compute; reflexivity|]).
      by apply elem_of_nil in Hn.
    - repeat (apply elem_of_cons in Hn as [->|Hn]; [discriminate|]).
      by apply elem_of_nil in Hn. }
  split.
  - intros Hs Hsh. rewrite prepare_preferences_unfilled. apply absent_after_fill.
    rewrite preferences_unfilled_flagged.
    rewrite cols_named_numerics by (apply (bool_decide_unpack _); vm_compute; exact I).
    rewrite (cols_named_ne (encode_hour_table "end" "end_hour")) by (by apply pick_encode_hour).
    rewrite encode_hour_absent by (apply Hfree; [later_list|done]).
    apply Hfree; [later_list|done].
  - intros He Heh. rewrite prepare_preferences_unfilled. apply absent_after_fill.
    rewrite preferences_unfilled_flagged.
    rewrite cols_named_numerics by (apply (bool_decide_unpack _); vm_compute; exact I).
    rewrite encode_hour_absent.
    + rewrite (cols_named_ne (encode_hour_table "start" "start_hour"))
        by (by apply pick_encode_hour).
      apply Hfree; [later_list|done].
    + rewrite (cols_named_ne (encode_hour_table "start" "start_hour"))
        by (by apply pick_encode_hour).
      apply Hfree; [later_list|done].
Qed.

Lemma sorties_no_date_column `{PyLibs} n t :
  n ∈ ["mois"; "jour_semaine"] → "date" ∉ names t → n ∉ names t →
  n ∉ names (prepare_sorties_table t).
Proof.
  intros Hn Hd Habs. rewrite prepare_sorties_unfilled. apply absent_after_fill.
  unfold sorties_unfilled. cbv zeta.
  rewrite encode_date_absent.
  - rewrite cols_named_sorties_mid.
    + by rewrite cols_named_nil.
    + repeat (apply elem_of_cons in Hn as [->|Hn]; [later_list|]).
      by apply elem_of_nil in Hn.
  - rewrite cols_named_sorties_mid by later_list. by apply cols_named_nil.
Qed.

(** X14: the columns an encoder derives from a field exist only when the
    field does: without [start] (or [end]) the preference encoder adds no
    column [start_hour] (or [end_hour]), and without [date] the outing
    encoder adds neither [mois] nor [jour_semaine]. The alignment that
    follows is what gives such a column (of zeros) to the model. *)
Theorem derived_columns_absent `{PyLibs} (h : Heap) (df : ref)
    (Hlabels : NoDup (names (frame_at h df))) :
  (∃ r' h', prepare_preferences_dataframe df h = (Ok r', h') ∧
     ("start" ∉ names (frame_at h df) → "start_hour" ∉ names (frame_at h df) →
      "start_hour" ∉ names (frame_at h' r')) ∧
     ("end" ∉ names (frame_at h df) → "end_hour" ∉ names (frame_at h df) →
      "end_hour" ∉ names (frame_at h' r'))) ∧
  (∃ r' h', prepare_sorties_dataframe df h = (Ok r', h') ∧
     ∀ n, n ∈ ["mois"; "jour_semaine"] →
          "date" ∉ names (frame_at h df) → n ∉ names (frame_at h df) →
          n ∉ names (frame_at h' r')).
Proof.
  split.
  - destruct (prepare_preferences_run h df) as (r' & h' & E & _ & F & _).
    exists r', h'. split; [exact E|]. rewrite F. apply preferences_no_hour_column.
  - destruct (prepare_sorties_run h df) as (r' & h' & E & _ & F & _).
    exists r', h'. split; [exact E|]. rewrite F. intros n. apply sorties_no_date_column.
Qed.

(** The two outings of [sample_outings] have no date. *)
Lemma derived_columns_absent_sample :
  ∃ r' h', @prepare_sorties_dataframe sample_libs 0%nat (store_of sample_outings) = (Ok r', h') ∧
           "mois" ∉ names (frame_at h' r').
Proof.
  destruct (@derived_columns_absent sample_libs (store_of sample_outings) 0%nat)
    as (_ & r' & h' & E & Hout).
  - apply (bool_decide_unpack _). vm_compute. exact I.
  - exists r', h'. split; [exact E|]. apply Hout.
    + later_list.
    + apply (bool_decide_unpack _). vm_compute. exact I.
    + apply (bool_decide_unpack _). vm_compute. exact I.
Defined.
